(** * fserv-poc: schema conversion and Swagger enhancement

    A shallow embedding of the two Python tools under
    [util-add-schema-to-swagger]:

    - [xsd-to-json-schema.py]  (class [XSDToJSONSchemaConverter]), and
    - [apply-schema-to-swagger.py] (class [SwaggerSchemaApplier]),

    followed by theorems about them.

    Modelling conventions.
    - A Python [str] is a [string], character by character.  [PyStr.lower],
      [PyStr.capitalize] and [PyStr.is_space] are Python's [str.lower],
      [str.capitalize] and the [\s] class on ASCII text, the text for which
      [str.isascii] holds; outside it Python follows the Unicode tables
      (case pairs, title case, further whitespace) and the two differ.
      A statement that rests on how a name is cased or split therefore
      carries the hypothesis [PyStr.isascii] on the names involved.
    - A parsed YAML/JSON tree is a value of type [json]; a Python [dict] is an
      association list in insertion order, with [dict_set] updating a present
      key in place and appending an absent one, as Python dicts do.
    - Exceptions are values of [PyError] carried by the [Result] monad.
    - [print] calls and the [applied_enhancements] log are not modelled: they
      never influence the trees that are returned. *)

From Stdlib Require Import String Ascii List ZArith Bool Lia Permutation.
Import ListNotations.

Open Scope string_scope.

(* ================================================================== *)
(** * Python string primitives *)
(* ================================================================== *)

Module PyStr.

(** [s.startswith(pre)] *)
Definition startswith (s pre : string) : bool := String.prefix pre s.

(** [s.endswith(suf)]: some tail of [s] is [suf]. *)
Fixpoint endswith (s suf : string) : bool :=
  (s =? suf) ||
  match s with
  | EmptyString => false
  | String _ s' => endswith s' suf
  end.

(** [sub in s] for two strings. *)
Fixpoint contains (s sub : string) : bool :=
  String.prefix sub s ||
  match s with
  | EmptyString => false
  | String _ s' => contains s' sub
  end.

(** [s.isascii()]: every character has a code below 128. *)
Definition isascii_char (c : ascii) : bool := (nat_of_ascii c <? 128)%nat.

Fixpoint isascii (s : string) : bool :=
  match s with
  | EmptyString => true
  | String c s' => isascii_char c && isascii s'
  end.

Definition is_upper (c : ascii) : bool :=
  let n := nat_of_ascii c in (65 <=? n)%nat && (n <=? 90)%nat.

Definition is_lower (c : ascii) : bool :=
  let n := nat_of_ascii c in (97 <=? n)%nat && (n <=? 122)%nat.

Definition lower_char (c : ascii) : ascii :=
  if is_upper c then ascii_of_nat (nat_of_ascii c + 32) else c.

Definition upper_char (c : ascii) : ascii :=
  if is_lower c then ascii_of_nat (nat_of_ascii c - 32) else c.

(** [s.lower()], for [s] with [isascii s]. *)
Fixpoint lower (s : string) : string :=
  match s with
  | EmptyString => EmptyString
  | String c s' => String (lower_char c) (lower s')
  end.

(** [s.capitalize()], for [s] with [isascii s]: first character
    upper-cased, the rest lower-cased. *)
Definition capitalize (s : string) : string :=
  match s with
  | EmptyString => EmptyString
  | String c s' => String (upper_char c) (lower s')
  end.

(** The ASCII characters matched by [\s] (those for which [str.isspace]
    holds): tab to carriage return, the four separators 28 to 31, space. *)
Definition is_space (c : ascii) : bool :=
  let n := nat_of_ascii c in
  ((9 <=? n)%nat && (n <=? 13)%nat) ||
  ((28 <=? n)%nat && (n <=? 32)%nat).

(** [bool(s.strip())] *)
Fixpoint strip_nonempty (s : string) : bool :=
  match s with
  | EmptyString => false
  | String c s' => negb (is_space c) || strip_nonempty s'
  end.

(** [s.split(sep)] for a one-character separator. *)
Fixpoint split_on (sep : ascii) (s : string) : list string :=
  match s with
  | EmptyString => [EmptyString]
  | String c s' =>
      if Ascii.eqb c sep then EmptyString :: split_on sep s'
      else match split_on sep s' with
           | w :: ws => String c w :: ws
           | [] => [String c EmptyString]
           end
  end.

(** [''.join(l)] *)
Definition join (l : list string) : string := String.concat "" l.

End PyStr.

(* ================================================================== *)
(** * xsd-to-json-schema.py: pattern and name conversion *)
(* ================================================================== *)

(** [_convert_xsd_pattern_to_json] *)
Definition _convert_xsd_pattern_to_json (xsd_pattern : string) : string :=
  let pattern := xsd_pattern in
  let pattern :=
    if PyStr.contains pattern "|" &&
       negb (PyStr.startswith pattern "(" && PyStr.endswith pattern ")")
    then "(" ++ pattern ++ ")"
    else pattern in
  let pattern :=
    if negb (PyStr.startswith pattern "^") then "^" ++ pattern else pattern in
  let pattern :=
    if negb (PyStr.endswith pattern "$") then pattern ++ "$" else pattern in
  pattern.

(** Separator class of the regular expression [[_\-\s]+]. *)
Definition is_word_sep (c : ascii) : bool :=
  Ascii.eqb c "_" || Ascii.eqb c "-" || PyStr.is_space c.

(** [re.split(r'[_\-\s]+', s)]: the pieces of [s] between maximal runs of
    separators.  [cur] is the piece being read and [in_sep] tells that the
    previous character was a separator. *)
Fixpoint re_split_seps (s cur : string) (in_sep : bool) : list string :=
  match s with
  | EmptyString => [cur]
  | String c s' =>
      if is_word_sep c then
        if in_sep then re_split_seps s' EmptyString true
        else cur :: re_split_seps s' EmptyString true
      else re_split_seps s' (cur ++ String c EmptyString) false
  end.

Definition conversions : list (string * string) :=
  [ ("string2-20", "String2To20");
    ("string3-5", "String3To5");
    ("string5-7", "String5To7");
    ("string2-80", "String2To80");
    ("alpha3-4", "Alpha3To4");
    ("alphanum1-5", "AlphaNum1To5");
    ("amt9v2n", "Amt9V2N");
    ("percent2v3", "Percent2V3");
    ("percent3v2", "Percent3V2");
    ("value14", "Value14");
    ("date8", "Date8");
    ("time6", "Time6");
    ("integer3", "Integer3");
    ("integer5", "Integer5");
    ("length4", "Length4");
    ("sintype", "SINType");
    ("yes1", "Yes1");
    ("yesno1", "YesNo1") ].

(** Lookup in a table with string keys (first entry wins). *)
Fixpoint assoc {A : Type} (k : string) (l : list (string * A)) : option A :=
  match l with
  | [] => None
  | (k', v) :: l' => if k' =? k then Some v else assoc k l'
  end.

Definition nonempty (s : string) : bool :=
  match s with EmptyString => false | _ => true end.

(** [_convert_type_name] *)
Definition _convert_type_name (xsd_name : string) : string :=
  if negb (nonempty xsd_name) then "UnknownType"
  else
    let xsd_name :=
      if PyStr.contains xsd_name ":"
      then List.last (PyStr.split_on ":" xsd_name) EmptyString
      else xsd_name in
    match assoc (PyStr.lower xsd_name) conversions with
    | Some json_name => json_name
    | None =>
        let words := re_split_seps xsd_name EmptyString false in
        PyStr.join (map PyStr.capitalize (filter nonempty words))
    end.

(* ================================================================== *)
(** * JSON trees, Python dicts and exceptions *)
(* ================================================================== *)

#[local] Set Warnings "-register-all".

Inductive json : Type :=
| JNull
| JBool (b : bool)
| JNum (n : Z)
| JStr (s : string)
| JArr (l : list json)
| JObj (d : list (string * json)).

Definition dict : Type := list (string * json).

(** [d[k] = v]: a present key keeps its position, a new key goes last. *)
Fixpoint assoc_set {A : Type} (k : string) (v : A) (l : list (string * A))
  : list (string * A) :=
  match l with
  | [] => [(k, v)]
  | (k', v') :: l' =>
      if k' =? k then (k, v) :: l' else (k', v') :: assoc_set k v l'
  end.

(** [k in d] *)
Definition assoc_mem {A : Type} (k : string) (l : list (string * A)) : bool :=
  match assoc k l with Some _ => true | None => false end.

(** [d.get(k)], with [None] for Python's [None]. *)
Definition dict_get (k : string) (d : dict) : option json := assoc k d.
Definition dict_set (k : string) (v : json) (d : dict) : dict := assoc_set k v d.
Definition dict_mem (k : string) (d : dict) : bool := assoc_mem k d.

(** Python dict equality ignores insertion order. *)
Definition dict_equiv (d1 d2 : dict) : Prop :=
  forall k, dict_get k d1 = dict_get k d2.

(** [bool(v)] *)
Definition truthy (v : json) : bool :=
  match v with
  | JNull => false
  | JBool b => b
  | JNum n => negb (n =? 0)%Z
  | JStr s => nonempty s
  | JArr l => match l with [] => false | _ => true end
  | JObj d => match d with [] => false | _ => true end
  end.

(** [o == s], for [o] the result of a [get] and [s] a string literal. *)
Definition is_str (o : option json) (s : string) : bool :=
  match o with
  | Some (JStr s') => s' =? s
  | _ => false
  end.

(** [isinstance(v, dict)] *)
Definition is_dict (v : json) : bool :=
  match v with JObj _ => true | _ => false end.

Inductive PyError : Type := AttributeError | TypeError | KeyError.

Inductive Result (A : Type) : Type :=
| Ok (a : A)
| Raise (e : PyError).

Arguments Ok {A} a.
Arguments Raise {A} e.

Definition bind {A B : Type} (c : Result A) (k : A -> Result B) : Result B :=
  match c with
  | Ok a => k a
  | Raise e => Raise e
  end.

Notation "x <- c ;; k" := (bind c (fun x => k))
  (at level 61, c at next level, right associativity).

(** A [for] loop whose body may raise, rebuilding the values of a dict. *)
Fixpoint for_items {A : Type} (f : string -> A -> Result A)
  (l : list (string * A)) : Result (list (string * A)) :=
  match l with
  | [] => Ok []
  | (k, v) :: l' =>
      v' <- f k v ;;
      l'' <- for_items f l' ;;
      Ok ((k, v') :: l'')
  end.

(** [key in v] for a string [key] and an arbitrary tree [v]. *)
Definition py_contains (key : string) (v : json) : Result bool :=
  match v with
  | JObj d => Ok (dict_mem key d)
  | JStr s => Ok (PyStr.contains s key)
  | JArr l =>
      Ok (existsb (fun x => match x with JStr s => s =? key | _ => false end) l)
  | _ => Raise TypeError
  end.

(** [v[key]] for a string [key]. *)
Definition py_getitem (v : json) (key : string) : Result json :=
  match v with
  | JObj d => match dict_get key d with
              | Some x => Ok x
              | None => Raise KeyError
              end
  | _ => Raise TypeError
  end.

(** [v[key] = x] for a string [key]. *)
Definition py_setitem (v : json) (key : string) (x : json) : Result json :=
  match v with
  | JObj d => Ok (JObj (dict_set key x d))
  | _ => Raise TypeError
  end.

(* ================================================================== *)
(** * xsd-to-json-schema.py: the type objects read by the converter *)
(* ================================================================== *)

(** The converter reads [xmlschema] objects through [hasattr] and attribute
    access only.  An attribute that may be missing is an [option]; facet
    values carry the type the converter coerces them to ([int], [str],
    [list]). *)

(** One item of a facet mapping ([facets], [constraints]). *)
Inductive FacetEntry : Type :=
| Facet_minLength (n : Z)
| Facet_maxLength (n : Z)
| Facet_length (n : Z)
| Facet_pattern (p : string)
| Facet_enumeration (vs : list json)
| Facet_other (key : string).

(** The [value] attribute of a validator, seen through [int()] and [str()]. *)
Record PyValue : Type := {
  as_int : Z;
  as_str : string
}.

Record Validator : Type := {
  validator_type : string;                   (* type(validator).__name__ *)
  v_enumeration : option (list json);
  v_patterns : option (list string);
  v_regexps : option (list string);
  v_value : option PyValue;
  v_pattern : option string
}.

(** A node of [type_obj.patterns].  For [pn_value], [pn_get] and [pn_attrib]
    the outer option is [hasattr]; the inner one is the value found
    ([None] when it is Python's [None] or, for [attrib], when the key
    ['value'] is missing). *)
Record PatternNode : Type := {
  pn_value : option (option string);
  pn_get : option (option string);
  pn_attrib : option (option string);
  pn_str : string                            (* str(pat) *)
}.

Inductive PyType : Type := Py_int | Py_float | Py_bool | Py_other.

Record Restriction : Type := {
  r_facets : option (list FacetEntry)
}.

Record SimpleType : Type := {
  st_facets : option (list FacetEntry);
  st_restrictions : option (list Restriction);
  (* hasattr base_type; inside: None when falsy, else its local_name *)
  st_base_type : option (option string);
  st_constraints : option (list FacetEntry);
  st_validators : option (list Validator);
  st_patterns : option (list PatternNode);
  st_python_type : option PyType
}.

Record Element : Type := {
  e_local_name : string;
  (* None: no type; Some None: unnamed type; Some (Some n): type named n *)
  e_type : option (option string);
  e_min_occurs : option Z
}.

Record Attribute : Type := {
  a_type : option (option string);
  a_use : option string
}.

Record ComplexType : Type := {
  (* the elements of content.iter_elements(), when available *)
  ct_content : option (list Element);
  ct_attributes : option (list (string * Attribute))
}.

(* ================================================================== *)
(** * xsd-to-json-schema.py: simple types *)
(* ================================================================== *)

(** [key in facets] together with [facets[key]], for one typed key. *)
Fixpoint facet_lookup {A : Type} (sel : FacetEntry -> option A)
  (facets : list FacetEntry) : option A :=
  match facets with
  | [] => None
  | f :: facets' =>
      match sel f with
      | Some a => Some a
      | None => facet_lookup sel facets'
      end
  end.

Definition sel_minLength (f : FacetEntry) : option Z :=
  match f with Facet_minLength n => Some n | _ => None end.
Definition sel_maxLength (f : FacetEntry) : option Z :=
  match f with Facet_maxLength n => Some n | _ => None end.
Definition sel_length (f : FacetEntry) : option Z :=
  match f with Facet_length n => Some n | _ => None end.
Definition sel_pattern (f : FacetEntry) : option string :=
  match f with Facet_pattern p => Some p | _ => None end.
Definition sel_enumeration (f : FacetEntry) : option (list json) :=
  match f with Facet_enumeration vs => Some vs | _ => None end.

(** [if c: json_type = f(json_type)] for an optional finding. *)
Definition when_found {A : Type} (o : option A) (f : A -> dict -> dict)
  (json_type : dict) : dict :=
  match o with
  | Some a => f a json_type
  | None => json_type
  end.

Definition set_pattern (raw : string) (json_type : dict) : dict :=
  dict_set "pattern" (JStr (_convert_xsd_pattern_to_json raw)) json_type.

Definition set_length (n : Z) (json_type : dict) : dict :=
  dict_set "maxLength" (JNum n) (dict_set "minLength" (JNum n) json_type).

(** [_apply_facets] *)
Definition _apply_facets (json_type : dict) (facets : list FacetEntry)
  : dict :=
  let json_type :=
    when_found (facet_lookup sel_minLength facets)
      (fun n => dict_set "minLength" (JNum n)) json_type in
  let json_type :=
    when_found (facet_lookup sel_maxLength facets)
      (fun n => dict_set "maxLength" (JNum n)) json_type in
  let json_type :=
    when_found (facet_lookup sel_length facets) set_length json_type in
  let json_type :=
    when_found (facet_lookup sel_pattern facets) set_pattern json_type in
  let json_type :=
    when_found (facet_lookup sel_enumeration facets)
      (fun vs => dict_set "enum" (JArr vs)) json_type in
  json_type.

(** A facet mapping that is present and non-empty. *)
Definition truthy_facets (o : option (list FacetEntry))
  : option (list FacetEntry) :=
  match o with
  | Some (f :: fs) => Some (f :: fs)
  | _ => None
  end.

(** Method 1: the direct [facets] attribute. *)
Definition method1 (type_obj : SimpleType) (json_type : dict) : dict :=
  match truthy_facets (st_facets type_obj) with
  | Some facets => _apply_facets json_type facets
  | None => json_type
  end.

(** Method 2: the facets of each member of [restrictions]. *)
Definition method2 (type_obj : SimpleType) (json_type : dict) : dict :=
  match st_restrictions type_obj with
  | Some restrictions =>
      fold_left
        (fun jt restriction =>
           match truthy_facets (r_facets restriction) with
           | Some facets => _apply_facets jt facets
           | None => jt
           end)
        restrictions json_type
  | None => json_type
  end.

(** Body of the loop over [constraints.items()]. *)
Definition apply_constraint (json_type : dict) (c : FacetEntry) : dict :=
  match c with
  | Facet_enumeration vs => dict_set "enum" (JArr vs) json_type
  | Facet_pattern p => set_pattern p json_type
  | Facet_minLength n => dict_set "minLength" (JNum n) json_type
  | Facet_maxLength n => dict_set "maxLength" (JNum n) json_type
  | Facet_length n => set_length n json_type
  | Facet_other _ => json_type
  end.

(** Method 3: the [constraints] mapping of a restriction type. *)
Definition method3 (type_obj : SimpleType) (json_type : dict) : dict :=
  match st_base_type type_obj, st_constraints type_obj with
  | Some _, Some constraints => fold_left apply_constraint constraints json_type
  | _, _ => json_type
  end.

(** [for pat in l: ...; break]: only the first member is used. *)
Definition first_pattern (l : list string) (json_type : dict) : dict :=
  match l with
  | pat :: _ => set_pattern pat json_type
  | [] => json_type
  end.

(** Body of the loop of Method 4, first statement: the [enumeration]
    attribute of any validator. *)
Definition validator_enumeration (validator : Validator) (json_type : dict)
  : dict :=
  match v_enumeration validator with
  | Some (v :: vs) => dict_set "enum" (JArr (v :: vs)) json_type
  | _ => json_type
  end.

(** Body of the loop of Method 4, second statement: the [if]/[elif] chain
    on the validator's class name. *)
Definition validator_facet (validator : Validator) (json_type : dict)
  : dict :=
  if validator_type validator =? "XsdPatternFacets" then
    match v_patterns validator, v_regexps validator, v_value validator with
    | Some patterns, _, _ => first_pattern patterns json_type
    | None, Some regexps, _ => first_pattern regexps json_type
    | None, None, Some value => set_pattern (as_str value) json_type
    | None, None, None => json_type
    end
  else if validator_type validator =? "XsdMinLengthFacet" then
    when_found (v_value validator)
      (fun value => dict_set "minLength" (JNum (as_int value))) json_type
  else if validator_type validator =? "XsdMaxLengthFacet" then
    when_found (v_value validator)
      (fun value => dict_set "maxLength" (JNum (as_int value))) json_type
  else if validator_type validator =? "XsdLengthFacet" then
    when_found (v_value validator)
      (fun value => set_length (as_int value)) json_type
  else json_type.

(** Body of the loop of Method 4. *)
Definition apply_validator (json_type : dict) (validator : Validator)
  : dict :=
  validator_facet validator (validator_enumeration validator json_type).

(** Method 4: the validator list, by class name. *)
Definition method4 (type_obj : SimpleType) (json_type : dict) : dict :=
  match st_validators type_obj with
  | Some validators => fold_left apply_validator validators json_type
  | None => json_type
  end.

(** The double and the single quote, the two members of the character
    class used by the fallback regular expression. *)
Definition dquote : ascii := ascii_of_nat 34.
Definition squote : ascii := ascii_of_nat 39.

Definition is_quote (c : ascii) : bool :=
  Ascii.eqb c dquote || Ascii.eqb c squote.

(** [s] without the prefix [pre], when it has it. *)
Fixpoint strip_prefix (pre s : string) : option string :=
  match pre, s with
  | EmptyString, _ => Some s
  | String a pre', String b s' =>
      if Ascii.eqb a b then strip_prefix pre' s' else None
  | String _ _, EmptyString => None
  end.

(** The longest quote-free prefix of [s] and what follows it. *)
Fixpoint span_unquoted (s : string) : string * string :=
  match s with
  | EmptyString => (EmptyString, EmptyString)
  | String c s' =>
      if is_quote c then (EmptyString, s)
      else let (run, rest) := span_unquoted s' in (String c run, rest)
  end.

(** A match, starting at the head of [s], of the fallback regular
    expression: the text value= , a quote, one or more characters that are
    not quotes (group 1, the result), and a quote. *)
Definition match_value_here (s : string) : option string :=
  match strip_prefix "value=" s with
  | Some (String q rest) =>
      if is_quote q then
        let (run, after) := span_unquoted rest in
        if nonempty run && nonempty after then Some run else None
      else None
  | _ => None
  end.

(** [re.search] with that expression: the leftmost match. *)
Fixpoint search_value (s : string) : option string :=
  match match_value_here s with
  | Some v => Some v
  | None =>
      match s with
      | EmptyString => None
      | String _ s' => search_value s'
      end
  end.

(** The [pattern_value] recovered from one node of [type_obj.patterns]. *)
Definition pattern_node_value (pat : PatternNode) : option string :=
  match pn_value pat with
  | Some v => v
  | None =>
      match pn_get pat with
      | Some v => v
      | None =>
          match pn_attrib pat with
          | Some (Some v) => Some v
          | _ =>
              if PyStr.strip_nonempty (pn_str pat)
              then search_value (pn_str pat)
              else None
          end
      end
  end.

(** Loop of Method 5: stop at the first node with a usable value. *)
Fixpoint scan_patterns (pats : list PatternNode) (json_type : dict) : dict :=
  match pats with
  | [] => json_type
  | pat :: pats' =>
      match pattern_node_value pat with
      | Some pattern_value =>
          if nonempty pattern_value then set_pattern pattern_value json_type
          else scan_patterns pats' json_type
      | None => scan_patterns pats' json_type
      end
  end.

(** Method 5: the [patterns] attribute of the type object. *)
Definition method5 (type_obj : SimpleType) (json_type : dict) : dict :=
  match st_patterns type_obj with
  | Some patterns => scan_patterns patterns json_type
  | None => json_type
  end.

(** Body of the loop of Method 6. *)
Definition apply_pattern_facet (json_type : dict) (validator : Validator)
  : dict :=
  if validator_type validator =? "XsdPatternFacet" then
    match v_value validator, v_pattern validator with
    | Some value, _ => set_pattern (as_str value) json_type
    | None, Some pattern => set_pattern pattern json_type
    | None, None => json_type
    end
  else json_type.

(** Method 6: validators of class [XsdPatternFacet]. *)
Definition method6 (type_obj : SimpleType) (json_type : dict) : dict :=
  match st_validators type_obj with
  | Some validators => fold_left apply_pattern_facet validators json_type
  | None => json_type
  end.

Definition str_in (s : string) (l : list string) : bool :=
  existsb (String.eqb s) l.

(** The JSON Schema type chosen from [python_type] or the base type. *)
Definition set_base_type (type_obj : SimpleType) (json_type : dict) : dict :=
  match st_python_type type_obj with
  | Some Py_int => dict_set "type" (JStr "integer") json_type
  | Some Py_float => dict_set "type" (JStr "number") json_type
  | Some Py_bool => dict_set "type" (JStr "boolean") json_type
  | Some Py_other => json_type
  | None =>
      match st_base_type type_obj with
      | Some (Some base_name) =>
          if str_in base_name ["int"; "integer"; "long"; "short"]
          then dict_set "type" (JStr "integer") json_type
          else if str_in base_name ["float"; "double"; "decimal"]
          then dict_set "type" (JStr "number") json_type
          else if str_in base_name ["boolean"]
          then dict_set "type" (JStr "boolean") json_type
          else json_type
      | _ => json_type
      end
  end.

(** [_convert_simple_type] *)
Definition _convert_simple_type (type_obj : SimpleType) (name : string)
  : dict :=
  let json_type := [("type", JStr "string")] in
  let json_type := method1 type_obj json_type in
  let json_type := method2 type_obj json_type in
  let json_type := method3 type_obj json_type in
  let json_type := method4 type_obj json_type in
  let json_type := method5 type_obj json_type in
  let json_type := method6 type_obj json_type in
  set_base_type type_obj json_type.

(* ================================================================== *)
(** * xsd-to-json-schema.py: complex types *)
(* ================================================================== *)

Definition ref_to (type_name : string) : dict :=
  [("$ref", JStr ("#/definitions/" ++ _convert_type_name type_name))].

(** [_get_property_type] *)
Definition _get_property_type (element : Element) : dict :=
  match e_type element with
  | Some (Some type_name) =>
      if nonempty type_name then ref_to type_name
      else [("type", JStr "string")]
  | _ => [("type", JStr "string")]
  end.

(** [_get_attribute_type] *)
Definition _get_attribute_type (attr : Attribute) : dict :=
  match a_type attr with
  | Some (Some type_name) =>
      if nonempty type_name then ref_to type_name
      else [("type", JStr "string")]
  | _ => [("type", JStr "string")]
  end.

(** [element.min_occurs > 0], when the attribute exists. *)
Definition element_required (element : Element) : bool :=
  match e_min_occurs element with
  | Some n => (0 <? n)%Z
  | None => false
  end.

(** [attr.use == 'required'], when the attribute exists. *)
Definition attribute_required (attr : Attribute) : bool :=
  match a_use attr with
  | Some u => u =? "required"
  | None => false
  end.

(** The loop over the elements: the state is the [properties] dict and the
    [required_fields] list. *)
Definition add_element (st : dict * list string) (element : Element)
  : dict * list string :=
  let (properties, required_fields) := st in
  let prop_name := e_local_name element in
  let properties :=
    dict_set prop_name (JObj (_get_property_type element)) properties in
  if element_required element
  then (properties, (required_fields ++ [prop_name])%list)
  else (properties, required_fields).

(** The loop over [attributes.items()]. *)
Definition add_attribute (st : dict * list string)
  (item : string * Attribute) : dict * list string :=
  let (properties, required_fields) := st in
  let (attr_name, attr) := item in
  let properties :=
    dict_set attr_name (JObj (_get_attribute_type attr)) properties in
  if attribute_required attr
  then (properties, (required_fields ++ [attr_name])%list)
  else (properties, required_fields).

(** The [properties] and [required_fields] reached after both loops. *)
Definition collect_members (type_obj : ComplexType) : dict * list string :=
  let st := ([], []) in
  let st :=
    match ct_content type_obj with
    | Some elements => fold_left add_element elements st
    | None => st
    end in
  match ct_attributes type_obj with
  | Some attributes => fold_left add_attribute attributes st
  | None => st
  end.

(** [_convert_complex_type] *)
Definition _convert_complex_type (type_obj : ComplexType) (name : string)
  : dict :=
  let (properties, required_fields) := collect_members type_obj in
  let json_type :=
    [ ("type", JStr "object");
      ("additionalProperties", JBool false);
      ("properties", JObj properties);
      ("description", JStr ("Complex type: " ++ name)) ] in
  match required_fields with
  | [] => json_type
  | _ :: _ => dict_set "required" (JArr (map JStr required_fields)) json_type
  end.

(* ================================================================== *)
(** * apply-schema-to-swagger.py: the property enhancer *)
(* ================================================================== *)

(** The state of a [SwaggerSchemaApplier] that the enhancement reads: the
    registry filled by [_extract_schema_definitions], each definition being a
    JSON object. *)
Record SwaggerSchemaApplier : Type := {
  schema_mappings : list (string * dict)
}.

(** The [field_mappings] literal, which [_enhance_property] and
    [_enhance_top_level_schema] both spell out, in source order. *)
Definition field_mappings : list (string * string) :=
  [ ("Date", "Date8");
    ("Time", "Time6");
    ("MgmtCode", "MgmtCodeType");
    ("DlrCode", "Length4");
    ("IntCode", "Alpha3To4");
    ("SrcID", "String15");
    ("FundAcctID", "String15");
    ("FundID", "String3To5");
    ("OrdID", "String5To7");
    ("AmtValue", "Value14");
    ("SrcType", "SrcType");
    ("ActnCode", "ActnCode");
    ("AcctDesig", "AcctDesigType");
    ("AmtType", "AmtType") ].

(** The first key whose lower-cased form is [lowered]. *)
Fixpoint first_key_lower {A : Type} (lowered : string)
  (l : list (string * A)) : option string :=
  match l with
  | [] => None
  | (key, _) :: l' =>
      if PyStr.lower key =? lowered then Some key
      else first_key_lower lowered l'
  end.

(** [_find_schema_key_case_insensitive] *)
Definition _find_schema_key_case_insensitive (self : SwaggerSchemaApplier)
  (schema_name : string) : option string :=
  if assoc_mem schema_name (schema_mappings self) then Some schema_name
  else first_key_lower (PyStr.lower schema_name) (schema_mappings self).

(** [if schema_key:] -- a key was found and it is not the empty string. *)
Definition truthy_key (schema_key : option string) : option string :=
  match schema_key with
  | Some key => if nonempty key then Some key else None
  | None => None
  end.

(** [self.schema_mappings[schema_key]] *)
Definition registry_getitem (self : SwaggerSchemaApplier) (key : string)
  : Result dict :=
  match assoc key (schema_mappings self) with
  | Some d => Ok d
  | None => Raise KeyError
  end.

(** [if k in source: target[k] = source[k]] *)
Definition copy_key (source : dict) (target : dict) (k : string) : dict :=
  match dict_get k source with
  | Some v => dict_set k v target
  | None => target
  end.

(** [if original: target[k] = original], for [original = target.get(k)]
    read earlier. *)
Definition restore_key (k : string) (original : option json) (target : dict)
  : dict :=
  match original with
  | Some v => if truthy v then dict_set k v target else target
  | None => target
  end.

(** The metadata snapshot, the copy and the restore of [_enhance_property]. *)
Definition copy_validation (source_schema prop_def : dict) : dict :=
  let original_docs := dict_get "externalDocs" prop_def in
  let original_example := dict_get "example" prop_def in
  let original_description := dict_get "description" prop_def in
  let prop_def :=
    fold_left (copy_key source_schema)
      ["type"; "pattern"; "minLength"; "maxLength"; "enum"; "format"]
      prop_def in
  let prop_def := restore_key "externalDocs" original_docs prop_def in
  let prop_def := restore_key "example" original_example prop_def in
  let prop_def := restore_key "description" original_description prop_def in
  prop_def.

(** The loop of [_enhance_property] over the remaining table entries. *)
Fixpoint enhance_property_from (self : SwaggerSchemaApplier)
  (mappings : list (string * string)) (prop_name : string) (prop_def : json)
  : Result json :=
  match mappings with
  | [] => Ok prop_def
  | (field_pattern, schema_type) :: mappings' =>
      let schema_key := _find_schema_key_case_insensitive self schema_type in
      match PyStr.contains prop_name field_pattern, truthy_key schema_key with
      | true, Some key =>
          source_schema <- registry_getitem self key ;;
          match prop_def with
          | JObj d => Ok (JObj (copy_validation source_schema d))
          | _ => Raise AttributeError
          end
      | _, _ => enhance_property_from self mappings' prop_name prop_def
      end
  end.

(** [_enhance_property] *)
Definition _enhance_property (self : SwaggerSchemaApplier)
  (prop_name : string) (prop_def : json) : Result json :=
  enhance_property_from self field_mappings prop_name prop_def.

(** [_enhance_schema_object] *)
Definition _enhance_schema_object (self : SwaggerSchemaApplier)
  (schema : dict) (strict_mode : bool) : Result dict :=
  if is_str (dict_get "type" schema) "object" then
    let schema :=
      if strict_mode && negb (dict_mem "additionalProperties" schema)
      then dict_set "additionalProperties" (JBool false) schema
      else schema in
    match dict_get "properties" schema with
    | None => Ok schema
    | Some (JObj properties) =>
        properties' <- for_items (_enhance_property self) properties ;;
        Ok (dict_set "properties" (JObj properties') schema)
    | Some _ => Raise AttributeError
    end
  else Ok schema.

(** The branch of [_enhance_top_level_schema] taken when the schema name is
    a key of the table and its type is in the registry. *)
Definition copy_top_level (source_schema schema_def : dict) : dict :=
  let original_docs := dict_get "externalDocs" schema_def in
  let original_example := dict_get "example" schema_def in
  let original_description := dict_get "description" schema_def in
  let schema_def :=
    fold_left (copy_key source_schema)
      ["pattern"; "minLength"; "maxLength"; "enum"; "format"] schema_def in
  let schema_def := restore_key "externalDocs" original_docs schema_def in
  let schema_def := restore_key "example" original_example schema_def in
  let schema_def :=
    restore_key "description" original_description schema_def in
  schema_def.

(** The last part of [_enhance_top_level_schema]: validation found under the
    schema's own name. *)
Definition apply_direct_validation (json_validation schema_def : dict)
  : dict :=
  let schema_def :=
    fold_left (copy_key json_validation)
      ["enum"; "pattern"; "minLength"; "maxLength"] schema_def in
  if dict_mem "description" json_validation
     && negb (dict_mem "description" schema_def)
  then copy_key json_validation schema_def "description"
  else schema_def.

(** The table entry and registry key that send [_enhance_top_level_schema]
    into its first branch. *)
Definition mapped_schema_key (self : SwaggerSchemaApplier)
  (schema_name : string) : option string :=
  match assoc schema_name field_mappings with
  | Some validation_type =>
      truthy_key (_find_schema_key_case_insensitive self validation_type)
  | None => None
  end.

(** [_enhance_top_level_schema] *)
Definition _enhance_top_level_schema (self : SwaggerSchemaApplier)
  (schema_name : string) (schema_def : dict) : Result dict :=
  if negb (is_str (dict_get "type" schema_def) "string") then Ok schema_def
  else
    match mapped_schema_key self schema_name with
    | Some schema_key =>
        source_schema <- registry_getitem self schema_key ;;
        Ok (copy_top_level source_schema schema_def)
    | None =>
        match truthy_key
                (_find_schema_key_case_insensitive self schema_name) with
        | Some schema_key =>
            json_validation <- registry_getitem self schema_key ;;
            Ok (apply_direct_validation json_validation schema_def)
        | None => Ok schema_def
        end
    end.

(** Body of the loop of [_enhance_existing_schemas]. *)
Definition enhance_entry (self : SwaggerSchemaApplier) (strict_mode : bool)
  (name : string) (schema : json) : Result json :=
  match schema with
  | JObj d =>
      d <- _enhance_schema_object self d strict_mode ;;
      d <- _enhance_top_level_schema self name d ;;
      Ok (JObj d)
  | _ => Ok schema
  end.

(** [_enhance_existing_schemas] *)
Definition _enhance_existing_schemas (self : SwaggerSchemaApplier)
  (schemas : dict) (strict_mode : bool) : Result dict :=
  for_items (enhance_entry self strict_mode) schemas.

(** [_apply_validation_to_schema], with [_apply_string_validations] (whose
    body is [pass]) inlined.  The inner loops read ['properties'] and its
    values directly off the tree. *)
Fixpoint _apply_validation_to_schema (schema_def : json) : Result unit :=
  match schema_def with
  | JObj d =>
      if is_str (dict_get "type" d) "string" then Ok tt
      else if is_str (dict_get "type" d) "object" then
        (fix properties_of (l : list (string * json)) : Result unit :=
           match l with
           | [] => Ok tt
           | (k, v) :: l' =>
               if k =? "properties" then
                 match v with
                 | JObj props =>
                     (fix each (ps : list (string * json)) : Result unit :=
                        match ps with
                        | [] => Ok tt
                        | (_, prop_def) :: ps' =>
                            match prop_def with
                            | JObj _ =>
                                match _apply_validation_to_schema prop_def with
                                | Ok _ => each ps'
                                | Raise e => Raise e
                                end
                            | _ => each ps'
                            end
                        end) props
                 | _ => Raise AttributeError
                 end
               else properties_of l'
           end) d
      else Ok tt
  | _ => Ok tt
  end.

(** [_apply_validations_to_schemas] *)
Fixpoint _apply_validations_to_schemas (schemas : dict) : Result unit :=
  match schemas with
  | [] => Ok tt
  | (schema_name, schema_def) :: schemas' =>
      _ <- (if is_dict schema_def
            then _apply_validation_to_schema schema_def
            else Ok tt) ;;
      _apply_validations_to_schemas schemas'
  end.

(* ================================================================== *)
(** * apply-schema-to-swagger.py: the overlays *)
(* ================================================================== *)

Definition strs (l : list string) : json := JArr (map JStr l).

(** The [enums] literal of [_add_enum_types]. *)
Definition enums : list (string * dict) :=
  [ ("SrcType",
     [ ("type", JStr "string");
       ("enum", strs ["D"; "I"; "F"]);
       ("description",
        JStr "Source type - D for Dealer, I for Intermediary, F for Fund") ]);
    ("ActnCode",
     [ ("type", JStr "string");
       ("enum", strs ["NEW"; "CHG"; "CAN"; "CAX"; "AOT"; "REV"]);
       ("description", JStr "Action code") ]);
    ("AcctDesigType",
     [ ("type", JStr "string");
       ("enum", strs ["1"; "2"; "3"]);
       ("description", JStr "Account designation") ]);
    ("AmtType",
     [ ("type", JStr "string");
       ("enum", strs ["A"; "D"; "F"; "M"; "P"; "S"; "T"; "B"; "C"; "J"; "L";
                      "G"; "H"]);
       ("description", JStr "Amount type") ]);
    ("SettlMethd",
     [ ("type", JStr "string");
       ("enum", strs ["1"; "2"; "3"; "4"; "5"; "6"]);
       ("description", JStr "Settlement method") ]);
    ("RspnSrc",
     [ ("type", JStr "string");
       ("enum", strs ["I"; "F"; "N"]);
       ("description", JStr "Response source") ]);
    ("RtnCode",
     [ ("type", JStr "string");
       ("enum", strs ["00"; "01"; "98"; "99"; "50"]);
       ("description", JStr "Return code") ]) ].

(** [_add_enum_types] *)
Definition _add_enum_types (schemas : dict) : dict :=
  fold_left
    (fun schemas item => dict_set (fst item) (JObj (snd item)) schemas)
    enums schemas.

(** The [error_schemas] literal of [_enhance_error_schemas]. *)
Definition error_schemas : list (string * dict) :=
  [ ("ErrorCode",
     [ ("type", JStr "string");
       ("pattern", JStr "^\d{3}$");
       ("description", JStr "3-digit error code") ]);
    ("CorrlatnID",
     [ ("type", JStr "string");
       ("maxLength", JNum 48);
       ("description", JStr "Correlation ID for tracking") ]) ].

(** [if name not in schemas: schemas[name] = definition], over the
    remaining entries. *)
Fixpoint insert_absent (entries : list (string * dict)) (schemas : json)
  : Result json :=
  match entries with
  | [] => Ok schemas
  | (name, definition) :: entries' =>
      present <- py_contains name schemas ;;
      schemas <- (if present then Ok schemas
                  else py_setitem schemas name (JObj definition)) ;;
      insert_absent entries' schemas
  end.

(** [_enhance_error_schemas].  [schemas] is the object stored in the
    document, so its updates are written back into the tree. *)
Definition _enhance_error_schemas (swagger_data : dict) : Result dict :=
  match dict_get "components" swagger_data with
  | None => Ok swagger_data
  | Some components =>
      has_schemas <- py_contains "schemas" components ;;
      if negb has_schemas then Ok swagger_data
      else
        schemas <- py_getitem components "schemas" ;;
        schemas <- insert_absent error_schemas schemas ;;
        components <- py_setitem components "schemas" schemas ;;
        Ok (dict_set "components" components swagger_data)
  end.

(** The [transaction_types] literal. *)
Definition transaction_types : list (string * dict) :=
  [ ("Buy", [ ("enum", strs ["1"]);
              ("description", JStr "Transaction type for Buy orders") ]);
    ("Sell", [ ("enum", strs ["5"]);
               ("description", JStr "Transaction type for Sell orders") ]);
    ("Switch", [ ("enum", strs ["8"]);
                 ("description", JStr "Transaction type for Switch orders") ]);
    ("Transfer", [ ("enum", strs ["7"]);
                   ("description",
                    JStr "Transaction type for Transfer orders") ]);
    ("ICT", [ ("enum", strs ["6"]);
              ("description", JStr "Transaction type for ICT orders") ]) ].

(** [x.lower()] on a tree: only strings have the method. *)
Definition py_lower (v : json) : Result string :=
  match v with
  | JStr s => Ok (PyStr.lower s)
  | _ => Raise AttributeError
  end.

(** [v.get(key, default)]: only dicts have the method. *)
Definition py_get (v : json) (key : string) (default : json) : Result json :=
  match v with
  | JObj d => Ok (match dict_get key d with Some x => x | None => default end)
  | _ => Raise AttributeError
  end.

(** [{'type': 'string', **trxn_def}] *)
Definition trxn_record (trxn_def : dict) : dict :=
  fold_left (fun d item => dict_set (fst item) (snd item) d) trxn_def
    [("type", JStr "string")].

(** The loop of [_add_transaction_type_validations] over the remaining
    keywords; it ends at the first keyword found in the title. *)
Fixpoint inject_transaction_type (types : list (string * dict))
  (api_title : json) (swagger_data : dict) : Result dict :=
  match types with
  | [] => Ok swagger_data
  | (api_type, trxn_def) :: types' =>
      title <- py_lower api_title ;;
      if PyStr.contains title (PyStr.lower api_type) then
        let trxn_type_name := "TrxnTyp" ++ api_type in
        components <- py_getitem (JObj swagger_data) "components" ;;
        schemas <- py_getitem components "schemas" ;;
        schemas <- py_setitem schemas trxn_type_name
                     (JObj (trxn_record trxn_def)) ;;
        components <- py_setitem components "schemas" schemas ;;
        Ok (dict_set "components" components swagger_data)
      else inject_transaction_type types' api_title swagger_data
  end.

(** [_add_transaction_type_validations] *)
Definition _add_transaction_type_validations (swagger_data : dict)
  : Result dict :=
  info <- Ok (match dict_get "info" swagger_data with
              | Some info => info
              | None => JObj []
              end) ;;
  api_title <- py_get info "title" (JStr "") ;;
  match dict_get "components" swagger_data with
  | None => Ok swagger_data
  | Some components =>
      has_schemas <- py_contains "schemas" components ;;
      if has_schemas
      then inject_transaction_type transaction_types api_title swagger_data
      else Ok swagger_data
  end.

(* ================================================================== *)
(** * xsd-to-json-schema.py: the conversion of a whole schema *)
(* ================================================================== *)

(** A member of [schema.types], told apart by [is_simple()] and
    [is_complex()]; [Xsd_other] answers neither. *)
Inductive XsdType : Type :=
| Xsd_simple (t : SimpleType)
| Xsd_complex (t : ComplexType)
| Xsd_other.

(** A member of [schema.elements]: its [type], when it has one, with the
    [name] of that type ([None] for an anonymous type). *)
Record GlobalElement : Type := {
  ge_type : option (XsdType * option string)
}.

(** The parsed schema, as far as the converter reads it. *)
Record XMLSchema : Type := {
  types : list (string * XsdType);
  elements : list (string * GlobalElement)
}.

(** [json_schema["definitions"][json_name] = json_type] *)
Definition set_definition (json_schema : dict) (json_name : string)
  (json_type : dict) : Result dict :=
  definitions <- py_getitem (JObj json_schema) "definitions" ;;
  definitions <- py_setitem definitions json_name (JObj json_type) ;;
  Ok (dict_set "definitions" definitions json_schema).

(** [if json_type: json_schema["definitions"][json_name] = json_type] *)
Definition set_definition_if (json_schema : dict) (json_name : string)
  (json_type : dict) : Result dict :=
  if truthy (JObj json_type)
  then set_definition json_schema json_name json_type
  else Ok json_schema.

(** [_process_simple_types] *)
Fixpoint _process_simple_types (schema_types : list (string * XsdType))
  (json_schema : dict) : Result dict :=
  match schema_types with
  | [] => Ok json_schema
  | (name, type_obj) :: schema_types' =>
      json_schema <-
        match type_obj with
        | Xsd_simple t =>
            set_definition_if json_schema (_convert_type_name name)
              (_convert_simple_type t name)
        | _ => Ok json_schema
        end ;;
      _process_simple_types schema_types' json_schema
  end.

(** [_process_complex_types] *)
Fixpoint _process_complex_types (schema_types : list (string * XsdType))
  (json_schema : dict) : Result dict :=
  match schema_types with
  | [] => Ok json_schema
  | (name, type_obj) :: schema_types' =>
      json_schema <-
        match type_obj with
        | Xsd_complex t =>
            set_definition_if json_schema (_convert_type_name name)
              (_convert_complex_type t name)
        | _ => Ok json_schema
        end ;;
      _process_complex_types schema_types' json_schema
  end.

(** [element.type.name or name] *)
Definition name_or (type_name : option string) (name : string) : string :=
  match type_name with
  | Some n => if nonempty n then n else name
  | None => name
  end.

(** [_process_global_elements] *)
Fixpoint _process_global_elements
  (schema_elements : list (string * GlobalElement)) (json_schema : dict)
  : Result dict :=
  match schema_elements with
  | [] => Ok json_schema
  | (name, element) :: schema_elements' =>
      json_schema <-
        match ge_type element with
        | Some (Xsd_simple t, _) =>
            set_definition_if json_schema (_convert_type_name name)
              (_convert_simple_type t name)
        | Some (_, type_name) =>
            set_definition json_schema (_convert_type_name name)
              (ref_to (name_or type_name name))
        | None => Ok json_schema
        end ;;
      _process_global_elements schema_elements' json_schema
  end.

(** The [json_schema] literal of [convert_xsd_to_json_schema], with
    [draft_version] at its value 7. *)
Definition initial_json_schema : dict :=
  [ ("$schema", JStr "http://json-schema.org/draft-07/schema#");
    ("$id", JStr "https://fundserv.com/tfs/xml-aligned-schema");
    ("title", JStr "TFS Trading Schema - XML Aligned");
    ("description",
     JStr "JSON Schema automatically generated from TFS XML Schema for comprehensive validation");
    ("type", JStr "object");
    ("additionalProperties", JBool false);
    ("definitions", JObj []) ].

(** [convert_xsd_to_json_schema] between the parsing of the XSD file and
    the writing of the result. *)
Definition convert_xsd_to_json_schema (schema : XMLSchema) : Result dict :=
  let json_schema := initial_json_schema in
  json_schema <- _process_simple_types (types schema) json_schema ;;
  json_schema <- _process_complex_types (types schema) json_schema ;;
  json_schema <- _process_global_elements (elements schema) json_schema ;;
  definitions <- py_getitem (JObj json_schema) "definitions" ;;
  has_root <- py_contains "OrdSet" definitions ;;
  if has_root
  then Ok (dict_set "properties"
             (JObj [("OrdSet", JObj [("$ref", JStr "#/definitions/OrdSet")])])
             json_schema)
  else Ok json_schema.

(* ================================================================== *)
(** * apply-schema-to-swagger.py: the rest of the pipeline *)
(* ================================================================== *)

Definition newline : ascii := ascii_of_nat 10.

(** The [enhancement_note] literal, which starts with two line feeds. *)
Definition enhancement_note : string :=
  String newline (String newline
    "This API specification has been enhanced with comprehensive XML schema-based validation.").

(** [v + s] for a string [s]: only a string can be extended by one. *)
Definition py_add_str (v : json) (s : string) : Result json :=
  match v with
  | JStr a => Ok (JStr (a ++ s))
  | _ => Raise TypeError
  end.

(** [_add_schema_documentation].  [info] is the object stored in the
    document, so its updates are written back into the tree. *)
Definition _add_schema_documentation (swagger_data : dict) : Result dict :=
  let swagger_data :=
    if negb (dict_mem "info" swagger_data)
    then dict_set "info" (JObj []) swagger_data
    else swagger_data in
  info <- py_getitem (JObj swagger_data) "info" ;;
  original_description <- py_get info "description" (JStr "") ;;
  noted <- py_contains enhancement_note original_description ;;
  info <- (if negb noted then
             description <- py_add_str original_description
                              enhancement_note ;;
             py_setitem info "description" description
           else Ok info) ;;
  versioned <- py_contains "x-schema-version" info ;;
  info <- (if negb versioned
           then py_setitem info "x-schema-version" (JStr "XML-aligned-v1.0")
           else Ok info) ;;
  Ok (dict_set "info" info swagger_data).

(** Body of the loop of [_extract_schema_definitions]: the state is the
    applier and its [validation_patterns]. *)
Definition extract_definition (st : SwaggerSchemaApplier * dict)
  (item : string * dict) : SwaggerSchemaApplier * dict :=
  let (self, validation_patterns) := st in
  let (name, definition) := item in
  let self :=
    {| schema_mappings := assoc_set name definition (schema_mappings self) |} in
  match dict_get "pattern" definition with
  | Some pattern => (self, dict_set name pattern validation_patterns)
  | None => (self, validation_patterns)
  end.

(** [_extract_schema_definitions].  [definitions] is the value of
    [schema_data['definitions']], each definition being a JSON object, or
    [None] when the schema file has no such key. *)
Definition _extract_schema_definitions (self : SwaggerSchemaApplier)
  (validation_patterns : dict)
  (definitions : option (list (string * dict)))
  : SwaggerSchemaApplier * dict :=
  match definitions with
  | Some items => fold_left extract_definition items (self, validation_patterns)
  | None => (self, validation_patterns)
  end.

(** The applier as [__init__] leaves it. *)
Definition new_applier : SwaggerSchemaApplier := {| schema_mappings := [] |}.

(** The [additional_types] literal of [_add_base_validation_types]. *)
Definition additional_types : list string :=
  [ "Amt9V2N"; "Percent2V3"; "AlphaNum1To5"; "Yes1"; "YesNo1";
    "Integer3"; "Integer5" ].

(** The members of [set(field_mappings.values()) | set(additional_types)];
    the [field_mappings] literal of [_add_base_validation_types] is the one
    of [_enhance_property]. *)
Definition all_schema_types : list string :=
  nodup string_dec (map snd field_mappings ++ additional_types).

(** Body of the loop of [_add_base_validation_types].  The shallow
    [.copy()] of a registry record is the same tree. *)
Definition add_base_type (self : SwaggerSchemaApplier) (schemas : dict)
  (type_name : string) : dict :=
  match assoc type_name (schema_mappings self) with
  | Some definition => dict_set type_name (JObj definition) schemas
  | None => schemas
  end.

(** [_add_base_validation_types].  Python does not fix the order in which
    a set is iterated: [iteration_order] is that order, an arrangement of
    [all_schema_types]. *)
Definition _add_base_validation_types (self : SwaggerSchemaApplier)
  (iteration_order : list string) (schemas : dict) : dict :=
  let schemas := fold_left (add_base_type self) iteration_order schemas in
  _add_enum_types schemas.

(** A value whose items can be assigned under string keys: a dict.  On
    anything else the first [schemas[name] = ...] raises [TypeError]. *)
Definition item_assignable (v : json) : Result dict :=
  match v with
  | JObj d => Ok d
  | _ => Raise TypeError
  end.

(** [_enhance_swagger_components].  [_add_enum_types] always assigns, so a
    schema set that is not a dict makes the call raise. *)
Definition _enhance_swagger_components (self : SwaggerSchemaApplier)
  (iteration_order : list string) (swagger_data : dict) (strict_mode : bool)
  : Result dict :=
  let swagger_data :=
    if negb (dict_mem "components" swagger_data)
    then dict_set "components" (JObj []) swagger_data
    else swagger_data in
  components <- py_getitem (JObj swagger_data) "components" ;;
  has_schemas <- py_contains "schemas" components ;;
  components <- (if negb has_schemas
                 then py_setitem components "schemas" (JObj [])
                 else Ok components) ;;
  schemas <- py_getitem components "schemas" ;;
  schemas <- item_assignable schemas ;;
  let schemas := _add_base_validation_types self iteration_order schemas in
  schemas <- _enhance_existing_schemas self schemas strict_mode ;;
  components <- py_setitem components "schemas" (JObj schemas) ;;
  Ok (dict_set "components" components swagger_data).

(** [_apply_field_validations]: it changes nothing and can only raise. *)
Definition _apply_field_validations (swagger_data : dict) : Result unit :=
  match dict_get "components" swagger_data with
  | None => Ok tt
  | Some components =>
      has_schemas <- py_contains "schemas" components ;;
      if has_schemas then
        schemas <- py_getitem components "schemas" ;;
        match schemas with
        | JObj d => _apply_validations_to_schemas d
        | _ => Raise AttributeError
        end
      else Ok tt
  end.

(** [apply_schema_to_swagger] between the loading of the two files and the
    saving of the result: [swagger_data] is the parsed document and
    [definitions] the definitions of the parsed schema file. *)
Definition apply_schema_to_swagger (iteration_order : list string)
  (swagger_data : dict) (definitions : option (list (string * dict)))
  (strict_mode : bool) : Result dict :=
  let self :=
    fst (_extract_schema_definitions new_applier [] definitions) in
  swagger_data <- _enhance_swagger_components self iteration_order
                    swagger_data strict_mode ;;
  _ <- _apply_field_validations swagger_data ;;
  swagger_data <- _add_transaction_type_validations swagger_data ;;
  swagger_data <- _enhance_error_schemas swagger_data ;;
  _add_schema_documentation swagger_data.

(* ================================================================== *)
(** * Auxiliary definitions used by the statements *)
(* ================================================================== *)

(** The three steps of [_convert_xsd_pattern_to_json], one by one. *)
Definition group_alternation (pattern : string) : string :=
  if PyStr.contains pattern "|" &&
     negb (PyStr.startswith pattern "(" && PyStr.endswith pattern ")")
  then "(" ++ pattern ++ ")"
  else pattern.

Definition anchor_start (pattern : string) : string :=
  if negb (PyStr.startswith pattern "^") then "^" ++ pattern else pattern.

Definition anchor_end (pattern : string) : string :=
  if negb (PyStr.endswith pattern "$") then pattern ++ "$" else pattern.


Definition ends_once (c : ascii) (s : string) : bool :=
  PyStr.endswith s (String c "") && negb (PyStr.endswith s (String c (String c ""))).

(** Some character of [s] satisfies [f]. *)
Fixpoint any_char (f : ascii -> bool) (s : string) : bool :=
  match s with
  | EmptyString => false
  | String c s' => f c || any_char f s'
  end.

(** The members of a complex type that [_convert_complex_type] marks as
    required, in declaration order: elements first, then attributes. *)
Definition required_members (type_obj : ComplexType) : list string :=
  (match ct_content type_obj with
   | Some elements =>
       map e_local_name (filter element_required elements)
   | None => []
   end ++
   match ct_attributes type_obj with
   | Some attributes =>
       map fst (filter (fun item => attribute_required (snd item)) attributes)
   | None => []
   end)%list.

(** What one extraction method discovers for the key [k]: the entry it
    writes when started from an empty record. *)
Definition found (method : dict -> dict) (k : string) : option json :=
  dict_get k (method []).




(** A function on records that only writes entries, and writes the same
    ones whatever record it is given. *)
Definition overlay (m : dict -> dict) : Prop :=
  forall d k,
    dict_get k (m d)
    = match found m k with
      | Some v => Some v
      | None => dict_get k d
      end.

(** A type whose direct facet map and whose inline constraints disagree on
    [minLength], and whose facet map and pattern nodes disagree on the
    pattern. *)
Definition conflicting_type : SimpleType :=
  {| st_facets := Some [Facet_minLength 3; Facet_pattern "a"];
     st_restrictions := None;
     st_base_type := Some None;
     st_constraints := Some [Facet_minLength 5];
     st_validators := None;
     st_patterns :=
       Some [ {| pn_value := Some (Some "b");
                 pn_get := None;
                 pn_attrib := None;
                 pn_str := "XsdPatternFacet" |} ];
     st_python_type := None |}.

(** The descriptive attributes of a property node. *)
Definition metadata_keys : list string :=
  ["description"; "example"; "externalDocs"].

(** The attributes the direct-validation path of
    [_enhance_top_level_schema] may write. *)
Definition direct_validation_keys : list string :=
  ["enum"; "pattern"; "minLength"; "maxLength"; "description"].

(** Fill-only behaviour: an attribute present before keeps its value. *)
Definition fills_only_absent (before after : dict) : Prop :=
  forall k v, In k direct_validation_keys ->
    dict_get k before = Some v -> dict_get k after = Some v.

(** A registry holding one definition under a lower-case name, and a
    string schema of the document with the same name in mixed case. *)
Definition lowercase_registry : SwaggerSchemaApplier :=
  {| schema_mappings := [("supconfirm", [("pattern", JStr "^[YN]$")])] |}.

Definition supconfirm_schema : dict :=
  [("type", JStr "string"); ("pattern", JStr "^[A-Z]$")].

(** A schema set with one entry that is not an object. *)
Definition scalar_entry_schemas : dict := [("OrderId", JStr "string")].

(** A document titled as in the third end-to-end scenario, with an empty
    schema set. *)
Definition buy_document : dict :=
  [ ("info", JObj [("title", JStr "Buy Order API")]);
    ("components", JObj [("schemas", JObj [])]) ].

(** The record [_add_transaction_type_validations] writes for [Buy]. *)
Definition buy_record : dict :=
  [ ("type", JStr "string");
    ("enum", JArr [JStr "1"]);
    ("description", JStr "Transaction type for Buy orders") ].

(** The two-key record [{type: string, enum: ["1"]}]. *)
Definition bare_buy_record : dict :=
  [ ("type", JStr "string"); ("enum", JArr [JStr "1"]) ].

(** The document [doc] with [schemas] stored under [components.schemas]. *)
Definition with_schemas (doc components : dict) (schemas : dict) : dict :=
  dict_set "components"
    (JObj (dict_set "schemas" (JObj schemas) components)) doc.

(** A document that already defines [ErrorCode] and [SrcType] itself. *)
Definition user_schemas : dict :=
  [ ("ErrorCode", JObj [("type", JStr "integer")]);
    ("SrcType", JObj [("type", JStr "integer")]) ].

Definition user_document : dict :=
  [ ("components", JObj [("schemas", JObj user_schemas)]) ].

(** The second end-to-end scenario: a registry with [String15] and an
    object schema whose property [FundAcctID] only has a description. *)
Definition scenario_registry : SwaggerSchemaApplier :=
  {| schema_mappings :=
       [("String15", [("type", JStr "string"); ("maxLength", JNum 15)])] |}.

Definition fund_property : dict := [("description", JStr "Fund account")].

Definition account_properties : dict := [("FundAcctID", JObj fund_property)].

Definition account_schema : dict :=
  [ ("type", JStr "object"); ("properties", JObj account_properties) ].

Definition scenario_schemas : dict := [("Account", JObj account_schema)].

(** What the enhancement pass makes of [scenario_schemas] in strict mode. *)
Definition scenario_enhanced : dict :=
  [ ("Account",
     JObj [ ("type", JStr "object");
            ("properties",
             JObj [ ("FundAcctID",
                     JObj [ ("description", JStr "Fund account");
                            ("type", JStr "string");
                            ("maxLength", JNum 15) ]) ]);
            ("additionalProperties", JBool false) ]) ].

(** The insert-if-absent loop of [_enhance_error_schemas] on a schema set
    that is a dict. *)
Definition add_absent (entries : list (string * dict)) (schemas : dict)
  : dict :=
  fold_left
    (fun schemas item =>
       if dict_mem (fst item) schemas then schemas
       else dict_set (fst item) (JObj (snd item)) schemas)
    entries schemas.

(** Every key of the registry is ASCII text. *)
Definition ascii_registry (self : SwaggerSchemaApplier) : bool :=
  forallb PyStr.isascii (map fst (schema_mappings self)).

(** The entries a converted simple type may hold: its kind, integer length
    bounds, a canonical pattern and an enumeration. *)
Inductive entry_ok : string -> json -> Prop :=
| ok_type (kind : string) :
    In kind ["string"; "integer"; "number"; "boolean"] ->
    entry_ok "type" (JStr kind)
| ok_minLength (n : Z) : entry_ok "minLength" (JNum n)
| ok_maxLength (n : Z) : entry_ok "maxLength" (JNum n)
| ok_pattern (raw : string) :
    entry_ok "pattern" (JStr (_convert_xsd_pattern_to_json raw))
| ok_enum (vs : list json) : entry_ok "enum" (JArr vs).

(** Every entry of a record is one of those. *)
Definition record_ok (d : dict) : Prop :=
  forall k v, dict_get k d = Some v -> entry_ok k v.

(** A function on records that keeps [record_ok]. *)
Definition keeps_ok (m : dict -> dict) : Prop :=
  forall d, record_ok d -> record_ok (m d).

(** The names declared by a complex type: its elements, then its
    attributes. *)
Definition member_names (type_obj : ComplexType) : list string :=
  (match ct_content type_obj with
   | Some elements => map e_local_name elements
   | None => []
   end ++
   match ct_attributes type_obj with
   | Some attributes => map fst attributes
   | None => []
   end)%list.

(** The validation attributes [_enhance_property] copies from the
    registry record. *)
Definition copied_keys : list string :=
  ["type"; "pattern"; "minLength"; "maxLength"; "enum"; "format"].

(** The value of [k] after the keys [keys] were copied from [source]
    onto [target]. *)
Definition merged (keys : list string) (source target : dict) (k : string)
  : option json :=
  if existsb (String.eqb k) keys
  then match dict_get k source with
       | Some v => Some v
       | None => dict_get k target
       end
  else dict_get k target.

(** Two more documents with an empty schema set: one whose title holds the
    second keyword of the table, one whose title holds none. *)
Definition sell_document : dict :=
  [ ("info", JObj [("title", JStr "Sell Order API")]);
    ("components", JObj [("schemas", JObj [])]) ].

Definition plain_document : dict :=
  [ ("info", JObj [("title", JStr "Account Lookup API")]);
    ("components", JObj [("schemas", JObj [])]) ].

(** [buy_document] after the documentation step. *)
Definition documented_buy_document : dict :=
  [ ("info",
     JObj [ ("title", JStr "Buy Order API");
            ("description", JStr enhancement_note);
            ("x-schema-version", JStr "XML-aligned-v1.0") ]);
    ("components", JObj [("schemas", JObj [])]) ].

(** A small schema file: two definitions, one with a pattern. *)
Definition sample_definitions : list (string * dict) :=
  [ ("Date8", [("type", JStr "string"); ("pattern", JStr "^\d{8}$")]);
    ("String15", [("type", JStr "string"); ("maxLength", JNum 15)]) ].

(** The document and the schema file of the second end-to-end scenario,
    and what the component step and the whole pipeline make of them in
    strict mode. *)
Definition scenario_document : dict :=
  [ ("info", JObj [("title", JStr "Buy Order API")]);
    ("components", JObj [("schemas", JObj scenario_schemas)]) ].

Definition scenario_definitions : option (list (string * dict)) :=
  Some [("String15", [("type", JStr "string"); ("maxLength", JNum 15)])].

Definition scenario_components : dict :=
  Eval vm_compute in
    match _enhance_swagger_components scenario_registry all_schema_types
            scenario_document true with
    | Ok d => d
    | Raise _ => []
    end.

Definition scenario_result : dict :=
  Eval vm_compute in
    match apply_schema_to_swagger all_schema_types scenario_document
            scenario_definitions true with
    | Ok d => d
    | Raise _ => []
    end.

(** The assignments to [definitions] made for the simple types, the
    complex types and the global elements, each list in source order. *)
Definition simple_writes (schema : XMLSchema) : list (string * dict) :=
  flat_map
    (fun item =>
       match snd item with
       | Xsd_simple t =>
           [(_convert_type_name (fst item),
             _convert_simple_type t (fst item))]
       | _ => []
       end)
    (types schema).

Definition complex_writes (schema : XMLSchema) : list (string * dict) :=
  flat_map
    (fun item =>
       match snd item with
       | Xsd_complex t =>
           [(_convert_type_name (fst item),
             _convert_complex_type t (fst item))]
       | _ => []
       end)
    (types schema).

Definition element_writes (schema : XMLSchema) : list (string * dict) :=
  flat_map
    (fun item =>
       match ge_type (snd item) with
       | Some (Xsd_simple t, _) =>
           [(_convert_type_name (fst item),
             _convert_simple_type t (fst item))]
       | Some (_, type_name) =>
           [(_convert_type_name (fst item),
             ref_to (name_or type_name (fst item)))]
       | None => []
       end)
    (elements schema).

(** All of them in execution order. *)
Definition definition_writes (schema : XMLSchema) : list (string * dict) :=
  (simple_writes schema ++ complex_writes schema ++ element_writes schema)%list.

(** A schema with a simple type and a complex type whose names normalize
    alike, and a global element of the complex type. *)
Definition colliding_schema : XMLSchema :=
  {| types :=
       [ ("ord_set",
          Xsd_simple
            {| st_facets := None; st_restrictions := None;
               st_base_type := None; st_constraints := None;
               st_validators := None; st_patterns := None;
               st_python_type := None |});
         ("ord-set",
          Xsd_complex {| ct_content := None; ct_attributes := None |}) ];
     elements :=
       [ ("Order",
          {| ge_type :=
               Some (Xsd_complex {| ct_content := None;
                                    ct_attributes := None |},
                     Some "ord-set") |}) ] |}.

(** The dict reached from [definitions] by a list of assignments. *)
Definition write_all (writes : list (string * dict)) (definitions : dict)
  : dict :=
  fold_left (fun d w => dict_set (fst w) (JObj (snd w)) d) writes definitions.

(** The [properties] value given to a schema that defines OrdSet. *)
Definition root_properties : json :=
  JObj [("OrdSet", JObj [("$ref", JStr "#/definitions/OrdSet")])].

(** The schema [json_schema] with [definitions] as its definitions. *)
Definition with_definitions (json_schema definitions : dict) : dict :=
  dict_set "definitions" (JObj definitions) json_schema.

(** A complex type with a required element of a named type, an optional
    element of an anonymous type and a required attribute. *)
Definition order_type : ComplexType :=
  {| ct_content :=
       Some [ {| e_local_name := "OrdID";
                 e_type := Some (Some "string5-7");
                 e_min_occurs := Some 1%Z |};
              {| e_local_name := "Note";
                 e_type := Some None;
                 e_min_occurs := Some 0%Z |} ];
     ct_attributes :=
       Some [ ("version", {| a_type := None; a_use := Some "required" |}) ] |}.

(* ================================================================== *)
(** * Facts about the string primitives *)
(* ================================================================== *)

Section StringFacts.

Lemma append_nil_r (s : string) : s ++ "" = s.
Proof. induction s; simpl; congruence. Qed.

Lemma append_assoc (a b c : string) : (a ++ b) ++ c = a ++ (b ++ c).
Proof. induction a; simpl; congruence. Qed.

Lemma length_append (a b : string) :
  String.length (a ++ b) = String.length a + String.length b.
Proof. induction a; simpl; congruence. Qed.

(** A string that ends with [suf] is some text followed by [suf]. *)
Lemma endswith_split (s suf : string) :
  PyStr.endswith s suf = true -> exists pre, s = pre ++ suf.
Proof.
  induction s as [|a s IH]; cbn [PyStr.endswith]; intros H.
  - rewrite orb_false_r in H. apply String.eqb_eq in H. now exists "".
  - apply orb_true_iff in H. destruct H as [H|H].
    + apply String.eqb_eq in H. now exists "".
    + destruct (IH H) as [pre ->]. now exists (String a pre).
Qed.

Lemma endswith_append (pre suf : string) :
  PyStr.endswith (pre ++ suf) suf = true.
Proof.
  induction pre as [|a pre IH].
  - change ("" ++ suf) with suf.
    destruct suf; cbn [PyStr.endswith]; now rewrite String.eqb_refl.
  - change (String a pre ++ suf) with (String a (pre ++ suf)).
    cbn [PyStr.endswith]. rewrite IH. apply orb_true_r.
Qed.

Lemma eqb_cons (a b : ascii) (s t : string) :
  (String a s =? String b t) = Ascii.eqb a b && (s =? t).
Proof. reflexivity. Qed.

Lemma eqb_snoc_nil (s : string) (c : ascii) : (s ++ String c "" =? "") = false.
Proof. now destruct s. Qed.

Lemma endswith_nil_l (suf : string) : PyStr.endswith "" suf = ("" =? suf).
Proof. cbn [PyStr.endswith]. apply orb_false_r. Qed.

(** The last character decides a one-character [endswith]. *)
Lemma endswith_snoc1 (s : string) (c d : ascii) :
  PyStr.endswith (s ++ String c "") (String d "") = Ascii.eqb c d.
Proof.
  induction s as [|a s IH].
  - cbn. destruct (Ascii.eqb c d); reflexivity.
  - change (String a s ++ String c "") with (String a (s ++ String c "")).
    cbn [PyStr.endswith]. rewrite IH, eqb_cons, eqb_snoc_nil.
    now rewrite andb_false_r.
Qed.


Lemma startswith_cons (c d : ascii) (s pre : string) :
  PyStr.startswith (String c s) (String d pre)
  = Ascii.eqb d c && PyStr.startswith s pre.
Proof.
  unfold PyStr.startswith. simpl.
  destruct (ascii_dec d c) as [->|N].
  - now rewrite Ascii.eqb_refl.
  - apply Ascii.eqb_neq in N. now rewrite N.
Qed.

Lemma startswith_nil_r (s : string) : PyStr.startswith s "" = true.
Proof. now destruct s. Qed.

Lemma startswith_cons1 (c d : ascii) (s : string) :
  PyStr.startswith (String c s) (String d "") = Ascii.eqb d c.
Proof. now rewrite startswith_cons, startswith_nil_r, andb_true_r. Qed.

Lemma startswith_nil_l (d : ascii) (pre : string) :
  PyStr.startswith "" (String d pre) = false.
Proof. reflexivity. Qed.

(** [c in a + b] for a one-character [c]. *)
Lemma contains_append1 (a b : string) (c : ascii) :
  PyStr.contains (a ++ b) (String c "")
  = PyStr.contains a (String c "") || PyStr.contains b (String c "").
Proof.
  induction a as [|x a IH].
  - reflexivity.
  - change (String x a ++ b) with (String x (a ++ b)).
    cbn [PyStr.contains]. rewrite IH.
    fold (PyStr.startswith (String x (a ++ b)) (String c "")).
    fold (PyStr.startswith (String x a) (String c "")).
    rewrite !startswith_cons1. now rewrite orb_assoc.
Qed.

End StringFacts.

(* ================================================================== *)
(** * The pattern canonicalizer *)
(* ================================================================== *)

Lemma canon_stages (p : string) :
  _convert_xsd_pattern_to_json p
  = anchor_end (anchor_start (group_alternation p)).
Proof. reflexivity. Qed.

Lemma anchor_start_starts (q : string) :
  PyStr.startswith (anchor_start q) "^" = true.
Proof.
  unfold anchor_start.
  destruct (PyStr.startswith q "^") eqn:E; simpl negb; cbv iota; [exact E|].
  change ("^" ++ q) with (String "^" q). now rewrite startswith_cons1.
Qed.

Lemma anchor_end_keeps_start (r pre : string) :
  PyStr.startswith r pre = true ->
  PyStr.startswith (anchor_end r) pre = true.
Proof.
  unfold anchor_end. destruct (PyStr.endswith r "$"); simpl; [easy|].
  revert r. induction pre as [|d pre IH]; intros r H.
  - apply startswith_nil_r.
  - destruct r as [|c r]; [discriminate|].
    change (String c r ++ "$") with (String c (r ++ "$")).
    rewrite startswith_cons in *. apply andb_true_iff in H as [-> H].
    now rewrite IH.
Qed.

Lemma anchor_end_ends (r : string) :
  PyStr.endswith (anchor_end r) "$" = true.
Proof.
  unfold anchor_end. destruct (PyStr.endswith r "$") eqn:E; simpl.
  - exact E.
  - rewrite endswith_snoc1. reflexivity.
Qed.

Lemma canon_starts (p : string) :
  PyStr.startswith (_convert_xsd_pattern_to_json p) "^" = true.
Proof.
  rewrite canon_stages. apply anchor_end_keeps_start, anchor_start_starts.
Qed.

Lemma canon_ends (p : string) :
  PyStr.endswith (_convert_xsd_pattern_to_json p) "$" = true.
Proof. rewrite canon_stages. apply anchor_end_ends. Qed.









Example canonicalize_keeps_double_dollar :
  _convert_xsd_pattern_to_json "a$$" = "^a$$" /\
  ends_once "$" (_convert_xsd_pattern_to_json "a$$") = false.
Proof. split; reflexivity. Qed.

Lemma contains_group (p : string) :
  PyStr.contains (group_alternation p) "|" = PyStr.contains p "|".
Proof.
  unfold group_alternation. destruct (_ && _); [|reflexivity].
  rewrite !contains_append1. cbn. now rewrite orb_false_r.
Qed.

Lemma contains_anchor_start (q : string) :
  PyStr.contains (anchor_start q) "|" = PyStr.contains q "|".
Proof.
  unfold anchor_start. destruct (negb _); [|reflexivity].
  now rewrite contains_append1.
Qed.

Lemma contains_anchor_end (r : string) :
  PyStr.contains (anchor_end r) "|" = PyStr.contains r "|".
Proof.
  unfold anchor_end. destruct (negb _); [|reflexivity].
  rewrite contains_append1. cbn. now rewrite orb_false_r.
Qed.

Lemma contains_canon (p : string) :
  PyStr.contains (_convert_xsd_pattern_to_json p) "|" = PyStr.contains p "|".
Proof.
  now rewrite canon_stages, contains_anchor_end, contains_anchor_start,
    contains_group.
Qed.

(** An anchored pattern without alternation is left as it is. *)
Lemma canon_fixed (s : string) :
  PyStr.contains s "|" = false ->
  PyStr.startswith s "^" = true ->
  PyStr.endswith s "$" = true ->
  _convert_xsd_pattern_to_json s = s.
Proof.
  intros Hc Hs He. rewrite canon_stages.
  unfold group_alternation. rewrite Hc. cbn [andb].
  unfold anchor_start. rewrite Hs. cbn [negb].
  unfold anchor_end. now rewrite He.
Qed.

(** C3 (amended).  On every pattern without the alternation character the
    canonicalizer is idempotent. *)
Theorem canonicalize_idempotent_without_alternation (p : string) :
  PyStr.contains p "|" = false ->
  _convert_xsd_pattern_to_json (_convert_xsd_pattern_to_json p)
  = _convert_xsd_pattern_to_json p.
Proof.
  intros H. apply canon_fixed.
  - now rewrite contains_canon.
  - apply canon_starts.
  - apply canon_ends.
Qed.

(** Witness of C3 on an eight-digit date pattern. *)
Lemma canonicalize_idempotent_witness :
  _convert_xsd_pattern_to_json (_convert_xsd_pattern_to_json "\d{8}")
  = _convert_xsd_pattern_to_json "\d{8}".
Proof.
  apply (canonicalize_idempotent_without_alternation "\d{8}"). reflexivity.
Defined.

(** On a pattern with alternation the second pass wraps the first result. *)
Lemma canon_twice_with_alternation (p : string) :
  PyStr.contains p "|" = true ->
  _convert_xsd_pattern_to_json (_convert_xsd_pattern_to_json p)
  = "^(" ++ _convert_xsd_pattern_to_json p ++ ")$".
Proof.
  intros H.
  pose proof (canon_starts p) as Hs. pose proof (contains_canon p) as Hc.
  rewrite H in Hc.
  set (out := _convert_xsd_pattern_to_json p) in *.
  rewrite (canon_stages out). unfold group_alternation. rewrite Hc.
  destruct out as [|c out']; [discriminate|].
  rewrite startswith_cons1 in Hs. apply Ascii.eqb_eq in Hs. subst c.
  rewrite (startswith_cons1 "^" "(" out').
  change (Ascii.eqb "(" "^") with false. cbn [andb negb].
  unfold anchor_start.
  change ("(" ++ String "^" out' ++ ")")
    with (String "(" (String "^" out' ++ ")")).
  rewrite (startswith_cons1 "(" "^").
  change (Ascii.eqb "^" "(") with false. cbn [negb].
  unfold anchor_end.
  change ("^" ++ String "(" (String "^" out' ++ ")"))
    with (("^(" ++ String "^" out') ++ ")").
  rewrite endswith_snoc1. change (Ascii.eqb ")" "$") with false. cbn [negb].
  rewrite !append_assoc. reflexivity.
Qed.

Lemma canon_not_idempotent_with_alternation (p : string) :
  PyStr.contains p "|" = true ->
  _convert_xsd_pattern_to_json (_convert_xsd_pattern_to_json p)
  <> _convert_xsd_pattern_to_json p.
Proof.
  intros H E. rewrite canon_twice_with_alternation in E by exact H.
  apply (f_equal String.length) in E.
  rewrite !length_append in E. simpl in E. lia.
Qed.

(** C3 as stated fails: canonicalizing the alternation of the fourth
    end-to-end scenario a second time groups and anchors it again. *)
Lemma canonicalize_not_idempotent :
  _convert_xsd_pattern_to_json "A|BC" = "^(A|BC)$" /\
  _convert_xsd_pattern_to_json (_convert_xsd_pattern_to_json "A|BC")
  = "^(^(A|BC)$)$" /\
  _convert_xsd_pattern_to_json (_convert_xsd_pattern_to_json "A|BC")
  <> _convert_xsd_pattern_to_json "A|BC".
Proof. repeat split. discriminate. Qed.

Example canon_grouped : _convert_xsd_pattern_to_json "(A|BC)" = "^(A|BC)$".
Proof. reflexivity. Qed.

Example canon_digits : _convert_xsd_pattern_to_json "\d{8}" = "^\d{8}$".
Proof. reflexivity. Qed.

Example canon_empty : _convert_xsd_pattern_to_json "" = "^$".
Proof. reflexivity. Qed.

(* ================================================================== *)
(** * Association lists as dicts *)
(* ================================================================== *)

Section DictFacts.

Context {A : Type}.
Implicit Types (l : list (string * A)) (k : string) (v : A).

Lemma assoc_set_eq k v l : assoc k (assoc_set k v l) = Some v.
Proof.
  induction l as [|[k' v'] l IH]; simpl.
  - now rewrite String.eqb_refl.
  - destruct (k' =? k) eqn:E; simpl.
    + now rewrite String.eqb_refl.
    + now rewrite E.
Qed.

Lemma assoc_set_neq k k' v l :
  k <> k' -> assoc k' (assoc_set k v l) = assoc k' l.
Proof.
  intros N. apply String.eqb_neq in N.
  induction l as [|[k0 v0] l IH]; simpl.
  - now rewrite N.
  - destruct (k0 =? k) eqn:E; simpl.
    + apply String.eqb_eq in E. subst k0. now rewrite N.
    + destruct (k0 =? k'); [reflexivity | exact IH].
Qed.

(** Reading any key after a write. *)
Lemma assoc_set_get k k' v l :
  assoc k' (assoc_set k v l) = if k =? k' then Some v else assoc k' l.
Proof.
  destruct (String.eqb_spec k k') as [->|N].
  - apply assoc_set_eq.
  - now apply assoc_set_neq.
Qed.

(** Writing back the value a key already has changes nothing. *)
Lemma assoc_set_same k v l : assoc k l = Some v -> assoc_set k v l = l.
Proof.
  induction l as [|[k' v'] l IH]; simpl; [discriminate|].
  destruct (String.eqb_spec k' k) as [->|N]; intros H.
  - now inversion H.
  - now rewrite IH.
Qed.

Lemma assoc_set_set k v w l :
  assoc_set k w (assoc_set k v l) = assoc_set k w l.
Proof.
  induction l as [|[k' v'] l IH]; simpl.
  - now rewrite String.eqb_refl.
  - destruct (k' =? k) eqn:E; simpl.
    + now rewrite String.eqb_refl.
    + now rewrite E, IH.
Qed.

Lemma assoc_mem_set k k' v l :
  assoc_mem k' (assoc_set k v l) = (k =? k') || assoc_mem k' l.
Proof.
  unfold assoc_mem. rewrite assoc_set_get. now destruct (k =? k').
Qed.

End DictFacts.

Lemma dict_get_set (k k' : string) (v : json) (d : dict) :
  dict_get k' (dict_set k v d) = if k =? k' then Some v else dict_get k' d.
Proof. apply assoc_set_get. Qed.

(* ================================================================== *)
(** * The type-name normalizer *)
(* ================================================================== *)




Example type_name_table : _convert_type_name "string3-5" = "String3To5".
Proof. reflexivity. Qed.

Example type_name_empty : _convert_type_name "" = "UnknownType".
Proof. reflexivity. Qed.

Example type_name_namespace :
  _convert_type_name "tns:fund_acct-id" = "FundAcctId".
Proof. reflexivity. Qed.

(* ================================================================== *)
(** * The complex-type projector *)
(* ================================================================== *)

Lemma fold_add_element (elements : list Element) (props : dict)
  (req : list string) :
  snd (fold_left add_element elements (props, req))
  = (req ++ map e_local_name (filter element_required elements))%list.
Proof.
  revert props req. induction elements as [|e es IH]; intros props req.
  - simpl. now rewrite app_nil_r.
  - cbn [fold_left filter]. unfold add_element at 2.
    destruct (element_required e); rewrite IH.
    + cbn [map]. now rewrite <- app_assoc.
    + reflexivity.
Qed.

Lemma fold_add_attribute (attributes : list (string * Attribute))
  (props : dict) (req : list string) :
  snd (fold_left add_attribute attributes (props, req))
  = (req ++ map fst
       (filter (fun item => attribute_required (snd item)) attributes))%list.
Proof.
  revert props req. induction attributes as [|[n a] l IH]; intros props req.
  - simpl. now rewrite app_nil_r.
  - cbn [fold_left filter snd]. unfold add_attribute at 2.
    destruct (attribute_required a); rewrite IH.
    + cbn [map fst]. now rewrite <- app_assoc.
    + reflexivity.
Qed.

Lemma collect_members_required (type_obj : ComplexType) :
  snd (collect_members type_obj) = required_members type_obj.
Proof.
  unfold collect_members, required_members.
  destruct (ct_content type_obj) as [elements|],
           (ct_attributes type_obj) as [attributes|].
  - destruct (fold_left add_element elements ([], [])) as [props req] eqn:E.
    rewrite fold_add_attribute.
    apply (f_equal snd) in E. rewrite fold_add_element in E. simpl in E.
    now subst req.
  - rewrite fold_add_element. simpl. now rewrite app_nil_r.
  - rewrite fold_add_attribute. reflexivity.
  - reflexivity.
Qed.

(** C10.  Every record built by [_convert_complex_type] is of type object
    and has [additionalProperties] set to false, whatever the type; its
    [required] key holds the required members when there is at least one
    and is absent otherwise. *)
Theorem complex_type_closed_and_required (type_obj : ComplexType)
  (name : string) :
  dict_get "type" (_convert_complex_type type_obj name)
  = Some (JStr "object") /\
  dict_get "additionalProperties" (_convert_complex_type type_obj name)
  = Some (JBool false) /\
  dict_get "required" (_convert_complex_type type_obj name)
  = match required_members type_obj with
    | [] => None
    | _ :: _ => Some (JArr (map JStr (required_members type_obj)))
    end /\
  (dict_mem "required" (_convert_complex_type type_obj name) = true
   <-> required_members type_obj <> []).
Proof.
  unfold _convert_complex_type.
  rewrite <- collect_members_required.
  destruct (collect_members type_obj) as [props req]. cbn [snd].
  destruct req as [|r req].
  - repeat split; try reflexivity; [discriminate | congruence].
  - repeat split; try reflexivity; [discriminate].
Qed.

(* ================================================================== *)
(** * The facet extractor *)
(* ================================================================== *)

Section Overlays.

Lemma overlay_id : overlay (fun d => d).
Proof. intros d k. reflexivity. Qed.

Lemma overlay_set (k : string) (v : json) : overlay (dict_set k v).
Proof.
  intros d k'. unfold found. rewrite !dict_get_set.
  now destruct (k =? k').
Qed.

Lemma overlay_compose (f g : dict -> dict) :
  overlay f -> overlay g -> overlay (fun d => g (f d)).
Proof.
  intros Hf Hg d k. unfold found.
  rewrite (Hg (f d)), (Hg (f [])), (Hf d).
  unfold found. now destruct (dict_get k (g [])), (dict_get k (f [])).
Qed.

Lemma overlay_when_found {A : Type} (o : option A) (f : A -> dict -> dict) :
  (forall a, overlay (f a)) -> overlay (when_found o f).
Proof.
  intros H. destruct o as [a|]; [apply H | apply overlay_id].
Qed.

Lemma overlay_fold {A : Type} (step : dict -> A -> dict) (l : list A) :
  (forall a, overlay (fun d => step d a)) ->
  overlay (fun d => fold_left step l d).
Proof.
  intros H. induction l as [|a l IH]; [apply overlay_id|].
  exact (overlay_compose (fun d => step d a) (fun d => fold_left step l d)
           (H a) IH).
Qed.

Lemma overlay_set_pattern (raw : string) : overlay (set_pattern raw).
Proof. apply overlay_set. Qed.

Lemma overlay_set_length (n : Z) : overlay (set_length n).
Proof.
  exact (overlay_compose _ _ (overlay_set "minLength" (JNum n))
           (overlay_set "maxLength" (JNum n))).
Qed.

Lemma overlay_first_pattern (l : list string) : overlay (first_pattern l).
Proof. destruct l; [apply overlay_id | apply overlay_set_pattern]. Qed.

Lemma overlay_apply_facets (facets : list FacetEntry) :
  overlay (fun d => _apply_facets d facets).
Proof.
  unfold _apply_facets. cbv zeta.
  do 4 (refine (overlay_compose (fun d => _) (when_found _ _) _ _);
        [|apply overlay_when_found; intros;
          first [apply overlay_set | apply overlay_set_length
                | apply overlay_set_pattern]]).
  apply (overlay_when_found (facet_lookup sel_minLength facets)).
  intros; apply overlay_set.
Qed.

Lemma overlay_method1 (t : SimpleType) : overlay (method1 t).
Proof.
  unfold method1. destruct (truthy_facets _);
    [apply overlay_apply_facets | apply overlay_id].
Qed.

Lemma overlay_method2 (t : SimpleType) : overlay (method2 t).
Proof.
  unfold method2. destruct (st_restrictions t); [|apply overlay_id].
  apply overlay_fold. intros r. destruct (truthy_facets _);
    [apply overlay_apply_facets | apply overlay_id].
Qed.

Lemma overlay_apply_constraint (c : FacetEntry) :
  overlay (fun d => apply_constraint d c).
Proof.
  destruct c; simpl;
    first [apply overlay_set | apply overlay_set_length
          | apply overlay_set_pattern | apply overlay_id].
Qed.

Lemma overlay_method3 (t : SimpleType) : overlay (method3 t).
Proof.
  unfold method3. destruct (st_base_type t), (st_constraints t);
    try apply overlay_id.
  apply overlay_fold, overlay_apply_constraint.
Qed.

Lemma overlay_validator_enumeration (v : Validator) :
  overlay (validator_enumeration v).
Proof.
  unfold validator_enumeration.
  destruct (v_enumeration v) as [[|x xs]|];
    first [apply overlay_set | apply overlay_id].
Qed.

Lemma overlay_validator_facet (v : Validator) : overlay (validator_facet v).
Proof.
  unfold validator_facet.
  destruct (validator_type v =? "XsdPatternFacets").
  { destruct (v_patterns v), (v_regexps v), (v_value v);
      first [apply overlay_first_pattern | apply overlay_set_pattern
            | apply overlay_id]. }
  destruct (validator_type v =? "XsdMinLengthFacet").
  { apply overlay_when_found. intros; apply overlay_set. }
  destruct (validator_type v =? "XsdMaxLengthFacet").
  { apply overlay_when_found. intros; apply overlay_set. }
  destruct (validator_type v =? "XsdLengthFacet").
  { apply overlay_when_found. intros; apply overlay_set_length. }
  apply overlay_id.
Qed.

Lemma overlay_apply_validator (v : Validator) :
  overlay (fun d => apply_validator d v).
Proof.
  exact (overlay_compose _ _ (overlay_validator_enumeration v)
           (overlay_validator_facet v)).
Qed.

Lemma overlay_method4 (t : SimpleType) : overlay (method4 t).
Proof.
  unfold method4. destruct (st_validators t); [|apply overlay_id].
  apply overlay_fold, overlay_apply_validator.
Qed.

Lemma overlay_scan_patterns (pats : list PatternNode) :
  overlay (scan_patterns pats).
Proof.
  induction pats as [|pat pats IH]; [apply overlay_id|].
  simpl. destruct (pattern_node_value pat) as [v|]; [|exact IH].
  destruct (nonempty v); [apply overlay_set_pattern | exact IH].
Qed.

Lemma overlay_method5 (t : SimpleType) : overlay (method5 t).
Proof.
  unfold method5. destruct (st_patterns t);
    [apply overlay_scan_patterns | apply overlay_id].
Qed.

Lemma overlay_apply_pattern_facet (v : Validator) :
  overlay (fun d => apply_pattern_facet d v).
Proof.
  unfold apply_pattern_facet. destruct (_ =? _); [|apply overlay_id].
  destruct (v_value v), (v_pattern v);
    first [apply overlay_set_pattern | apply overlay_id].
Qed.

Lemma overlay_method6 (t : SimpleType) : overlay (method6 t).
Proof.
  unfold method6. destruct (st_validators t); [|apply overlay_id].
  apply overlay_fold, overlay_apply_pattern_facet.
Qed.


End Overlays.




(* ================================================================== *)
(** * The property enhancer *)
(* ================================================================== *)

Section Registry.

Variable self : SwaggerSchemaApplier.

Lemma assoc_mem_true {A : Type} (k : string) (l : list (string * A)) :
  assoc_mem k l = true -> exists a, assoc k l = Some a.
Proof.
  unfold assoc_mem. destruct (assoc k l) as [a|]; [eauto | discriminate].
Qed.

Lemma first_key_lower_present {A : Type} (lowered key : string)
  (l : list (string * A)) :
  first_key_lower lowered l = Some key -> exists a, assoc key l = Some a.
Proof.
  induction l as [|[k0 a0] l IH]; simpl; [discriminate|].
  destruct (PyStr.lower k0 =? lowered).
  - intros [= ->]. rewrite String.eqb_refl. eauto.
  - intros H. destruct (k0 =? key); eauto.
Qed.

(** A key returned by the lookup is a key of the registry. *)
Lemma found_key_registered (schema_name key : string) :
  _find_schema_key_case_insensitive self schema_name = Some key ->
  exists d, registry_getitem self key = Ok d.
Proof.
  unfold _find_schema_key_case_insensitive, registry_getitem.
  destruct (assoc_mem schema_name (schema_mappings self)) eqn:E.
  - intros [= <-]. apply assoc_mem_true in E as [d ->]. eauto.
  - intros H. apply first_key_lower_present in H as [d ->]. eauto.
Qed.

Lemma truthy_key_found (o : option string) (key : string) :
  truthy_key o = Some key -> o = Some key.
Proof.
  destruct o as [k|]; simpl; [|discriminate].
  destruct (nonempty k); [congruence | discriminate].
Qed.

Lemma truthy_key_registered (schema_name key : string) :
  truthy_key (_find_schema_key_case_insensitive self schema_name) = Some key ->
  exists d, registry_getitem self key = Ok d.
Proof.
  intros H. apply truthy_key_found in H. eapply found_key_registered, H.
Qed.

End Registry.

Section Copying.

Variable source : dict.

Lemma copy_key_get (target : dict) (k k' : string) :
  dict_get k' (copy_key source target k)
  = if k =? k'
    then match dict_get k' source with
         | Some v => Some v
         | None => dict_get k' target
         end
    else dict_get k' target.
Proof.
  unfold copy_key.
  destruct (String.eqb_spec k k') as [->|N].
  - destruct (dict_get k' source); [apply assoc_set_eq | reflexivity].
  - destruct (dict_get k source); [now apply assoc_set_neq | reflexivity].
Qed.

(** Reading a key after the copy of a list of keys. *)
Lemma copy_keys_get (keys : list string) (target : dict) (k : string) :
  dict_get k (fold_left (copy_key source) keys target)
  = if existsb (String.eqb k) keys
    then match dict_get k source with
         | Some v => Some v
         | None => dict_get k target
         end
    else dict_get k target.
Proof.
  revert target. induction keys as [|k0 keys IH]; intros target.
  - reflexivity.
  - cbn [fold_left existsb]. rewrite IH, copy_key_get.
    rewrite (String.eqb_sym k k0).
    destruct (k0 =? k), (existsb (String.eqb k) keys),
      (dict_get k source); reflexivity.
Qed.

Lemma restore_key_noop (k : string) (target : dict) :
  restore_key k (dict_get k target) target = target.
Proof.
  unfold restore_key. destruct (dict_get k target) as [v|] eqn:E;
    [|reflexivity].
  destruct (truthy v); [now apply assoc_set_same | reflexivity].
Qed.

(** The restore step has nothing to undo when the copy left the key alone. *)
Lemma restore_key_untouched (k : string) (original target : dict) :
  dict_get k target = dict_get k original ->
  restore_key k (dict_get k original) target = target.
Proof. intros <-. apply restore_key_noop. Qed.

Lemma copy_validation_is_copy (prop_def : dict) :
  copy_validation source prop_def
  = fold_left (copy_key source)
      ["type"; "pattern"; "minLength"; "maxLength"; "enum"; "format"]
      prop_def.
Proof.
  unfold copy_validation. cbv zeta.
  rewrite (restore_key_untouched "externalDocs")
    by (rewrite copy_keys_get; reflexivity).
  rewrite (restore_key_untouched "example")
    by (rewrite copy_keys_get; reflexivity).
  rewrite (restore_key_untouched "description")
    by (rewrite copy_keys_get; reflexivity).
  reflexivity.
Qed.

Lemma copy_validation_metadata (prop_def : dict) (k : string) :
  In k metadata_keys ->
  dict_get k (copy_validation source prop_def) = dict_get k prop_def.
Proof.
  intros H. rewrite copy_validation_is_copy, copy_keys_get.
  destruct H as [<-|[<-|[<-|[]]]]; reflexivity.
Qed.

End Copying.

Section Enhancer.

Variable self : SwaggerSchemaApplier.

(** On an object node the property loop cannot raise, and it keeps the
    metadata. *)
Lemma enhance_property_from_object (mappings : list (string * string))
  (prop_name : string) (d : dict) :
  exists d',
    enhance_property_from self mappings prop_name (JObj d) = Ok (JObj d') /\
    forall k, In k metadata_keys -> dict_get k d' = dict_get k d.
Proof.
  induction mappings as [|[field_pattern schema_type] mappings IH].
  - exists d. split; [reflexivity | auto].
  - cbn [enhance_property_from].
    destruct (PyStr.contains prop_name field_pattern); [|exact IH].
    destruct (truthy_key _) as [key|] eqn:E; [|exact IH].
    apply truthy_key_registered in E as [src ->]. cbn [bind].
    exists (copy_validation src d). split; [reflexivity|].
    intros k Hk. now apply copy_validation_metadata.
Qed.

Lemma for_items_lookup {A : Type} (f : string -> A -> Result A)
  (l l' : list (string * A)) (k : string) (v : A) :
  for_items f l = Ok l' -> assoc k l = Some v ->
  exists v', f k v = Ok v' /\ assoc k l' = Some v'.
Proof.
  revert l'. induction l as [|[k0 v0] l IH]; intros l' H Hk.
  - discriminate.
  - cbn [for_items] in H.
    destruct (f k0 v0) as [v0'|] eqn:E0; [|discriminate]. cbn [bind] in H.
    destruct (for_items f l) as [l0|] eqn:El; [|discriminate].
    cbn [bind] in H. injection H as <-.
    cbn [assoc] in *. destruct (String.eqb_spec k0 k) as [->|N].
    + injection Hk as <-. eauto.
    + now apply IH.
Qed.

Lemma enhance_schema_object_metadata (schema schema' props pd : dict)
  (strict_mode : bool) (prop_name : string) :
  _enhance_schema_object self schema strict_mode = Ok schema' ->
  dict_get "properties" schema = Some (JObj props) ->
  dict_get prop_name props = Some (JObj pd) ->
  exists props' pd',
    dict_get "properties" schema' = Some (JObj props') /\
    dict_get prop_name props' = Some (JObj pd') /\
    forall k, In k metadata_keys -> dict_get k pd' = dict_get k pd.
Proof.
  intros H Hprops Hpd. unfold _enhance_schema_object in H.
  destruct (is_str (dict_get "type" schema) "object").
  2:{ injection H as <-. exists props, pd. auto. }
  cbv zeta in H.
  set (schema1 := if strict_mode && negb (dict_mem "additionalProperties" schema)
                  then dict_set "additionalProperties" (JBool false) schema
                  else schema) in *.
  assert (E1 : dict_get "properties" schema1 = Some (JObj props)).
  { subst schema1. destruct (_ && _); [|exact Hprops].
    unfold dict_get, dict_set. rewrite assoc_set_neq by discriminate.
    exact Hprops. }
  rewrite E1 in H.
  destruct (for_items (_enhance_property self) props) as [props'|] eqn:Ef;
    [|discriminate].
  cbn [bind] in H. injection H as <-.
  destruct (for_items_lookup _ _ _ _ _ Ef Hpd) as [v' [Hv' Hget]].
  unfold _enhance_property in Hv'.
  destruct (enhance_property_from_object field_mappings prop_name pd)
    as [pd' [Hpd' Hmeta]].
  rewrite Hpd' in Hv'. injection Hv' as <-.
  exists props', pd'. repeat split; auto.
  unfold dict_get, dict_set. apply assoc_set_eq.
Qed.


Lemma is_str_object_not_string (o : option json) :
  is_str o "object" = true -> is_str o "string" = false.
Proof.
  destruct o as [[| | |s| |]|]; try discriminate. simpl.
  intros H. apply String.eqb_eq in H. now subst s.
Qed.

Lemma enhance_schema_object_type (schema schema' : dict)
  (strict_mode : bool) :
  _enhance_schema_object self schema strict_mode = Ok schema' ->
  dict_get "type" schema' = dict_get "type" schema.
Proof.
  unfold _enhance_schema_object.
  destruct (is_str (dict_get "type" schema) "object"); [|now intros [= <-]].
  cbv zeta.
  set (schema1 := if strict_mode && negb (dict_mem "additionalProperties" schema)
                  then dict_set "additionalProperties" (JBool false) schema
                  else schema).
  assert (E1 : dict_get "type" schema1 = dict_get "type" schema).
  { subst schema1. destruct (_ && _); [|reflexivity].
    unfold dict_get, dict_set. now rewrite assoc_set_neq by discriminate. }
  destruct (dict_get "properties" schema1) as [[| | | | |props]|];
    try discriminate; try (now intros [= <-]).
  destruct (for_items _ props) as [props'|]; [|discriminate].
  cbn [bind]. intros [= <-]. rewrite <- E1.
  unfold dict_get, dict_set. now rewrite assoc_set_neq by discriminate.
Qed.

(** [_enhance_top_level_schema] never raises. *)
Lemma enhance_top_level_schema_total (schema_name : string)
  (schema_def : dict) :
  exists r, _enhance_top_level_schema self schema_name schema_def = Ok r.
Proof.
  unfold _enhance_top_level_schema.
  destruct (negb _); [eauto|].
  destruct (mapped_schema_key self schema_name) as [key|] eqn:E.
  - unfold mapped_schema_key in E.
    destruct (assoc schema_name field_mappings) as [vt|]; [|discriminate].
    apply truthy_key_registered in E as [src ->]. cbn [bind]. eauto.
  - destruct (truthy_key _) as [key|] eqn:E'; [|eauto].
    apply truthy_key_registered in E' as [src ->]. cbn [bind]. eauto.
Qed.

Lemma for_items_total {A : Type} (f : string -> A -> Result A)
  (l : list (string * A)) :
  (forall k v, In (k, v) l -> exists v', f k v = Ok v') ->
  exists l', for_items f l = Ok l'.
Proof.
  induction l as [|[k v] l IH]; intros H.
  - now exists [].
  - destruct (H k v (or_introl eq_refl)) as [v' Hv].
    destruct IH as [l' Hl]. { intros k0 v0 Hin. apply H. now right. }
    cbn [for_items]. rewrite Hv, Hl. cbn [bind]. eauto.
Qed.

(** The enhancement pass returns whenever the property sections of the
    object schemas are dicts of dicts. *)
Lemma enhance_existing_schemas_total (schemas : dict) (strict_mode : bool) :
  (forall name d, In (name, JObj d) schemas ->
     dict_get "properties" d = None \/
     exists props, dict_get "properties" d = Some (JObj props) /\
                   forall n v, In (n, v) props -> is_dict v = true) ->
  exists schemas',
    _enhance_existing_schemas self schemas strict_mode = Ok schemas'.
Proof.
  intros H. apply for_items_total. intros name v Hin.
  destruct v as [| | | | |d]; try (eexists; reflexivity).
  cbn [enhance_entry].
  assert (Hobj : exists d1, _enhance_schema_object self d strict_mode = Ok d1).
  { unfold _enhance_schema_object.
    destruct (is_str _ "object"); [|eauto]. cbv zeta.
    set (schema1 := if strict_mode && negb (dict_mem "additionalProperties" d)
                    then dict_set "additionalProperties" (JBool false) d
                    else d).
    assert (E1 : dict_get "properties" schema1 = dict_get "properties" d).
    { subst schema1. destruct (_ && _); [|reflexivity].
      unfold dict_get, dict_set. now rewrite assoc_set_neq by discriminate. }
    rewrite E1.
    destruct (H name d Hin) as [-> | [props [-> Hprops]]]; [eauto|].
    destruct (for_items_total (_enhance_property self) props) as [props' ->].
    - intros n v Hv. specialize (Hprops n v Hv).
      destruct v as [| | | | |pd]; try discriminate.
      destruct (enhance_property_from_object field_mappings n pd)
        as [pd' [Hpd' _]].
      exists (JObj pd'). exact Hpd'.
    - cbn [bind]. eauto. }
  destruct Hobj as [d1 ->]. cbn [bind].
  destruct (enhance_top_level_schema_total name d1) as [d2 ->].
  cbn [bind]. eauto.
Qed.

(** C2.  After the enhancement pass, every property node of an object
    schema has the description, example and externalDocs it had before,
    whether or not its name matched a line of the mapping table. *)
Theorem metadata_preserved (schemas schemas' schema props pd : dict)
  (strict_mode : bool) (name prop_name : string) :
  _enhance_existing_schemas self schemas strict_mode = Ok schemas' ->
  dict_get name schemas = Some (JObj schema) ->
  is_str (dict_get "type" schema) "object" = true ->
  dict_get "properties" schema = Some (JObj props) ->
  dict_get prop_name props = Some (JObj pd) ->
  exists schema' props' pd',
    dict_get name schemas' = Some (JObj schema') /\
    dict_get "properties" schema' = Some (JObj props') /\
    dict_get prop_name props' = Some (JObj pd') /\
    forall k, In k metadata_keys -> dict_get k pd' = dict_get k pd.
Proof.
  intros Hrun Hschema Hty Hprops Hpd.
  destruct (for_items_lookup _ _ _ _ _ Hrun Hschema) as [v' [Hentry Hget]].
  cbn [enhance_entry] in Hentry.
  destruct (_enhance_schema_object self schema strict_mode) as [d1|] eqn:E1;
    [|discriminate].
  cbn [bind] in Hentry.
  pose proof (enhance_schema_object_type _ _ _ E1) as Ht.
  unfold _enhance_top_level_schema in Hentry.
  rewrite Ht, (is_str_object_not_string _ Hty) in Hentry.
  cbn [negb bind] in Hentry. injection Hentry as <-.
  destruct (enhance_schema_object_metadata _ _ _ _ _ _ E1 Hprops Hpd)
    as [props' [pd' [H1 [H2 H3]]]].
  exists d1, props', pd'. auto.
Qed.

End Enhancer.

Example scenario_fund_account :
  _enhance_existing_schemas scenario_registry scenario_schemas true
  = Ok scenario_enhanced.
Proof. reflexivity. Qed.

(** Witness of C2 on the second end-to-end scenario. *)
Lemma metadata_preserved_witness :
  exists schema' props' pd',
    dict_get "Account" scenario_enhanced = Some (JObj schema') /\
    dict_get "properties" schema' = Some (JObj props') /\
    dict_get "FundAcctID" props' = Some (JObj pd') /\
    forall k, In k metadata_keys -> dict_get k pd' = dict_get k fund_property.
Proof.
  apply (metadata_preserved scenario_registry scenario_schemas
           scenario_enhanced account_schema account_properties fund_property
           true "Account" "FundAcctID");
    reflexivity.
Defined.

(* ================================================================== *)
(** * Top-level schemas: the direct-validation path *)
(* ================================================================== *)

(** What the direct-validation path does as written: on a string schema
    whose name sends it there, [enum], [pattern], [minLength] and
    [maxLength] take the registry record's value whenever that record has
    the key, present or not on the schema; [description] is only filled
    when the schema has none; every other attribute is left as it was. *)
Lemma direct_validation_overwrites (self : SwaggerSchemaApplier)
  (schema_name key : string) (schema_def json_validation : dict) :
  is_str (dict_get "type" schema_def) "string" = true ->
  mapped_schema_key self schema_name = None ->
  truthy_key (_find_schema_key_case_insensitive self schema_name) = Some key ->
  registry_getitem self key = Ok json_validation ->
  exists r,
    _enhance_top_level_schema self schema_name schema_def = Ok r /\
    (forall k, In k ["enum"; "pattern"; "minLength"; "maxLength"] ->
       dict_get k r = match dict_get k json_validation with
                      | Some v => Some v
                      | None => dict_get k schema_def
                      end) /\
    dict_get "description" r
    = match dict_get "description" schema_def with
      | Some v => Some v
      | None => dict_get "description" json_validation
      end /\
    (forall k, ~ In k direct_validation_keys ->
       dict_get k r = dict_get k schema_def).
Proof.
  intros Hty Hmap Hkey Hreg. unfold _enhance_top_level_schema.
  rewrite Hty, Hmap, Hkey, Hreg. cbn [negb bind].
  eexists. split; [reflexivity|].
  unfold apply_direct_validation.
  set (copied := fold_left (copy_key json_validation)
                   ["enum"; "pattern"; "minLength"; "maxLength"] schema_def).
  assert (Hdesc : dict_get "description" copied
                  = dict_get "description" schema_def).
  { subst copied. now rewrite copy_keys_get. }
  assert (Hmem : dict_mem "description" copied
                 = dict_mem "description" schema_def).
  { unfold dict_mem, assoc_mem. fold (dict_get "description" copied).
    fold (dict_get "description" schema_def). now rewrite Hdesc. }
  rewrite Hmem.
  repeat split.
  - intros k Hk.
    assert (Ek : dict_get k copied
                 = match dict_get k json_validation with
                   | Some v => Some v
                   | None => dict_get k schema_def
                   end).
    { subst copied. rewrite copy_keys_get.
      destruct Hk as [<-|[<-|[<-|[<-|[]]]]]; reflexivity. }
    assert (Nk : ("description" =? k) = false).
    { destruct Hk as [<-|[<-|[<-|[<-|[]]]]]; reflexivity. }
    destruct (_ && _); [|exact Ek].
    now rewrite copy_key_get, Nk.
  - unfold dict_mem, assoc_mem.
    fold (dict_get "description" json_validation).
    fold (dict_get "description" schema_def).
    destruct (dict_get "description" json_validation) as [jd|] eqn:Ej,
             (dict_get "description" schema_def) as [sd|] eqn:Es;
      cbn [andb negb]; rewrite ?copy_key_get, ?Ej, ?Hdesc; reflexivity.
  - intros k Hk.
    assert (Ek : dict_get k copied = dict_get k schema_def).
    { subst copied. rewrite copy_keys_get.
      destruct (existsb (String.eqb k) _) eqn:Ex; [|reflexivity].
      exfalso. apply Hk. apply existsb_exists in Ex as [x [Hx Hkx]].
      apply String.eqb_eq in Hkx. subst x.
      unfold direct_validation_keys. simpl in *. tauto. }
    destruct (_ && _); [|exact Ek].
    rewrite copy_key_get.
    destruct (String.eqb_spec "description" k) as [<-|N]; [|exact Ek].
    exfalso. apply Hk. unfold direct_validation_keys. simpl. tauto.
Qed.

(** An instance: a lower-case registry key reached through the
    case-insensitive lookup. *)
Lemma direct_validation_overwrites_witness :
  exists r,
    _enhance_top_level_schema lowercase_registry "SupConfirm"
      supconfirm_schema = Ok r /\
    dict_get "pattern" r = Some (JStr "^[YN]$").
Proof.
  destruct (direct_validation_overwrites lowercase_registry "SupConfirm"
              "supconfirm" supconfirm_schema [("pattern", JStr "^[YN]$")])
    as [r [Hr [Hkeys _]]]; try reflexivity.
  exists r. split; [exact Hr|].
  rewrite (Hkeys "pattern"); [reflexivity | simpl; tauto].
Defined.

(** C5.  The comment that opens [_enhance_top_level_schema] says that a
    schema which already has validation is skipped, and the path guards
    [description] with an absence test, but no such test stands before
    [enum], [pattern], [minLength] and [maxLength].  On the string schema
    SupConfirm, which has a pattern of its own and no field mapping, and a
    registry holding supconfirm, the function returns the schema with the
    registry's pattern in place of its own: an attribute that was present
    is overwritten, so the path is not fill-only. *)
Theorem direct_validation_overwrites_pattern :
  mapped_schema_key lowercase_registry "SupConfirm" = None /\
  _find_schema_key_case_insensitive lowercase_registry "SupConfirm"
  = Some "supconfirm" /\
  dict_get "pattern" supconfirm_schema = Some (JStr "^[A-Z]$") /\
  _enhance_top_level_schema lowercase_registry "SupConfirm" supconfirm_schema
  = Ok [("type", JStr "string"); ("pattern", JStr "^[YN]$")] /\
  ~ fills_only_absent supconfirm_schema
      [("type", JStr "string"); ("pattern", JStr "^[YN]$")].
Proof.
  repeat split; try reflexivity.
  intros H.
  specialize (H "pattern" (JStr "^[A-Z]$")).
  assert (In "pattern" direct_validation_keys) as Hin by (simpl; tauto).
  specialize (H Hin eq_refl). discriminate H.
Qed.

(* ================================================================== *)
(** * Entries that are not objects *)
(* ================================================================== *)

Lemma for_items_app {A : Type} (f : string -> A -> Result A)
  (l1 l2 : list (string * A)) :
  for_items f (l1 ++ l2)%list
  = (a <- for_items f l1 ;; b <- for_items f l2 ;; Ok (a ++ b)%list).
Proof.
  induction l1 as [|[k v] l1 IH].
  - simpl. destruct (for_items f l2); reflexivity.
  - cbn [for_items app]. destruct (f k v) as [v'|]; [|reflexivity].
    cbn [bind]. rewrite IH.
    destruct (for_items f l1) as [a|]; [|reflexivity]. cbn [bind].
    destruct (for_items f l2) as [b|]; reflexivity.
Qed.

Lemma apply_validations_app (l1 l2 : dict) :
  _apply_validations_to_schemas (l1 ++ l2)%list
  = (_ <- _apply_validations_to_schemas l1 ;;
     _apply_validations_to_schemas l2).
Proof.
  induction l1 as [|[k v] l1 IH].
  - reflexivity.
  - cbn [_apply_validations_to_schemas app].
    destruct (if is_dict v then _ else _); [|reflexivity].
    cbn [bind]. exact IH.
Qed.

(** C6 (amended).  An entry of the schema set that is not an object is
    skipped by both passes: the outcome is that of the entries before and
    after it, and the entry itself is returned unchanged. *)
Theorem non_object_entry_skipped (self : SwaggerSchemaApplier)
  (strict_mode : bool) (before after : dict) (name : string) (v : json) :
  is_dict v = false ->
  _enhance_existing_schemas self (before ++ (name, v) :: after)%list strict_mode
  = (before' <- _enhance_existing_schemas self before strict_mode ;;
     after' <- _enhance_existing_schemas self after strict_mode ;;
     Ok (before' ++ (name, v) :: after')%list) /\
  _apply_validations_to_schemas (before ++ (name, v) :: after)%list
  = (_ <- _apply_validations_to_schemas before ;;
     _apply_validations_to_schemas after).
Proof.
  intros Hv. split.
  - unfold _enhance_existing_schemas. rewrite for_items_app.
    cbn [for_items].
    assert (E : enhance_entry self strict_mode name v = Ok v).
    { destruct v; try reflexivity. discriminate. }
    rewrite E. cbn [bind].
    destruct (for_items _ before) as [b|]; [|reflexivity]. cbn [bind].
    destruct (for_items _ after) as [a|]; reflexivity.
  - rewrite apply_validations_app. cbn [_apply_validations_to_schemas].
    rewrite Hv. reflexivity.
Qed.

(** Witness of C6: a string entry after the schemas of the scenario. *)
Lemma non_object_entry_skipped_witness :
  _enhance_existing_schemas scenario_registry
    (scenario_schemas ++ [("OrderId", JStr "string")])%list true
  = (before' <- _enhance_existing_schemas scenario_registry
                  scenario_schemas true ;;
     after' <- _enhance_existing_schemas scenario_registry [] true ;;
     Ok (before' ++ ("OrderId", JStr "string") :: after')%list) /\
  _apply_validations_to_schemas
    (scenario_schemas ++ [("OrderId", JStr "string")])%list
  = (_ <- _apply_validations_to_schemas scenario_schemas ;;
     _apply_validations_to_schemas []).
Proof.
  apply (non_object_entry_skipped scenario_registry true scenario_schemas []
           "OrderId" (JStr "string")).
  reflexivity.
Defined.

(** C6 as stated fails: a schema set whose only entry is a string goes
    through both passes without any exception. *)
Lemma non_object_entry_raises_nothing :
  is_dict (JStr "string") = false /\
  _enhance_existing_schemas scenario_registry scalar_entry_schemas true
  = Ok scalar_entry_schemas /\
  _apply_validations_to_schemas scalar_entry_schemas = Ok tt /\
  ~ (exists e,
       _enhance_existing_schemas scenario_registry scalar_entry_schemas true
       = Raise e).
Proof.
  repeat split. intros [e H]. discriminate H.
Qed.

(* ================================================================== *)
(** * The overlays *)
(* ================================================================== *)

Section ErrorOverlay.

Lemma insert_absent_object (entries : list (string * dict)) (schemas : dict) :
  insert_absent entries (JObj schemas)
  = Ok (JObj (add_absent entries schemas)).
Proof.
  revert schemas. induction entries as [|[name def] entries IH];
    intros schemas.
  - reflexivity.
  - cbn [insert_absent py_contains bind add_absent fold_left fst snd].
    destruct (dict_mem name schemas); cbn [py_setitem bind]; apply IH.
Qed.

(** A schema that is already there survives the loop. *)
Lemma add_absent_keeps (entries : list (string * dict)) (schemas : dict)
  (k : string) (v : json) :
  dict_get k schemas = Some v ->
  dict_get k (add_absent entries schemas) = Some v.
Proof.
  revert schemas. induction entries as [|[name def] entries IH];
    intros schemas H.
  - exact H.
  - cbn [add_absent fold_left fst snd]. apply IH.
    destruct (dict_mem name schemas) eqn:E; [exact H|].
    unfold dict_get, dict_set. rewrite assoc_set_neq; [exact H|].
    intros ->. unfold dict_mem, assoc_mem in E.
    unfold dict_get in H. now rewrite H in E.
Qed.

Lemma setitem_keeps_member (s s' : json) (k n : string) (x : json) :
  py_setitem s k x = Ok s' ->
  py_contains n s = Ok true -> py_contains n s' = Ok true.
Proof.
  destruct s as [| | | | |d]; try discriminate.
  cbn [py_setitem py_contains]. intros [= <-] [= H].
  cbn [py_contains]. f_equal. unfold dict_mem, dict_set in *.
  rewrite assoc_mem_set, H. apply orb_true_r.
Qed.

Lemma setitem_makes_member (s s' : json) (k : string) (x : json) :
  py_setitem s k x = Ok s' -> py_contains k s' = Ok true.
Proof.
  destruct s as [| | | | |d]; try discriminate.
  cbn [py_setitem]. intros [= <-]. cbn [py_contains]. f_equal.
  unfold dict_mem, dict_set. rewrite assoc_mem_set, String.eqb_refl.
  reflexivity.
Qed.

Lemma insert_absent_keeps_member (entries : list (string * dict))
  (s s' : json) (n : string) :
  insert_absent entries s = Ok s' ->
  py_contains n s = Ok true -> py_contains n s' = Ok true.
Proof.
  revert s. induction entries as [|[name def] entries IH]; intros s H Hn.
  - now injection H as <-.
  - cbn [insert_absent] in H.
    destruct (py_contains name s) as [present|]; [|discriminate].
    cbn [bind] in H. destruct present; cbn [bind] in H.
    + now apply (IH s).
    + destruct (py_setitem s name (JObj def)) as [s1|] eqn:E;
        [|discriminate].
      cbn [bind] in H. apply (IH s1 H).
      now apply (setitem_keeps_member s s1 name n (JObj def)).
Qed.

Lemma insert_absent_all_members (entries : list (string * dict))
  (s s' : json) :
  insert_absent entries s = Ok s' ->
  forall name def, In (name, def) entries -> py_contains name s' = Ok true.
Proof.
  revert s. induction entries as [|[n0 d0] entries IH]; intros s H name def Hin.
  - destruct Hin.
  - cbn [insert_absent] in H.
    destruct (py_contains n0 s) as [present|] eqn:Ec; [|discriminate].
    cbn [bind] in H.
    destruct Hin as [[= <- <-]|Hin].
    + destruct present; cbn [bind] in H.
      * now apply (insert_absent_keeps_member entries s s').
      * destruct (py_setitem s n0 (JObj d0)) as [s1|] eqn:E; [|discriminate].
        cbn [bind] in H.
        apply (insert_absent_keeps_member entries s1 s' n0 H).
        now apply (setitem_makes_member s s1 n0 (JObj d0)).
    + destruct present; cbn [bind] in H.
      * now apply (IH s H name def).
      * destruct (py_setitem s n0 (JObj d0)) as [s1|]; [|discriminate].
        cbn [bind] in H. now apply (IH s1 H name def).
Qed.

Lemma insert_absent_nothing_to_do (entries : list (string * dict))
  (s : json) :
  (forall name def, In (name, def) entries -> py_contains name s = Ok true) ->
  insert_absent entries s = Ok s.
Proof.
  induction entries as [|[n0 d0] entries IH]; intros H.
  - reflexivity.
  - cbn [insert_absent]. rewrite (H n0 d0 (or_introl eq_refl)).
    cbn [bind]. apply IH. intros name def Hin. apply (H name def). now right.
Qed.

Lemma insert_absent_twice (entries : list (string * dict)) (s s' : json) :
  insert_absent entries s = Ok s' -> insert_absent entries s' = Ok s'.
Proof.
  intros H. apply insert_absent_nothing_to_do.
  exact (insert_absent_all_members entries s s' H).
Qed.

Lemma enhance_error_schemas_object (doc comps schemas : dict) :
  dict_get "components" doc = Some (JObj comps) ->
  dict_get "schemas" comps = Some (JObj schemas) ->
  _enhance_error_schemas doc
  = Ok (with_schemas doc comps (add_absent error_schemas schemas)).
Proof.
  intros Hc Hs. unfold _enhance_error_schemas. rewrite Hc.
  cbn [py_contains bind]. unfold dict_mem, assoc_mem.
  fold (dict_get "schemas" comps). rewrite Hs. cbn [negb py_getitem].
  rewrite Hs. cbn [bind]. rewrite insert_absent_object. reflexivity.
Qed.

Lemma enhance_error_schemas_twice (doc doc' : dict) :
  _enhance_error_schemas doc = Ok doc' ->
  _enhance_error_schemas doc' = Ok doc'.
Proof.
  intros H. pose proof H as H0. unfold _enhance_error_schemas in H.
  destruct (dict_get "components" doc) as [components|] eqn:Ec.
  2:{ injection H as <-. exact H0. }
  destruct (py_contains "schemas" components) as [has|] eqn:Eh;
    [|discriminate].
  cbn [bind] in H. destruct has; cbn [negb] in H.
  2:{ injection H as <-. exact H0. }
  destruct components as [| | | | |comps]; try discriminate.
  cbn [py_getitem] in H.
  destruct (dict_get "schemas" comps) as [schemas|] eqn:Es; [|discriminate].
  cbn [bind] in H.
  destruct (insert_absent error_schemas schemas) as [schemas'|] eqn:Ei;
    [|discriminate].
  cbn [bind py_setitem] in H. injection H as <-.
  unfold _enhance_error_schemas.
  unfold dict_get, dict_set. rewrite assoc_set_eq.
  cbn [py_contains bind]. unfold dict_mem. rewrite assoc_mem_set.
  cbn [String.eqb Ascii.eqb Bool.eqb orb negb py_getitem].
  unfold dict_get. rewrite assoc_set_eq. cbn [bind].
  rewrite (insert_absent_twice _ _ _ Ei). cbn [bind py_setitem].
  unfold dict_set. now rewrite !assoc_set_set.
Qed.

End ErrorOverlay.

Lemma add_enum_types_overwrites (schemas : dict) (name : string)
  (definition : dict) :
  In (name, definition) enums ->
  dict_get name (_add_enum_types schemas) = Some (JObj definition).
Proof.
  intros H. unfold _add_enum_types, enums in *.
  cbn [fold_left fst snd]. cbn [In] in H.
  repeat (destruct H as [H|H];
          [injection H as <- <-; rewrite !dict_get_set; reflexivity|]).
  destruct H.
Qed.

(** C7.  [_enhance_error_schemas] leaves every schema the document already
    has as it is, and running it on its own result changes nothing;
    [_add_enum_types] ends with its own record under each of its names,
    whatever was there before. *)
Theorem overlay_insert_vs_overwrite :
  (forall (doc comps schemas : dict) (name : string) (v : json),
      dict_get "components" doc = Some (JObj comps) ->
      dict_get "schemas" comps = Some (JObj schemas) ->
      dict_get name schemas = Some v ->
      exists schemas',
        _enhance_error_schemas doc = Ok (with_schemas doc comps schemas') /\
        dict_get name schemas' = Some v) /\
  (forall doc doc' : dict,
      _enhance_error_schemas doc = Ok doc' ->
      _enhance_error_schemas doc' = Ok doc') /\
  (forall (schemas : dict) (name : string) (definition : dict),
      In (name, definition) enums ->
      dict_get name (_add_enum_types schemas) = Some (JObj definition)).
Proof.
  split; [|split].
  - intros doc comps schemas name v Hc Hs Hv.
    exists (add_absent error_schemas schemas). split.
    + now apply enhance_error_schemas_object.
    + now apply add_absent_keeps.
  - exact enhance_error_schemas_twice.
  - exact add_enum_types_overwrites.
Qed.

(** Witness of C7: a document with its own ErrorCode and SrcType. *)
Lemma overlay_insert_vs_overwrite_witness :
  (exists schemas',
     _enhance_error_schemas user_document
     = Ok (with_schemas user_document [("schemas", JObj user_schemas)]
             schemas') /\
     dict_get "ErrorCode" schemas' = Some (JObj [("type", JStr "integer")])) /\
  dict_get "SrcType" (_add_enum_types user_schemas)
  = Some (JObj [ ("type", JStr "string");
                 ("enum", strs ["D"; "I"; "F"]);
                 ("description",
                  JStr "Source type - D for Dealer, I for Intermediary, F for Fund") ]).
Proof.
  destruct overlay_insert_vs_overwrite as [Hkeep [_ Henum]]. split.
  - apply (Hkeep user_document [("schemas", JObj user_schemas)] user_schemas
             "ErrorCode" (JObj [("type", JStr "integer")]));
      reflexivity.
  - apply (Henum user_schemas "SrcType"). simpl. tauto.
Defined.

Example error_overlay_on_user_document :
  _enhance_error_schemas user_document
  = Ok [ ("components",
          JObj [ ("schemas",
                  JObj [ ("ErrorCode", JObj [("type", JStr "integer")]);
                         ("SrcType", JObj [("type", JStr "integer")]);
                         ("CorrlatnID",
                          JObj [ ("type", JStr "string");
                                 ("maxLength", JNum 48);
                                 ("description",
                                  JStr "Correlation ID for tracking") ]) ]) ]) ].
Proof. reflexivity. Qed.

(* ================================================================== *)
(** * The transaction-type overlay *)
(* ================================================================== *)

(** C8 (amended).  On a document titled Buy Order API that has a
    components.schemas section, [_add_transaction_type_validations] stores
    [buy_record] (type, enum and description) under TrxnTypBuy and changes
    no other entry of the schema set. *)
Theorem buy_title_injects_buy_only (doc info comps schemas : dict) :
  dict_get "info" doc = Some (JObj info) ->
  dict_get "title" info = Some (JStr "Buy Order API") ->
  dict_get "components" doc = Some (JObj comps) ->
  dict_get "schemas" comps = Some (JObj schemas) ->
  _add_transaction_type_validations doc
  = Ok (with_schemas doc comps
          (dict_set "TrxnTypBuy" (JObj buy_record) schemas)) /\
  dict_get "TrxnTypBuy" (dict_set "TrxnTypBuy" (JObj buy_record) schemas)
  = Some (JObj buy_record) /\
  forall k, k <> "TrxnTypBuy" ->
    dict_get k (dict_set "TrxnTypBuy" (JObj buy_record) schemas)
    = dict_get k schemas.
Proof.
  intros Hinfo Htitle Hcomps Hschemas. split; [|split].
  - unfold _add_transaction_type_validations. rewrite Hinfo, Hcomps.
    cbn [bind py_get]. rewrite Htitle.
    cbn [bind py_contains]. unfold dict_mem, assoc_mem.
    fold (dict_get "schemas" comps). rewrite Hschemas.
    unfold transaction_types. cbn [inject_transaction_type py_lower bind].
    assert (E : PyStr.contains (PyStr.lower "Buy Order API")
                  (PyStr.lower "Buy") = true) by reflexivity.
    rewrite E. cbn [py_getitem]. rewrite Hcomps. cbn [bind py_getitem].
    rewrite Hschemas. cbn [bind py_setitem]. reflexivity.
  - unfold dict_get, dict_set. apply assoc_set_eq.
  - intros k Hk. unfold dict_get, dict_set. apply assoc_set_neq. congruence.
Qed.

(** Witness of C8 on [buy_document]. *)
Lemma buy_title_injects_buy_only_witness :
  _add_transaction_type_validations buy_document
  = Ok (with_schemas buy_document [("schemas", JObj [])]
          (dict_set "TrxnTypBuy" (JObj buy_record) [])) /\
  dict_get "TrxnTypBuy" (dict_set "TrxnTypBuy" (JObj buy_record) [])
  = Some (JObj buy_record) /\
  forall k, k <> "TrxnTypBuy" ->
    dict_get k (dict_set "TrxnTypBuy" (JObj buy_record) []) = dict_get k [].
Proof.
  apply (buy_title_injects_buy_only buy_document
           [("title", JStr "Buy Order API")] [("schemas", JObj [])] []);
    reflexivity.
Defined.

(** C8 as stated fails: the injected record also carries a description,
    so it is not the two-key record. *)
Lemma buy_record_has_description :
  _add_transaction_type_validations buy_document
  = Ok [ ("info", JObj [("title", JStr "Buy Order API")]);
         ("components",
          JObj [("schemas", JObj [("TrxnTypBuy", JObj buy_record)])]) ] /\
  dict_get "description" buy_record
  = Some (JStr "Transaction type for Buy orders") /\
  dict_get "description" bare_buy_record = None /\
  ~ dict_equiv buy_record bare_buy_record.
Proof.
  repeat split. intros H. specialize (H "description"). discriminate H.
Qed.

(* ================================================================== *)
(** * Further properties of the pattern canonicalizer *)
(* ================================================================== *)

(** X1.  Whatever the input, the empty string included, the canonical
    pattern starts with a caret and ends with a dollar sign. *)
Theorem canonicalize_always_anchored (p : string) :
  PyStr.startswith (_convert_xsd_pattern_to_json p) "^" = true /\
  PyStr.endswith (_convert_xsd_pattern_to_json p) "$" = true.
Proof. split; [apply canon_starts | apply canon_ends]. Qed.

(** X2.  The canonicalizer only adds characters around the pattern: the
    result is the input, verbatim, between a prefix and a suffix, which are
    either the group-and-anchor pair or at most one anchor each. *)
Theorem canonicalize_keeps_pattern_text (p : string) :
  exists pre suf,
    _convert_xsd_pattern_to_json p = pre ++ p ++ suf /\
    ((pre = "^(" /\ suf = ")$") \/
     ((pre = "" \/ pre = "^") /\ (suf = "" \/ suf = "$"))).
Proof.
  rewrite canon_stages. unfold group_alternation.
  destruct (_ && _).
  - exists "^(", ")$". split; [|now left].
    unfold anchor_start.
    change ("(" ++ p ++ ")") with (String "(" (p ++ ")")).
    rewrite (startswith_cons1 "(" "^"). change (Ascii.eqb "^" "(") with false.
    cbn [negb]. unfold anchor_end.
    change ("^" ++ String "(" (p ++ ")")) with (("^(" ++ p) ++ ")").
    rewrite endswith_snoc1. change (Ascii.eqb ")" "$") with false.
    cbn [negb]. now rewrite !append_assoc.
  - unfold anchor_start. destruct (PyStr.startswith p "^"); cbn [negb].
    + unfold anchor_end. destruct (PyStr.endswith p "$"); cbn [negb].
      * exists "", "". rewrite append_nil_r. auto.
      * exists "", "$". auto.
    + unfold anchor_end. destruct (PyStr.endswith ("^" ++ p) "$"); cbn [negb].
      * exists "^", "". rewrite append_nil_r. auto.
      * exists "^", "$". rewrite append_assoc. auto.
Qed.

(** X3.  A pattern with alternation that is not already between
    parentheses is grouped as a whole before it is anchored, so that the
    anchors bind the whole alternation. *)
Theorem canonicalize_groups_alternation (p : string) :
  PyStr.contains p "|" = true ->
  PyStr.startswith p "(" && PyStr.endswith p ")" = false ->
  _convert_xsd_pattern_to_json p = "^(" ++ p ++ ")$".
Proof.
  intros Hc Hg. rewrite canon_stages. unfold group_alternation.
  rewrite Hc, Hg. cbn [andb negb]. unfold anchor_start.
  change ("(" ++ p ++ ")") with (String "(" (p ++ ")")).
  rewrite (startswith_cons1 "(" "^"). change (Ascii.eqb "^" "(") with false.
  cbn [negb]. unfold anchor_end.
  change ("^" ++ String "(" (p ++ ")")) with (("^(" ++ p) ++ ")").
  rewrite endswith_snoc1. change (Ascii.eqb ")" "$") with false.
  cbn [negb]. now rewrite !append_assoc.
Qed.

Lemma canonicalize_groups_alternation_witness :
  _convert_xsd_pattern_to_json "NEW|CHG|CAN" = "^(NEW|CHG|CAN)$".
Proof.
  apply (canonicalize_groups_alternation "NEW|CHG|CAN"); reflexivity.
Defined.

(** X4.  A pattern that begins with an opening and ends with a closing
    parenthesis is never grouped, only anchored -- also when the two
    parentheses do not match each other, as in (a)|(b). *)
Theorem canonicalize_trusts_outer_parentheses (p : string) :
  PyStr.startswith p "(" = true ->
  PyStr.endswith p ")" = true ->
  _convert_xsd_pattern_to_json p = "^" ++ p ++ "$".
Proof.
  intros Hs He. rewrite canon_stages. unfold group_alternation.
  rewrite Hs, He. cbn [andb negb]. rewrite andb_false_r.
  destruct p as [|c p]; [discriminate|].
  rewrite startswith_cons1 in Hs. apply Ascii.eqb_eq in Hs. subst c.
  unfold anchor_start. rewrite (startswith_cons1 "(" "^").
  change (Ascii.eqb "^" "(") with false. cbn [negb].
  apply endswith_split in He as [pre He].
  unfold anchor_end. rewrite He.
  change ("^" ++ pre ++ ")") with (String "^" (pre ++ ")")).
  change (String "^" (pre ++ ")")) with (String "^" pre ++ ")").
  rewrite endswith_snoc1. change (Ascii.eqb ")" "$") with false.
  cbn [negb]. now rewrite !append_assoc.
Qed.

Lemma canonicalize_trusts_outer_parentheses_witness :
  _convert_xsd_pattern_to_json "(a)|(b)" = "^(a)|(b)$".
Proof.
  apply (canonicalize_trusts_outer_parentheses "(a)|(b)"); reflexivity.
Defined.

(** Canonicalizing a second time a pattern that contains alternation wraps
    the first result in a new group and a new pair of anchors. *)
Lemma canonicalize_twice_wraps_alternation (p : string) :
  PyStr.contains p "|" = true ->
  _convert_xsd_pattern_to_json (_convert_xsd_pattern_to_json p)
  = "^(" ++ _convert_xsd_pattern_to_json p ++ ")$" /\
  _convert_xsd_pattern_to_json (_convert_xsd_pattern_to_json p)
  <> _convert_xsd_pattern_to_json p.
Proof.
  intros H. split.
  - now apply canon_twice_with_alternation.
  - now apply canon_not_idempotent_with_alternation.
Qed.

Lemma canonicalize_twice_wraps_alternation_witness :
  _convert_xsd_pattern_to_json (_convert_xsd_pattern_to_json "(A|BC)")
  = "^(" ++ _convert_xsd_pattern_to_json "(A|BC)" ++ ")$" /\
  _convert_xsd_pattern_to_json (_convert_xsd_pattern_to_json "(A|BC)")
  <> _convert_xsd_pattern_to_json "(A|BC)".
Proof.
  apply (canonicalize_twice_wraps_alternation "(A|BC)"). reflexivity.
Defined.

(* ================================================================== *)
(** * Further properties of the type-name normalizer *)
(* ================================================================== *)

Section CharFacts.

Ltac all_chars c := destruct c as [[] [] [] [] [] [] [] []]; reflexivity.

Lemma lower_char_idem (c : ascii) :
  PyStr.lower_char (PyStr.lower_char c) = PyStr.lower_char c.
Proof. all_chars c. Qed.

Lemma upper_lower_char (c : ascii) :
  PyStr.upper_char (PyStr.lower_char c) = PyStr.upper_char c.
Proof. all_chars c. Qed.

Lemma word_sep_lower_char (c : ascii) :
  is_word_sep (PyStr.lower_char c) = is_word_sep c.
Proof. all_chars c. Qed.

Lemma word_sep_upper_char (c : ascii) :
  is_word_sep (PyStr.upper_char c) = is_word_sep c.
Proof. all_chars c. Qed.

Lemma colon_lower_char (c : ascii) :
  Ascii.eqb (PyStr.lower_char c) ":" = Ascii.eqb c ":".
Proof. all_chars c. Qed.

End CharFacts.

Section Words.

Lemma lower_idem (s : string) : PyStr.lower (PyStr.lower s) = PyStr.lower s.
Proof. induction s; simpl; [|rewrite lower_char_idem, IHs]; reflexivity. Qed.

Lemma lower_append (a b : string) :
  PyStr.lower (a ++ b) = PyStr.lower a ++ PyStr.lower b.
Proof. induction a; simpl; congruence. Qed.

Lemma nonempty_lower (s : string) : nonempty (PyStr.lower s) = nonempty s.
Proof. now destruct s. Qed.

Lemma capitalize_lower (s : string) :
  PyStr.capitalize (PyStr.lower s) = PyStr.capitalize s.
Proof.
  destruct s; simpl; [reflexivity|]. now rewrite upper_lower_char, lower_idem.
Qed.

(** [c in s] for one character, read off the characters of [s]. *)
Lemma contains_char (s : string) (c : ascii) :
  PyStr.contains s (String c "") = any_char (Ascii.eqb c) s.
Proof.
  induction s as [|x s IH]; [reflexivity|].
  cbn [PyStr.contains any_char]. rewrite IH.
  fold (PyStr.startswith (String x s) (String c "")).
  now rewrite startswith_cons1.
Qed.

Lemma any_char_append (f : ascii -> bool) (a b : string) :
  any_char f (a ++ b) = any_char f a || any_char f b.
Proof.
  induction a as [|x a IH]; [reflexivity|].
  simpl. now rewrite IH, orb_assoc.
Qed.

Lemma contains_colon_lower (s : string) :
  PyStr.contains (PyStr.lower s) ":" = PyStr.contains s ":".
Proof.
  rewrite !contains_char. induction s as [|x s IH]; [reflexivity|].
  cbn [PyStr.lower any_char]. rewrite IH. f_equal.
  rewrite (Ascii.eqb_sym ":" (PyStr.lower_char x)), (Ascii.eqb_sym ":" x).
  apply colon_lower_char.
Qed.

Lemma split_on_nonempty (sep : ascii) (s : string) :
  PyStr.split_on sep s <> [].
Proof.
  destruct s as [|c s]; simpl; [discriminate|].
  destruct (Ascii.eqb c sep); [discriminate|].
  destruct (PyStr.split_on sep s); discriminate.
Qed.

Lemma split_on_colon_lower (s : string) :
  PyStr.split_on ":" (PyStr.lower s) = map PyStr.lower (PyStr.split_on ":" s).
Proof.
  induction s as [|c s IH]; [reflexivity|].
  cbn [PyStr.lower PyStr.split_on]. rewrite colon_lower_char, IH.
  destruct (Ascii.eqb c ":"); [reflexivity|].
  destruct (PyStr.split_on ":" s); reflexivity.
Qed.

(** [split] of a text with a separator in the middle. *)
Lemma split_on_app (sep : ascii) (a b : string) :
  PyStr.split_on sep (a ++ String sep b)
  = (PyStr.split_on sep a ++ PyStr.split_on sep b)%list.
Proof.
  induction a as [|c a IH].
  - cbn. now rewrite Ascii.eqb_refl.
  - change (String c a ++ String sep b) with (String c (a ++ String sep b)).
    cbn [PyStr.split_on]. rewrite IH.
    destruct (Ascii.eqb c sep); [reflexivity|].
    pose proof (split_on_nonempty sep a) as N.
    destruct (PyStr.split_on sep a) as [|w ws]; [contradiction|reflexivity].
Qed.

Lemma split_on_absent (sep : ascii) (s : string) :
  any_char (Ascii.eqb sep) s = false -> PyStr.split_on sep s = [s].
Proof.
  induction s as [|c s IH]; [reflexivity|].
  cbn [any_char PyStr.split_on]. intros H.
  apply orb_false_iff in H as [Hc Hs].
  rewrite Ascii.eqb_sym, Hc, (IH Hs). reflexivity.
Qed.

Lemma last_app_nonempty {A : Type} (l1 l2 : list A) (d : A) :
  l2 <> [] -> last (l1 ++ l2) d = last l2 d.
Proof.
  intros N. induction l1 as [|x l1 IH]; [reflexivity|].
  cbn [app last]. destruct (l1 ++ l2)%list eqn:E; [|exact IH].
  apply app_eq_nil in E as [_ E]. contradiction.
Qed.

Lemma last_map_lower (l : list string) :
  last (map PyStr.lower l) "" = PyStr.lower (last l "").
Proof.
  induction l as [|x l IH]; [reflexivity|].
  cbn [map last]. destruct l; [reflexivity | exact IH].
Qed.

Lemma re_split_seps_lower (s cur : string) (in_sep : bool) :
  re_split_seps (PyStr.lower s) (PyStr.lower cur) in_sep
  = map PyStr.lower (re_split_seps s cur in_sep).
Proof.
  revert cur in_sep. induction s as [|c s IH]; intros cur in_sep.
  - reflexivity.
  - cbn [PyStr.lower re_split_seps]. rewrite word_sep_lower_char.
    destruct (is_word_sep c).
    + destruct in_sep; cbn [map]; rewrite <- (IH "" true); reflexivity.
    + rewrite <- IH, lower_append. reflexivity.
Qed.

Lemma filter_nonempty_lower (l : list string) :
  filter nonempty (map PyStr.lower l) = map PyStr.lower (filter nonempty l).
Proof.
  induction l as [|x l IH]; [reflexivity|].
  cbn [map filter]. rewrite nonempty_lower, IH. now destruct (nonempty x).
Qed.

Lemma map_capitalize_lower (l : list string) :
  map PyStr.capitalize (map PyStr.lower l) = map PyStr.capitalize l.
Proof.
  induction l as [|x l IH]; [reflexivity|].
  cbn [map]. now rewrite capitalize_lower, IH.
Qed.

Lemma re_split_words_lower (s : string) :
  re_split_seps (PyStr.lower s) "" false
  = map PyStr.lower (re_split_seps s "" false).
Proof. exact (re_split_seps_lower s "" false). Qed.

Lemma convert_type_name_lower (s : string) :
  _convert_type_name (PyStr.lower s) = _convert_type_name s.
Proof.
  unfold _convert_type_name.
  rewrite nonempty_lower, contains_colon_lower.
  destruct (negb (nonempty s)); [reflexivity|].
  destruct (PyStr.contains s ":").
  - rewrite split_on_colon_lower, last_map_lower, lower_idem.
    destruct (assoc _ conversions); [reflexivity|].
    rewrite re_split_words_lower, filter_nonempty_lower, map_capitalize_lower.
    reflexivity.
  - rewrite lower_idem.
    destruct (assoc _ conversions); [reflexivity|].
    rewrite re_split_words_lower, filter_nonempty_lower, map_capitalize_lower.
    reflexivity.
Qed.

End Words.

(** X5.  Only the text after the last colon of a name counts: a namespace
    prefix, whatever it is, does not change the normalized name of a
    non-empty colon-free name. *)
Theorem convert_type_name_drops_namespace (ns name : string) :
  nonempty name = true ->
  PyStr.contains name ":" = false ->
  _convert_type_name (ns ++ ":" ++ name) = _convert_type_name name.
Proof.
  intros Hne Hcolon. unfold _convert_type_name at 1.
  assert (E1 : nonempty (ns ++ ":" ++ name) = true) by now destruct ns.
  assert (E2 : PyStr.contains (ns ++ ":" ++ name) ":" = true).
  { rewrite !contains_append1. cbn. apply orb_true_r. }
  rewrite E1, E2. cbn [negb].
  change (ns ++ ":" ++ name) with (ns ++ String ":" name).
  rewrite split_on_app, last_app_nonempty by apply split_on_nonempty.
  rewrite contains_char in Hcolon. rewrite (split_on_absent ":" name Hcolon).
  cbn [last]. unfold _convert_type_name.
  rewrite Hne, contains_char, Hcolon. reflexivity.
Qed.

Lemma convert_type_name_drops_namespace_witness :
  _convert_type_name ("xs:tns" ++ ":" ++ "string3-5")
  = _convert_type_name "string3-5".
Proof.
  apply (convert_type_name_drops_namespace "xs:tns" "string3-5");
    reflexivity.
Defined.

(** X6.  On ASCII names the normalizer is case-insensitive: two such
    names with the same lower-cased form get the same normalized name. *)
Theorem convert_type_name_ignores_case (a b : string) :
  PyStr.isascii a = true ->
  PyStr.isascii b = true ->
  PyStr.lower a = PyStr.lower b ->
  _convert_type_name a = _convert_type_name b.
Proof.
  intros _ _ H. rewrite <- (convert_type_name_lower a),
    <- (convert_type_name_lower b). now rewrite H.
Qed.

Lemma convert_type_name_ignores_case_witness :
  _convert_type_name "ORD_set" = _convert_type_name "ord_SET".
Proof.
  apply (convert_type_name_ignores_case "ORD_set" "ord_SET"); reflexivity.
Defined.

Section NoSeparators.

Lemma lower_no_separator (s : string) :
  any_char is_word_sep (PyStr.lower s) = any_char is_word_sep s.
Proof.
  induction s as [|c s IH]; [reflexivity|].
  cbn [PyStr.lower any_char]. now rewrite word_sep_lower_char, IH.
Qed.

Lemma capitalize_no_separator (s : string) :
  any_char is_word_sep (PyStr.capitalize s) = any_char is_word_sep s.
Proof.
  destruct s as [|c s]; [reflexivity|].
  cbn [PyStr.capitalize any_char].
  now rewrite word_sep_upper_char, lower_no_separator.
Qed.

(** The pieces returned by [re.split] are free of separators. *)
Lemma re_split_seps_no_separator (s cur : string) (in_sep : bool) :
  any_char is_word_sep cur = false ->
  Forall (fun w => any_char is_word_sep w = false)
    (re_split_seps s cur in_sep).
Proof.
  revert cur in_sep. induction s as [|c s IH]; intros cur in_sep H.
  - constructor; [exact H | constructor].
  - cbn [re_split_seps]. destruct (is_word_sep c) eqn:E.
    + destruct in_sep.
      * now apply IH.
      * constructor; [exact H | now apply IH].
    + apply IH. rewrite any_char_append. cbn [any_char].
      now rewrite H, E.
Qed.

Lemma join_no_separator (l : list string) :
  Forall (fun w => any_char is_word_sep w = false) l ->
  any_char is_word_sep (PyStr.join l) = false.
Proof.
  unfold PyStr.join. induction 1 as [|w l Hw Hl IH]; [reflexivity|].
  cbn [String.concat]. destruct l as [|w' l'].
  - exact Hw.
  - rewrite any_char_append. rewrite Hw. cbn [orb].
    change ("" ++ String.concat "" (w' :: l')) with (String.concat "" (w' :: l')).
    exact IH.
Qed.

Lemma conversions_no_separator (k r : string) :
  assoc k conversions = Some r -> any_char is_word_sep r = false.
Proof.
  unfold conversions. cbn [assoc].
  repeat match goal with
         | |- (if ?b then _ else _) = _ -> _ =>
             destruct b; [intros [= <-]; reflexivity|]
         end.
  discriminate.
Qed.

End NoSeparators.

(** X7.  The normalized name of an ASCII name never contains a hyphen,
    an underscore or a whitespace character, whether it comes from the
    table, from the words of the name or is the sentinel of the empty
    name. *)
Theorem convert_type_name_has_no_separator (xsd_name : string) :
  PyStr.isascii xsd_name = true ->
  any_char is_word_sep (_convert_type_name xsd_name) = false.
Proof.
  intros _. unfold _convert_type_name.
  destruct (negb (nonempty xsd_name)); [reflexivity|].
  destruct (assoc _ conversions) as [r|] eqn:E.
  - exact (conversions_no_separator _ _ E).
  - apply join_no_separator.
    apply Forall_map. apply Forall_forall. intros w Hw.
    apply filter_In in Hw as [Hw _].
    rewrite capitalize_no_separator.
    pose proof (re_split_seps_no_separator
                  (if PyStr.contains xsd_name ":"
                   then last (PyStr.split_on ":" xsd_name) ""
                   else xsd_name) "" false eq_refl) as F.
    rewrite Forall_forall in F. now apply F.
Qed.

Lemma convert_type_name_has_no_separator_witness :
  any_char is_word_sep (_convert_type_name "tns:fund_acct-id") = false.
Proof.
  apply (convert_type_name_has_no_separator "tns:fund_acct-id"). reflexivity.
Defined.

(* ================================================================== *)
(** * Further properties of the simple-type converter *)
(* ================================================================== *)

Section RecordShape.

Lemma keeps_ok_id : keeps_ok (fun d => d).
Proof. intros d H. exact H. Qed.

Lemma keeps_ok_set (k : string) (v : json) :
  entry_ok k v -> keeps_ok (dict_set k v).
Proof.
  intros Hv d Hd k' v'. rewrite dict_get_set.
  destruct (String.eqb_spec k k') as [<-|N].
  - now intros [= <-].
  - apply Hd.
Qed.

Lemma keeps_ok_compose (f g : dict -> dict) :
  keeps_ok f -> keeps_ok g -> keeps_ok (fun d => g (f d)).
Proof. intros Hf Hg d Hd. apply Hg, Hf, Hd. Qed.

Lemma keeps_ok_when_found {A : Type} (o : option A) (f : A -> dict -> dict) :
  (forall a, keeps_ok (f a)) -> keeps_ok (when_found o f).
Proof. intros H. destruct o; [apply H | apply keeps_ok_id]. Qed.

Lemma keeps_ok_fold {A : Type} (step : dict -> A -> dict) (l : list A) :
  (forall a, keeps_ok (fun d => step d a)) ->
  keeps_ok (fun d => fold_left step l d).
Proof.
  intros H. induction l as [|a l IH]; [apply keeps_ok_id|].
  intros d Hd. cbn [fold_left]. apply IH, (H a), Hd.
Qed.

Lemma keeps_ok_set_pattern (raw : string) : keeps_ok (set_pattern raw).
Proof. apply keeps_ok_set. constructor. Qed.

Lemma keeps_ok_set_length (n : Z) : keeps_ok (set_length n).
Proof.
  intros d Hd. unfold set_length.
  apply keeps_ok_set; [constructor|]. apply keeps_ok_set; [constructor|].
  exact Hd.
Qed.

Lemma keeps_ok_first_pattern (l : list string) : keeps_ok (first_pattern l).
Proof. destruct l; [apply keeps_ok_id | apply keeps_ok_set_pattern]. Qed.

Lemma keeps_ok_apply_facets (facets : list FacetEntry) :
  keeps_ok (fun d => _apply_facets d facets).
Proof.
  intros d Hd. unfold _apply_facets. cbv zeta.
  apply keeps_ok_when_found; [intros; apply keeps_ok_set; constructor|].
  apply keeps_ok_when_found; [intros; apply keeps_ok_set_pattern|].
  apply keeps_ok_when_found; [intros; apply keeps_ok_set_length|].
  apply keeps_ok_when_found; [intros; apply keeps_ok_set; constructor|].
  apply keeps_ok_when_found; [intros; apply keeps_ok_set; constructor|].
  exact Hd.
Qed.

Lemma keeps_ok_method1 (t : SimpleType) : keeps_ok (method1 t).
Proof.
  unfold method1. destruct (truthy_facets _);
    [apply keeps_ok_apply_facets | apply keeps_ok_id].
Qed.

Lemma keeps_ok_method2 (t : SimpleType) : keeps_ok (method2 t).
Proof.
  unfold method2. destruct (st_restrictions t); [|apply keeps_ok_id].
  apply keeps_ok_fold. intros r. destruct (truthy_facets _);
    [apply keeps_ok_apply_facets | apply keeps_ok_id].
Qed.

Lemma keeps_ok_method3 (t : SimpleType) : keeps_ok (method3 t).
Proof.
  unfold method3. destruct (st_base_type t), (st_constraints t);
    try apply keeps_ok_id.
  apply keeps_ok_fold. intros c. destruct c; cbn [apply_constraint];
    first [apply keeps_ok_set_length | apply keeps_ok_set_pattern
          | apply keeps_ok_id | apply keeps_ok_set; constructor].
Qed.

Lemma keeps_ok_validator_enumeration (v : Validator) :
  keeps_ok (validator_enumeration v).
Proof.
  unfold validator_enumeration.
  destruct (v_enumeration v) as [[|x xs]|];
    first [apply keeps_ok_id | apply keeps_ok_set; constructor].
Qed.

Lemma keeps_ok_validator_facet (v : Validator) : keeps_ok (validator_facet v).
Proof.
  unfold validator_facet.
  destruct (validator_type v =? "XsdPatternFacets").
  { destruct (v_patterns v), (v_regexps v), (v_value v);
      first [apply keeps_ok_first_pattern | apply keeps_ok_set_pattern
            | apply keeps_ok_id]. }
  destruct (validator_type v =? "XsdMinLengthFacet").
  { apply keeps_ok_when_found. intros; apply keeps_ok_set; constructor. }
  destruct (validator_type v =? "XsdMaxLengthFacet").
  { apply keeps_ok_when_found. intros; apply keeps_ok_set; constructor. }
  destruct (validator_type v =? "XsdLengthFacet").
  { apply keeps_ok_when_found. intros; apply keeps_ok_set_length. }
  apply keeps_ok_id.
Qed.

Lemma keeps_ok_method4 (t : SimpleType) : keeps_ok (method4 t).
Proof.
  unfold method4. destruct (st_validators t); [|apply keeps_ok_id].
  apply keeps_ok_fold. intros v d Hd. unfold apply_validator.
  apply keeps_ok_validator_facet, keeps_ok_validator_enumeration, Hd.
Qed.

Lemma keeps_ok_scan_patterns (pats : list PatternNode) :
  keeps_ok (scan_patterns pats).
Proof.
  induction pats as [|pat pats IH]; [apply keeps_ok_id|].
  cbn [scan_patterns]. destruct (pattern_node_value pat) as [v|]; [|exact IH].
  destruct (nonempty v); [apply keeps_ok_set_pattern | exact IH].
Qed.

Lemma keeps_ok_method5 (t : SimpleType) : keeps_ok (method5 t).
Proof.
  unfold method5. destruct (st_patterns t);
    [apply keeps_ok_scan_patterns | apply keeps_ok_id].
Qed.

Lemma keeps_ok_method6 (t : SimpleType) : keeps_ok (method6 t).
Proof.
  unfold method6. destruct (st_validators t); [|apply keeps_ok_id].
  apply keeps_ok_fold. intros v. unfold apply_pattern_facet.
  destruct (_ =? _); [|apply keeps_ok_id].
  destruct (v_value v), (v_pattern v);
    first [apply keeps_ok_set_pattern | apply keeps_ok_id].
Qed.

Lemma keeps_ok_set_base_type (t : SimpleType) : keeps_ok (set_base_type t).
Proof.
  unfold set_base_type.
  assert (K : forall kind,
             In kind ["string"; "integer"; "number"; "boolean"] ->
             keeps_ok (dict_set "type" (JStr kind))).
  { intros kind H. apply keeps_ok_set. now constructor. }
  destruct (st_python_type t) as [[]|];
    try apply keeps_ok_id; try (apply K; simpl; tauto).
  destruct (st_base_type t) as [[b|]|]; try apply keeps_ok_id.
  repeat match goal with
         | |- context [if ?c then _ else _] => destruct c
         end; try apply keeps_ok_id; apply K; simpl; tauto.
Qed.

Lemma initial_record_ok : record_ok [("type", JStr "string")].
Proof.
  intros k v. unfold dict_get. cbn [assoc].
  destruct (String.eqb_spec "type" k) as [<-|N]; [|discriminate].
  intros [= <-]. constructor. simpl. tauto.
Qed.

Lemma convert_simple_type_ok (t : SimpleType) (name : string) :
  record_ok (_convert_simple_type t name).
Proof.
  unfold _convert_simple_type. cbv zeta.
  apply keeps_ok_set_base_type, keeps_ok_method6, keeps_ok_method5,
    keeps_ok_method4, keeps_ok_method3, keeps_ok_method2, keeps_ok_method1,
    initial_record_ok.
Qed.

Lemma overlay_keeps_key (m : dict -> dict) (k : string) (d : dict) :
  overlay m ->
  (exists v, dict_get k d = Some v) -> exists v, dict_get k (m d) = Some v.
Proof.
  intros Hm [v Hv]. rewrite (Hm d k).
  destruct (found m k); eauto.
Qed.

(** No method removes the kind the record starts with. *)
Lemma convert_simple_type_has_type (t : SimpleType) (name : string) :
  exists v, dict_get "type" (_convert_simple_type t name) = Some v.
Proof.
  unfold _convert_simple_type. cbv zeta.
  assert (H : exists v,
             dict_get "type"
               (method6 t (method5 t (method4 t (method3 t (method2 t
                  (method1 t [("type", JStr "string")])))))) = Some v).
  { apply overlay_keeps_key; [apply overlay_method6|].
    apply overlay_keeps_key; [apply overlay_method5|].
    apply overlay_keeps_key; [apply overlay_method4|].
    apply overlay_keeps_key; [apply overlay_method3|].
    apply overlay_keeps_key; [apply overlay_method2|].
    apply overlay_keeps_key; [apply overlay_method1|].
    now exists (JStr "string"). }
  destruct H as [v Hv]. unfold set_base_type.
  destruct (st_python_type t) as [[]|]; rewrite ?dict_get_set; cbn; eauto.
  destruct (st_base_type t) as [[b|]|]; eauto.
  repeat match goal with
         | |- context [if ?c then _ else _] => destruct c
         end; rewrite ?dict_get_set; cbn; eauto.
Qed.

End RecordShape.

(** X8.  A converted simple type always has a kind, one of string,
    integer, number and boolean, and besides it holds nothing but integer
    [minLength] and [maxLength], a canonical [pattern] and a list under
    [enum]: no method adds any other key. *)
Theorem simple_type_record_shape (type_obj : SimpleType) (name : string) :
  (exists kind,
     dict_get "type" (_convert_simple_type type_obj name) = Some (JStr kind)
     /\ In kind ["string"; "integer"; "number"; "boolean"]) /\
  (forall k v,
     dict_get k (_convert_simple_type type_obj name) = Some v ->
     entry_ok k v).
Proof.
  split.
  - destruct (convert_simple_type_has_type type_obj name) as [v Hv].
    pose proof (convert_simple_type_ok type_obj name "type" v Hv) as Hk.
    inversion Hk; subst. eauto.
  - exact (convert_simple_type_ok type_obj name).
Qed.

(** X9.  Every pattern the converter emits, by whichever method it was
    found, is a string anchored at both ends. *)
Theorem simple_type_pattern_anchored (type_obj : SimpleType)
  (name : string) (v : json) :
  dict_get "pattern" (_convert_simple_type type_obj name) = Some v ->
  exists p, v = JStr p /\
            PyStr.startswith p "^" = true /\ PyStr.endswith p "$" = true.
Proof.
  intros H. apply convert_simple_type_ok in H. inversion H; subst.
  eexists. split; [reflexivity|]. split; [apply canon_starts|apply canon_ends].
Qed.

Lemma simple_type_pattern_anchored_witness :
  exists p, JStr "^b$" = JStr p /\
            PyStr.startswith p "^" = true /\ PyStr.endswith p "$" = true.
Proof.
  apply (simple_type_pattern_anchored conflicting_type "T"). reflexivity.
Defined.

(** X10.  Inside one facet map a [length] facet decides both bounds: it
    overrides a [minLength] or [maxLength] given in the same map. *)
Theorem apply_facets_length_overrides (json_type : dict)
  (facets : list FacetEntry) (n : Z) :
  facet_lookup sel_length facets = Some n ->
  dict_get "minLength" (_apply_facets json_type facets) = Some (JNum n) /\
  dict_get "maxLength" (_apply_facets json_type facets) = Some (JNum n).
Proof.
  intros H. unfold _apply_facets. cbv zeta. rewrite H.
  assert (L : forall d,
             dict_get "minLength" (set_length n d) = Some (JNum n) /\
             dict_get "maxLength" (set_length n d) = Some (JNum n)).
  { intros d. unfold set_length. rewrite !dict_get_set. split; reflexivity. }
  assert (P : forall raw d k, k <> "pattern" ->
                dict_get k (set_pattern raw d) = dict_get k d).
  { intros raw d k N. unfold set_pattern. rewrite dict_get_set.
    destruct (String.eqb_spec "pattern" k); congruence. }
  assert (E : forall vs d k, k <> "enum" ->
                dict_get k (dict_set "enum" (JArr vs) d) = dict_get k d).
  { intros vs d k N. rewrite dict_get_set.
    destruct (String.eqb_spec "enum" k); congruence. }
  cbn [when_found].
  destruct (facet_lookup sel_enumeration facets),
           (facet_lookup sel_pattern facets); cbn [when_found];
    rewrite ?E, ?P by discriminate; apply L.
Qed.

Lemma apply_facets_length_overrides_witness :
  dict_get "minLength"
    (_apply_facets [] [Facet_minLength 1; Facet_maxLength 9; Facet_length 4])
  = Some (JNum 4) /\
  dict_get "maxLength"
    (_apply_facets [] [Facet_minLength 1; Facet_maxLength 9; Facet_length 4])
  = Some (JNum 4).
Proof.
  apply (apply_facets_length_overrides []
           [Facet_minLength 1; Facet_maxLength 9; Facet_length 4] 4).
  reflexivity.
Defined.

(* ================================================================== *)
(** * Further properties of the complex-type projector *)
(* ================================================================== *)

Section Members.

Lemma existsb_eqb_In (n : string) (l : list string) :
  existsb (String.eqb n) l = true <-> In n l.
Proof.
  rewrite existsb_exists. split.
  - intros [x [Hx E]]. apply String.eqb_eq in E. now subst.
  - intros H. exists n. split; [exact H | apply String.eqb_refl].
Qed.

Lemma fold_add_element_keys (elements : list Element) (props : dict)
  (req : list string) (n : string) :
  dict_mem n (fst (fold_left add_element elements (props, req)))
  = dict_mem n props || existsb (String.eqb n) (map e_local_name elements).
Proof.
  revert props req. induction elements as [|e es IH]; intros props req.
  - cbn. now rewrite orb_false_r.
  - cbn [fold_left map existsb]. unfold add_element at 2.
    destruct (element_required e); rewrite IH;
      unfold dict_mem, dict_set; rewrite assoc_mem_set;
      rewrite (String.eqb_sym (e_local_name e) n);
      destruct (n =? e_local_name e), (assoc_mem n props); reflexivity.
Qed.

Lemma fold_add_attribute_keys (attributes : list (string * Attribute))
  (props : dict) (req : list string) (n : string) :
  dict_mem n (fst (fold_left add_attribute attributes (props, req)))
  = dict_mem n props || existsb (String.eqb n) (map fst attributes).
Proof.
  revert props req. induction attributes as [|[a x] l IH]; intros props req.
  - cbn. now rewrite orb_false_r.
  - cbn [fold_left map existsb fst]. unfold add_attribute at 2.
    destruct (attribute_required x); rewrite IH;
      unfold dict_mem, dict_set; rewrite assoc_mem_set;
      rewrite (String.eqb_sym a n);
      destruct (n =? a), (assoc_mem n props); reflexivity.
Qed.

Lemma collect_members_keys (t : ComplexType) (n : string) :
  dict_mem n (fst (collect_members t)) = true <-> In n (member_names t).
Proof.
  unfold collect_members, member_names. rewrite in_app_iff.
  destruct (ct_content t) as [elements|], (ct_attributes t) as [attributes|].
  - destruct (fold_left add_element elements ([], [])) as [props req] eqn:E.
    rewrite fold_add_attribute_keys.
    apply (f_equal fst) in E. cbn [fst] in E. rewrite <- E.
    rewrite fold_add_element_keys. cbn [dict_mem assoc_mem assoc orb].
    rewrite orb_true_iff, !existsb_eqb_In. reflexivity.
  - rewrite fold_add_element_keys. cbn [dict_mem assoc_mem assoc orb].
    rewrite existsb_eqb_In. cbn [In]. tauto.
  - rewrite fold_add_attribute_keys. cbn [dict_mem assoc_mem assoc orb].
    rewrite existsb_eqb_In. cbn [In]. tauto.
  - cbn. intuition discriminate.
Qed.

Lemma convert_complex_type_properties (t : ComplexType) (name : string) :
  dict_get "properties" (_convert_complex_type t name)
  = Some (JObj (fst (collect_members t))).
Proof.
  unfold _convert_complex_type.
  destruct (collect_members t) as [props [|r req]]; reflexivity.
Qed.

Lemma convert_complex_type_required (t : ComplexType) (name : string)
  (req : list json) :
  dict_get "required" (_convert_complex_type t name) = Some (JArr req) ->
  req = map JStr (required_members t).
Proof.
  rewrite <- collect_members_required. unfold _convert_complex_type.
  destruct (collect_members t) as [props [|r l]]; cbn [snd].
  - discriminate.
  - intros [= <-]. reflexivity.
Qed.

Lemma required_members_declared (t : ComplexType) (n : string) :
  In n (required_members t) -> In n (member_names t).
Proof.
  unfold required_members, member_names. rewrite !in_app_iff.
  intros [H|H]; [left; destruct (ct_content t) | right; destruct (ct_attributes t)];
    try contradiction;
    apply in_map_iff in H as [x [<- Hx]];
    apply filter_In in Hx as [Hx _]; now apply in_map.
Qed.

End Members.

(** X11.  The properties of a projected complex type are exactly its
    declared members: every element and attribute name is a key, and there
    is no other key. *)
Theorem complex_type_properties_are_members (type_obj : ComplexType)
  (name : string) :
  exists properties,
    dict_get "properties" (_convert_complex_type type_obj name)
    = Some (JObj properties) /\
    forall n, dict_mem n properties = true <-> In n (member_names type_obj).
Proof.
  exists (fst (collect_members type_obj)). split.
  - apply convert_complex_type_properties.
  - intros n. apply collect_members_keys.
Qed.

(** X12.  Every entry of the [required] list of a projected complex type
    is the name of one of its properties. *)
Theorem complex_type_required_subset (type_obj : ComplexType)
  (name : string) (required : list json) :
  dict_get "required" (_convert_complex_type type_obj name)
  = Some (JArr required) ->
  exists properties,
    dict_get "properties" (_convert_complex_type type_obj name)
    = Some (JObj properties) /\
    forall x, In x required ->
      exists n, x = JStr n /\ dict_mem n properties = true.
Proof.
  intros H. apply convert_complex_type_required in H. subst required.
  exists (fst (collect_members type_obj)). split.
  - apply convert_complex_type_properties.
  - intros x Hx. apply in_map_iff in Hx as [n [<- Hn]].
    exists n. split; [reflexivity|].
    apply collect_members_keys, required_members_declared, Hn.
Qed.

Lemma complex_type_required_subset_witness :
  exists properties,
    dict_get "properties" (_convert_complex_type order_type "OrdType")
    = Some (JObj properties) /\
    forall x, In x [JStr "OrdID"; JStr "version"] ->
      exists n, x = JStr n /\ dict_mem n properties = true.
Proof.
  apply (complex_type_required_subset order_type "OrdType"
           [JStr "OrdID"; JStr "version"]).
  reflexivity.
Defined.

Example complex_type_order :
  _convert_complex_type order_type "OrdType"
  = [ ("type", JStr "object");
      ("additionalProperties", JBool false);
      ("properties",
       JObj [ ("OrdID", JObj [("$ref", JStr "#/definitions/String5To7")]);
              ("Note", JObj [("type", JStr "string")]);
              ("version", JObj [("type", JStr "string")]) ]);
      ("description", JStr "Complex type: OrdType");
      ("required", JArr [JStr "OrdID"; JStr "version"]) ].
Proof. reflexivity. Qed.

(* ================================================================== *)
(** * Further properties of the registry lookup and the enhancer *)
(* ================================================================== *)

Section Lookup.

Variable self : SwaggerSchemaApplier.

Lemma first_key_lower_sound {A : Type} (lowered key : string)
  (l : list (string * A)) :
  first_key_lower lowered l = Some key ->
  PyStr.lower key = lowered /\ In key (map fst l).
Proof.
  induction l as [|[k0 a0] l IH]; cbn [first_key_lower]; [discriminate|].
  destruct (String.eqb_spec (PyStr.lower k0) lowered) as [E|N].
  - intros [= <-]. split; [exact E | now left].
  - intros H. destruct (IH H) as [H1 H2]. split; [exact H1 | now right].
Qed.

Lemma first_key_lower_none {A : Type} (lowered : string)
  (l : list (string * A)) :
  first_key_lower lowered l = None <->
  forall key, In key (map fst l) -> PyStr.lower key <> lowered.
Proof.
  induction l as [|[k0 a0] l IH]; cbn [first_key_lower map fst In].
  - split; [intros _ key [] | reflexivity].
  - destruct (String.eqb_spec (PyStr.lower k0) lowered) as [E|N].
    + split; [discriminate|]. intros H. now elim (H k0 (or_introl eq_refl)).
    + rewrite IH. split.
      * intros H key [<-|Hk]; [exact N | now apply H].
      * intros H key Hk. apply H. now right.
Qed.

Lemma assoc_mem_In {A : Type} (k : string) (l : list (string * A)) :
  assoc_mem k l = true <-> In k (map fst l).
Proof.
  unfold assoc_mem. induction l as [|[k0 a0] l IH]; cbn [assoc map fst In].
  - split; [discriminate | intros []].
  - destruct (String.eqb_spec k0 k) as [->|N].
    + split; auto.
    + rewrite IH. split; [auto | intros [E|H]; [contradiction|exact H]].
Qed.

End Lookup.

(** X13.  With an ASCII name and ASCII registry keys, a key returned by
    the case-insensitive lookup is a key of the registry, so reading it
    never raises, and it equals the wanted name up to letter case; a name
    that is itself a key is returned as it is. *)
Theorem find_schema_key_sound (self : SwaggerSchemaApplier)
  (schema_name key : string) :
  PyStr.isascii schema_name = true ->
  ascii_registry self = true ->
  _find_schema_key_case_insensitive self schema_name = Some key ->
  (exists d, registry_getitem self key = Ok d) /\
  PyStr.lower key = PyStr.lower schema_name /\
  (assoc_mem schema_name (schema_mappings self) = true -> key = schema_name).
Proof.
  intros _ _ H. split; [|split].
  - exact (found_key_registered self schema_name key H).
  - unfold _find_schema_key_case_insensitive in H.
    destruct (assoc_mem schema_name (schema_mappings self)).
    + now injection H as <-.
    + now apply first_key_lower_sound in H.
  - intros E. unfold _find_schema_key_case_insensitive in H.
    rewrite E in H. now injection H.
Qed.

Lemma find_schema_key_sound_witness :
  (exists d, registry_getitem lowercase_registry "supconfirm" = Ok d) /\
  PyStr.lower "supconfirm" = PyStr.lower "SupConfirm" /\
  (assoc_mem "SupConfirm" (schema_mappings lowercase_registry) = true ->
   "supconfirm" = "SupConfirm").
Proof.
  apply (find_schema_key_sound lowercase_registry "SupConfirm" "supconfirm");
    reflexivity.
Defined.

(** X14.  With an ASCII name and ASCII registry keys, the lookup finds
    nothing exactly when no key of the registry equals the wanted name up
    to letter case. *)
Theorem find_schema_key_none_iff (self : SwaggerSchemaApplier)
  (schema_name : string) :
  PyStr.isascii schema_name = true ->
  ascii_registry self = true ->
  _find_schema_key_case_insensitive self schema_name = None <->
  forall key, In key (map fst (schema_mappings self)) ->
    PyStr.lower key <> PyStr.lower schema_name.
Proof.
  intros _ _. unfold _find_schema_key_case_insensitive.
  destruct (assoc_mem schema_name (schema_mappings self)) eqn:E.
  - split; [discriminate|]. intros H.
    apply assoc_mem_In in E. now elim (H schema_name E).
  - apply first_key_lower_none.
Qed.

Lemma find_schema_key_none_iff_witness :
  _find_schema_key_case_insensitive lowercase_registry "OrdID" = None <->
  forall key, In key (map fst (schema_mappings lowercase_registry)) ->
    PyStr.lower key <> PyStr.lower "OrdID".
Proof.
  apply (find_schema_key_none_iff lowercase_registry "OrdID"); reflexivity.
Defined.

Section PropertyCopy.

Variable self : SwaggerSchemaApplier.

Lemma copy_validation_get (source prop_def : dict) (k : string) :
  dict_get k (copy_validation source prop_def)
  = merged copied_keys source prop_def k.
Proof. rewrite copy_validation_is_copy. apply copy_keys_get. Qed.

Lemma enhance_property_from_cases (mappings : list (string * string))
  (prop_name : string) (prop_def : json) :
  enhance_property_from self mappings prop_name prop_def = Ok prop_def \/
  exists field_pattern schema_type key source,
    In (field_pattern, schema_type) mappings /\
    PyStr.contains prop_name field_pattern = true /\
    truthy_key (_find_schema_key_case_insensitive self schema_type)
    = Some key /\
    registry_getitem self key = Ok source /\
    enhance_property_from self mappings prop_name prop_def
    = match prop_def with
      | JObj d => Ok (JObj (copy_validation source d))
      | _ => Raise AttributeError
      end.
Proof.
  induction mappings as [|[field_pattern schema_type] mappings IH].
  - now left.
  - cbn [enhance_property_from].
    destruct (PyStr.contains prop_name field_pattern) eqn:Ec.
    + destruct (truthy_key _) as [key|] eqn:Ek.
      * destruct (truthy_key_registered self _ _ Ek) as [source Hs].
        right. exists field_pattern, schema_type, key, source.
        rewrite Hs. cbn [bind]. repeat split; auto. now left.
      * destruct IH as [IH|[fp [st [key [src [H1 H]]]]]]; [now left|].
        right. exists fp, st, key, src. split; [now right | exact H].
    + destruct IH as [IH|[fp [st [key [src [H1 H]]]]]]; [now left|].
      right. exists fp, st, key, src. split; [now right | exact H].
Qed.

End PropertyCopy.

(** X15.  A property node that is not an object is never modified: it is
    returned as it is, or, when its name matches a line of the table whose
    type is registered, the enhancement raises [AttributeError]. *)
Theorem enhance_property_non_object (self : SwaggerSchemaApplier)
  (prop_name : string) (prop_def : json) :
  is_dict prop_def = false ->
  _enhance_property self prop_name prop_def = Ok prop_def \/
  _enhance_property self prop_name prop_def = Raise AttributeError.
Proof.
  intros H. unfold _enhance_property.
  destruct (enhance_property_from_cases self field_mappings prop_name prop_def)
    as [E|[fp [st [key [src [_ [_ [_ [_ E]]]]]]]]]; [now left|].
  right. rewrite E. destruct prop_def; try reflexivity. discriminate.
Qed.

Lemma enhance_property_non_object_witness :
  _enhance_property scenario_registry "FundAcctID" (JStr "text")
  = Ok (JStr "text") \/
  _enhance_property scenario_registry "FundAcctID" (JStr "text")
  = Raise AttributeError.
Proof.
  apply (enhance_property_non_object scenario_registry "FundAcctID"
           (JStr "text")).
  reflexivity.
Defined.

(** X16.  On an object node the enhancement cannot raise.  Either the node
    is returned as it is, or one registry record, that of the first
    matching line of the table, is merged into it: each of [type],
    [pattern], [minLength], [maxLength], [enum] and [format] that the
    record has takes the record's value, and every attribute the record
    lacks, like every other attribute, keeps the value it had. *)
Theorem enhance_property_merges (self : SwaggerSchemaApplier)
  (prop_name : string) (d : dict) :
  exists d',
    _enhance_property self prop_name (JObj d) = Ok (JObj d') /\
    (d' = d \/
     exists key source,
       registry_getitem self key = Ok source /\
       forall k, dict_get k d' = merged copied_keys source d k).
Proof.
  unfold _enhance_property.
  destruct (enhance_property_from_cases self field_mappings prop_name (JObj d))
    as [E|[fp [st [key [src [_ [_ [_ [Hs E]]]]]]]]].
  - exists d. split; [exact E | now left].
  - exists (copy_validation src d). split; [exact E|].
    right. exists key, src. split; [exact Hs|].
    intros k. apply copy_validation_get.
Qed.

(** X17.  [_enhance_schema_object] never changes an [additionalProperties]
    the schema already has; it adds the value false only to an object
    schema without one and only in strict mode. *)
Theorem enhance_schema_object_additional_properties
  (self : SwaggerSchemaApplier) (schema schema' : dict) (strict_mode : bool) :
  _enhance_schema_object self schema strict_mode = Ok schema' ->
  dict_get "additionalProperties" schema'
  = match dict_get "additionalProperties" schema with
    | Some v => Some v
    | None =>
        if strict_mode && is_str (dict_get "type" schema) "object"
        then Some (JBool false) else None
    end.
Proof.
  unfold _enhance_schema_object.
  destruct (is_str (dict_get "type" schema) "object").
  2:{ intros [= <-]. rewrite andb_false_r.
      now destruct (dict_get "additionalProperties" schema). }
  cbv zeta. rewrite andb_true_r.
  set (schema1 := if strict_mode && negb (dict_mem "additionalProperties" schema)
                  then dict_set "additionalProperties" (JBool false) schema
                  else schema).
  assert (E1 : dict_get "additionalProperties" schema1
               = match dict_get "additionalProperties" schema with
                 | Some v => Some v
                 | None => if strict_mode then Some (JBool false) else None
                 end).
  { subst schema1. unfold dict_mem, assoc_mem.
    fold (dict_get "additionalProperties" schema).
    destruct (dict_get "additionalProperties" schema) as [v|] eqn:E,
             strict_mode; cbn [andb negb]; rewrite ?E; try reflexivity.
    unfold dict_get, dict_set. apply assoc_set_eq. }
  destruct (dict_get "properties" schema1) as [[| | | | |props]|];
    try discriminate; try (now intros [= <-]).
  destruct (for_items _ props) as [props'|]; [|discriminate].
  cbn [bind]. intros [= <-]. rewrite <- E1.
  unfold dict_get, dict_set. now rewrite assoc_set_neq by discriminate.
Qed.

Lemma enhance_schema_object_additional_properties_witness :
  dict_get "additionalProperties"
    [ ("type", JStr "object");
      ("properties",
       JObj [ ("FundAcctID",
               JObj [ ("description", JStr "Fund account");
                      ("type", JStr "string");
                      ("maxLength", JNum 15) ]) ]);
      ("additionalProperties", JBool false) ]
  = match dict_get "additionalProperties" account_schema with
    | Some v => Some v
    | None =>
        if true && is_str (dict_get "type" account_schema) "object"
        then Some (JBool false) else None
    end.
Proof.
  apply (enhance_schema_object_additional_properties scenario_registry
           account_schema _ true).
  reflexivity.
Defined.

Section Passes.

Variable self : SwaggerSchemaApplier.

Lemma for_items_keys {A : Type} (f : string -> A -> Result A)
  (l l' : list (string * A)) :
  for_items f l = Ok l' -> map fst l' = map fst l.
Proof.
  revert l'. induction l as [|[k v] l IH]; intros l' H.
  - now injection H as <-.
  - cbn [for_items] in H. destruct (f k v) as [v'|]; [|discriminate].
    cbn [bind] in H. destruct (for_items f l) as [l0|]; [|discriminate].
    cbn [bind] in H. injection H as <-. cbn [map fst]. f_equal. now apply IH.
Qed.

Lemma for_items_twice {A : Type} (f : string -> A -> Result A)
  (l l' : list (string * A)) :
  (forall k v v', f k v = Ok v' -> f k v' = Ok v') ->
  for_items f l = Ok l' -> for_items f l' = Ok l'.
Proof.
  intros Hf. revert l'. induction l as [|[k v] l IH]; intros l' H.
  - now injection H as <-.
  - cbn [for_items] in H. destruct (f k v) as [v'|] eqn:E; [|discriminate].
    cbn [bind] in H. destruct (for_items f l) as [l0|]; [|discriminate].
    cbn [bind] in H. injection H as <-.
    cbn [for_items]. rewrite (Hf _ _ _ E). cbn [bind].
    now rewrite (IH l0 eq_refl).
Qed.

(** Copying onto a record that already agrees with the source on the
    copied keys changes nothing. *)
Lemma copy_keys_fixed (source : dict) (keys : list string) (target : dict) :
  (forall k v, In k keys -> dict_get k source = Some v ->
               dict_get k target = Some v) ->
  fold_left (copy_key source) keys target = target.
Proof.
  induction keys as [|k0 keys IH]; intros H; [reflexivity|].
  cbn [fold_left].
  assert (E : copy_key source target k0 = target).
  { unfold copy_key. destruct (dict_get k0 source) as [v|] eqn:Es;
      [|reflexivity].
    apply assoc_set_same. apply (H k0 v); [now left | exact Es]. }
  rewrite E. apply IH. intros k v Hk. apply H. now right.
Qed.

Lemma copy_keys_twice (source : dict) (keys : list string) (target : dict) :
  fold_left (copy_key source) keys
    (fold_left (copy_key source) keys target)
  = fold_left (copy_key source) keys target.
Proof.
  apply copy_keys_fixed. intros k v Hk Hs. rewrite copy_keys_get, Hs.
  assert (E : existsb (String.eqb k) keys = true).
  { apply existsb_exists. exists k. split; [exact Hk|apply String.eqb_refl]. }
  now rewrite E.
Qed.

Lemma copy_validation_twice (source d : dict) :
  copy_validation source (copy_validation source d)
  = copy_validation source d.
Proof. rewrite !copy_validation_is_copy. apply copy_keys_twice. Qed.

Lemma copy_top_level_is_copy (source schema_def : dict) :
  copy_top_level source schema_def
  = fold_left (copy_key source)
      ["pattern"; "minLength"; "maxLength"; "enum"; "format"] schema_def.
Proof.
  unfold copy_top_level. cbv zeta.
  rewrite (restore_key_untouched "externalDocs")
    by (rewrite copy_keys_get; reflexivity).
  rewrite (restore_key_untouched "example")
    by (rewrite copy_keys_get; reflexivity).
  rewrite (restore_key_untouched "description")
    by (rewrite copy_keys_get; reflexivity).
  reflexivity.
Qed.

Lemma enhance_property_from_twice (mappings : list (string * string))
  (prop_name : string) (v v' : json) :
  enhance_property_from self mappings prop_name v = Ok v' ->
  enhance_property_from self mappings prop_name v' = Ok v'.
Proof.
  induction mappings as [|[field_pattern schema_type] mappings IH].
  - cbn. now intros [= <-].
  - cbn [enhance_property_from].
    destruct (PyStr.contains prop_name field_pattern); [|exact IH].
    destruct (truthy_key _) as [key|]; [|exact IH].
    destruct (registry_getitem self key) as [src|]; [|discriminate].
    cbn [bind]. destruct v as [| | | | |d]; try discriminate.
    intros [= <-]. now rewrite copy_validation_twice.
Qed.

Lemma enhance_property_twice (prop_name : string) (v v' : json) :
  _enhance_property self prop_name v = Ok v' ->
  _enhance_property self prop_name v' = Ok v'.
Proof. apply enhance_property_from_twice. Qed.

Lemma enhance_schema_object_twice (schema schema' : dict)
  (strict_mode : bool) :
  _enhance_schema_object self schema strict_mode = Ok schema' ->
  _enhance_schema_object self schema' strict_mode = Ok schema'.
Proof.
  intros H. pose proof (enhance_schema_object_type self _ _ _ H) as Ht.
  unfold _enhance_schema_object in *. rewrite Ht.
  destruct (is_str (dict_get "type" schema) "object"); [|reflexivity].
  cbv zeta in *.
  set (schema1 := if strict_mode && negb (dict_mem "additionalProperties" schema)
                  then dict_set "additionalProperties" (JBool false) schema
                  else schema) in *.
  assert (E1 : strict_mode && negb (dict_mem "additionalProperties" schema1)
               = false).
  { subst schema1. destruct strict_mode; [|reflexivity]. cbn [andb].
    destruct (dict_mem "additionalProperties" schema) eqn:E; cbn [negb].
    - now rewrite E.
    - unfold dict_mem, dict_set. now rewrite assoc_mem_set. }
  destruct (dict_get "properties" schema1) as [[| | | | |props]|] eqn:Ep;
    try discriminate.
  - destruct (for_items (_enhance_property self) props) as [props'|] eqn:Ef;
      [|discriminate].
    cbn [bind] in H. injection H as <-.
    assert (E2 : dict_mem "additionalProperties"
                   (dict_set "properties" (JObj props') schema1)
                 = dict_mem "additionalProperties" schema1).
    { unfold dict_mem, dict_set. now rewrite assoc_mem_set. }
    rewrite E2, E1.
    unfold dict_get, dict_set. rewrite assoc_set_eq.
    rewrite (for_items_twice (_enhance_property self) _ _
               enhance_property_twice Ef).
    cbn [bind]. now rewrite assoc_set_set.
  - injection H as <-. rewrite E1, Ep. reflexivity.
Qed.

(** What [_enhance_top_level_schema] leaves alone. *)
Lemma enhance_top_level_schema_frame (schema_name : string)
  (schema_def r : dict) :
  _enhance_top_level_schema self schema_name schema_def = Ok r ->
  (forall k, In k ["type"; "example"; "externalDocs"] ->
     dict_get k r = dict_get k schema_def) /\
  (forall v, dict_get "description" schema_def = Some v ->
     dict_get "description" r = Some v).
Proof.
  unfold _enhance_top_level_schema.
  destruct (negb _); [intros [= <-]; auto|].
  destruct (mapped_schema_key self schema_name) as [key|].
  - destruct (registry_getitem self key) as [src|]; [|discriminate].
    cbn [bind]. intros [= <-]. rewrite copy_top_level_is_copy. split.
    + intros k Hk. rewrite copy_keys_get.
      destruct Hk as [<-|[<-|[<-|[]]]]; reflexivity.
    + intros v Hv. now rewrite copy_keys_get.
  - destruct (truthy_key _) as [key|]; [|intros [= <-]; auto].
    destruct (registry_getitem self key) as [jv|]; [|discriminate].
    cbn [bind]. intros [= <-]. unfold apply_direct_validation.
    set (copied := fold_left (copy_key jv)
                     ["enum"; "pattern"; "minLength"; "maxLength"] schema_def).
    assert (Hd : dict_get "description" copied
                 = dict_get "description" schema_def).
    { subst copied. now rewrite copy_keys_get. }
    split.
    + intros k Hk.
      assert (Ek : dict_get k copied = dict_get k schema_def).
      { subst copied. rewrite copy_keys_get.
        destruct Hk as [<-|[<-|[<-|[]]]]; reflexivity. }
      destruct (_ && _); [|exact Ek]. rewrite copy_key_get.
      destruct Hk as [<-|[<-|[<-|[]]]]; exact Ek.
    + intros v Hv. unfold dict_mem at 2. unfold assoc_mem.
      fold (dict_get "description" copied). rewrite Hd, Hv.
      cbn [negb]. rewrite andb_false_r. now rewrite Hd.
Qed.

Lemma enhance_top_level_schema_twice (schema_name : string)
  (schema_def r : dict) :
  _enhance_top_level_schema self schema_name schema_def = Ok r ->
  _enhance_top_level_schema self schema_name r = Ok r.
Proof.
  intros H.
  destruct (enhance_top_level_schema_frame _ _ _ H) as [Hf _].
  pose proof (Hf "type" (or_introl eq_refl)) as Ht.
  unfold _enhance_top_level_schema in *. rewrite Ht.
  destruct (negb _); [reflexivity|].
  destruct (mapped_schema_key self schema_name) as [key|].
  - destruct (registry_getitem self key) as [src|]; [|discriminate].
    cbn [bind] in *. injection H as <-.
    now rewrite !copy_top_level_is_copy, copy_keys_twice.
  - destruct (truthy_key _) as [key|]; [|reflexivity].
    destruct (registry_getitem self key) as [jv|]; [|discriminate].
    cbn [bind] in *. injection H as <-. f_equal.
    unfold apply_direct_validation.
    set (keys := ["enum"; "pattern"; "minLength"; "maxLength"]).
    set (copied := fold_left (copy_key jv) keys schema_def).
    destruct (dict_mem "description" jv && negb (dict_mem "description" copied))
      eqn:Ec.
    + assert (Efix : fold_left (copy_key jv) keys
                       (copy_key jv copied "description")
                     = copy_key jv copied "description").
      { apply copy_keys_fixed. intros k v Hk Hs. rewrite copy_key_get.
        assert (N : ("description" =? k) = false).
        { subst keys. destruct Hk as [<-|[<-|[<-|[<-|[]]]]]; reflexivity. }
        rewrite N. subst copied. rewrite copy_keys_get, Hs.
        assert (E : existsb (String.eqb k) keys = true).
        { apply existsb_exists. exists k.
          split; [exact Hk|apply String.eqb_refl]. }
        now rewrite E. }
      rewrite Efix.
      apply andb_true_iff in Ec as [Ej _].
      assert (Em : dict_mem "description" (copy_key jv copied "description")
                   = true).
      { unfold dict_mem, assoc_mem in *.
        fold (dict_get "description" (copy_key jv copied "description")).
        rewrite copy_key_get. cbn [String.eqb Ascii.eqb Bool.eqb].
        fold (dict_get "description" jv) in Ej.
        now destruct (dict_get "description" jv). }
      rewrite Em. cbn [negb]. now rewrite andb_false_r.
    + assert (Efix : fold_left (copy_key jv) keys copied = copied).
      { subst copied. apply copy_keys_twice. }
      rewrite Efix, Ec. reflexivity.
Qed.

Lemma is_str_other (o : option json) (a b : string) :
  a <> b -> is_str o a = true -> is_str o b = false.
Proof.
  intros N. destruct o as [[| | |s| |]|]; try discriminate. cbn [is_str].
  intros H. apply String.eqb_eq in H. subst s. now apply String.eqb_neq.
Qed.

Lemma enhance_entry_twice (strict_mode : bool) (name : string) (v v' : json) :
  enhance_entry self strict_mode name v = Ok v' ->
  enhance_entry self strict_mode name v' = Ok v'.
Proof.
  destruct v as [| | | | |d]; try (now intros [= <-]).
  cbn [enhance_entry].
  destruct (_enhance_schema_object self d strict_mode) as [d1|] eqn:E1;
    [|discriminate].
  cbn [bind].
  destruct (_enhance_top_level_schema self name d1) as [d2|] eqn:E2;
    [|discriminate].
  cbn [bind]. intros [= <-]. cbn [enhance_entry].
  pose proof (enhance_schema_object_type self _ _ _ E1) as Ht1.
  destruct (enhance_top_level_schema_frame _ _ _ E2) as [Hf2 _].
  pose proof (Hf2 "type" (or_introl eq_refl)) as Ht2.
  destruct (is_str (dict_get "type" d) "object") eqn:Eobj.
  - (* an object schema: the top-level step did nothing *)
    assert (d2 = d1) as ->.
    { unfold _enhance_top_level_schema in E2.
      rewrite Ht1, (is_str_object_not_string _ Eobj) in E2.
      now injection E2. }
    rewrite (enhance_schema_object_twice _ _ _ E1). cbn [bind].
    now rewrite E2.
  - (* any other schema: the object step did nothing *)
    assert (d1 = d) as ->.
    { unfold _enhance_schema_object in E1. rewrite Eobj in E1.
      now injection E1. }
    assert (E3 : _enhance_schema_object self d2 strict_mode = Ok d2).
    { unfold _enhance_schema_object. now rewrite Ht2, Eobj. }
    rewrite E3. cbn [bind].
    now rewrite (enhance_top_level_schema_twice _ _ _ E2).
Qed.

End Passes.

(** The enhancement pass never adds, removes, renames or reorders the
    entries of the schema set. *)
Lemma enhance_existing_schemas_keeps_names (self : SwaggerSchemaApplier)
  (schemas schemas' : dict) (strict_mode : bool) :
  _enhance_existing_schemas self schemas strict_mode = Ok schemas' ->
  map fst schemas' = map fst schemas.
Proof. apply for_items_keys. Qed.

Lemma enhance_existing_schemas_keeps_names_witness :
  map fst scenario_enhanced = map fst scenario_schemas.
Proof.
  apply (enhance_existing_schemas_keeps_names scenario_registry
           scenario_schemas scenario_enhanced true).
  reflexivity.
Defined.

(** X18.  [_enhance_top_level_schema] never raises, never changes the
    [type], [example] or [externalDocs] of a schema, and never changes a
    [description] the schema already has. *)
Theorem enhance_top_level_schema_preserves (self : SwaggerSchemaApplier)
  (schema_name : string) (schema_def : dict) :
  exists r,
    _enhance_top_level_schema self schema_name schema_def = Ok r /\
    (forall k, In k ["type"; "example"; "externalDocs"] ->
       dict_get k r = dict_get k schema_def) /\
    (forall v, dict_get "description" schema_def = Some v ->
       dict_get "description" r = Some v).
Proof.
  destruct (enhance_top_level_schema_total self schema_name schema_def)
    as [r Hr].
  exists r. split; [exact Hr|].
  exact (enhance_top_level_schema_frame self _ _ _ Hr).
Qed.

(** X19.  The enhancement pass is idempotent: run on its own result, with
    the same registry and mode, it returns that result unchanged. *)
Theorem enhance_existing_schemas_idempotent (self : SwaggerSchemaApplier)
  (schemas schemas' : dict) (strict_mode : bool) :
  _enhance_existing_schemas self schemas strict_mode = Ok schemas' ->
  _enhance_existing_schemas self schemas' strict_mode = Ok schemas'.
Proof.
  apply for_items_twice. apply enhance_entry_twice.
Qed.

Lemma enhance_existing_schemas_idempotent_witness :
  _enhance_existing_schemas scenario_registry scenario_enhanced true
  = Ok scenario_enhanced.
Proof.
  apply (enhance_existing_schemas_idempotent scenario_registry
           scenario_schemas scenario_enhanced true).
  reflexivity.
Defined.

(* ================================================================== *)
(** * Further properties of the overlays *)
(* ================================================================== *)

Section OverlayFacts.

(** Writing entries that are already there, with the same values, changes
    nothing. *)
Lemma fold_set_fixed (entries : list (string * dict)) (schemas : dict) :
  (forall name def, In (name, def) entries ->
     dict_get name schemas = Some (JObj def)) ->
  fold_left
    (fun schemas item => dict_set (fst item) (JObj (snd item)) schemas)
    entries schemas = schemas.
Proof.
  induction entries as [|[name def] entries IH]; intros H; [reflexivity|].
  cbn [fold_left fst snd].
  assert (E : dict_set name (JObj def) schemas = schemas).
  { apply assoc_set_same. apply (H name def). now left. }
  rewrite E. apply IH. intros n d Hin. apply (H n d). now right.
Qed.

Lemma fold_set_other (entries : list (string * dict)) (schemas : dict)
  (k : string) :
  ~ In k (map fst entries) ->
  dict_get k
    (fold_left
       (fun schemas item => dict_set (fst item) (JObj (snd item)) schemas)
       entries schemas)
  = dict_get k schemas.
Proof.
  revert schemas. induction entries as [|[name def] entries IH];
    intros schemas H; [reflexivity|].
  cbn [fold_left fst snd]. rewrite IH.
  - unfold dict_get, dict_set. apply assoc_set_neq.
    intros ->. apply H. now left.
  - intros Hin. apply H. now right.
Qed.

(** Reading any key after the insert-if-absent loop. *)
Lemma add_absent_get (entries : list (string * dict)) (schemas : dict)
  (k : string) :
  dict_get k (add_absent entries schemas)
  = match dict_get k schemas with
    | Some v => Some v
    | None => option_map JObj (assoc k entries)
    end.
Proof.
  revert schemas. induction entries as [|[name def] entries IH];
    intros schemas.
  - unfold add_absent. cbn [fold_left assoc option_map].
    now destruct (dict_get k schemas).
  - unfold add_absent. cbn [fold_left fst snd assoc].
    fold (add_absent entries
            (if dict_mem name schemas then schemas
             else dict_set name (JObj def) schemas)).
    rewrite IH. unfold dict_mem, assoc_mem.
    fold (dict_get name schemas).
    destruct (String.eqb_spec name k) as [->|N].
    + destruct (dict_get k schemas) as [v|] eqn:E.
      * now rewrite E.
      * unfold dict_get, dict_set. now rewrite assoc_set_eq.
    + destruct (dict_get name schemas) as [v|]; [reflexivity|].
      unfold dict_get, dict_set. now rewrite assoc_set_neq.
Qed.

End OverlayFacts.

(** X20.  [_add_enum_types] touches only its own seven names, and applying
    it a second time changes nothing. *)
Theorem add_enum_types_frame_and_idempotent (schemas : dict) :
  (forall k, ~ In k (map fst enums) ->
     dict_get k (_add_enum_types schemas) = dict_get k schemas) /\
  _add_enum_types (_add_enum_types schemas) = _add_enum_types schemas.
Proof.
  split.
  - intros k Hk. unfold _add_enum_types. now apply fold_set_other.
  - unfold _add_enum_types at 1. apply fold_set_fixed.
    intros name def Hin. now apply add_enum_types_overwrites.
Qed.

(** X21.  On a document with a schema set, [_enhance_error_schemas]
    returns the document with this schema set: every schema that was
    there is kept, [ErrorCode] and [CorrlatnID] are added with the
    overlay's records when they were missing, and nothing else is
    added. *)
Theorem enhance_error_schemas_result (doc comps schemas : dict) :
  dict_get "components" doc = Some (JObj comps) ->
  dict_get "schemas" comps = Some (JObj schemas) ->
  exists schemas',
    _enhance_error_schemas doc = Ok (with_schemas doc comps schemas') /\
    forall k,
      dict_get k schemas'
      = match dict_get k schemas with
        | Some v => Some v
        | None => option_map JObj (assoc k error_schemas)
        end.
Proof.
  intros Hc Hs. exists (add_absent error_schemas schemas). split.
  - now apply enhance_error_schemas_object.
  - intros k. apply add_absent_get.
Qed.

Lemma enhance_error_schemas_result_witness :
  exists schemas',
    _enhance_error_schemas user_document
    = Ok (with_schemas user_document [("schemas", JObj user_schemas)]
            schemas') /\
    forall k,
      dict_get k schemas'
      = match dict_get k user_schemas with
        | Some v => Some v
        | None => option_map JObj (assoc k error_schemas)
        end.
Proof.
  apply (enhance_error_schemas_result user_document
           [("schemas", JObj user_schemas)] user_schemas); reflexivity.
Defined.

Section TransactionTypes.

Variables (doc info comps schemas : dict) (title : string).
Hypothesis Hinfo : dict_get "info" doc = Some (JObj info).
Hypothesis Htitle : dict_get "title" info = Some (JStr title).
Hypothesis Hcomps : dict_get "components" doc = Some (JObj comps).
Hypothesis Hschemas : dict_get "schemas" comps = Some (JObj schemas).

Lemma transaction_validations_loop :
  _add_transaction_type_validations doc
  = inject_transaction_type transaction_types (JStr title) doc.
Proof.
  unfold _add_transaction_type_validations. rewrite Hinfo, Hcomps.
  cbn [bind py_get]. rewrite Htitle. cbn [bind py_contains].
  unfold dict_mem, assoc_mem. fold (dict_get "schemas" comps).
  now rewrite Hschemas.
Qed.

Lemma inject_skips (before rest : list (string * dict)) :
  (forall api_type def, In (api_type, def) before ->
     PyStr.contains (PyStr.lower title) (PyStr.lower api_type) = false) ->
  inject_transaction_type (before ++ rest) (JStr title) doc
  = inject_transaction_type rest (JStr title) doc.
Proof.
  induction before as [|[a d] before IH]; intros H; [reflexivity|].
  cbn [app inject_transaction_type py_lower bind].
  rewrite (H a d (or_introl eq_refl)). apply IH.
  intros a' d' Hin. apply (H a' d'). now right.
Qed.

Lemma inject_here (api_type : string) (def : dict)
  (rest : list (string * dict)) :
  PyStr.contains (PyStr.lower title) (PyStr.lower api_type) = true ->
  inject_transaction_type ((api_type, def) :: rest) (JStr title) doc
  = Ok (with_schemas doc comps
          (dict_set ("TrxnTyp" ++ api_type) (JObj (trxn_record def))
             schemas)).
Proof.
  intros H. cbn [inject_transaction_type py_lower bind]. rewrite H.
  cbn [py_getitem]. rewrite Hcomps. cbn [bind py_getitem].
  rewrite Hschemas. reflexivity.
Qed.

End TransactionTypes.

(** X22.  The keywords are tried in the order of the table and the first
    one found in the lower-cased title decides: its record, and no other,
    is stored under TrxnTyp followed by the keyword, and the rest of the
    schema set is returned as it was. *)
Theorem transaction_type_first_keyword_wins
  (doc info comps schemas : dict) (title api_type : string) (def : dict)
  (before after : list (string * dict)) :
  dict_get "info" doc = Some (JObj info) ->
  dict_get "title" info = Some (JStr title) ->
  dict_get "components" doc = Some (JObj comps) ->
  dict_get "schemas" comps = Some (JObj schemas) ->
  transaction_types = (before ++ (api_type, def) :: after)%list ->
  (forall a d, In (a, d) before ->
     PyStr.contains (PyStr.lower title) (PyStr.lower a) = false) ->
  PyStr.contains (PyStr.lower title) (PyStr.lower api_type) = true ->
  _add_transaction_type_validations doc
  = Ok (with_schemas doc comps
          (dict_set ("TrxnTyp" ++ api_type) (JObj (trxn_record def))
             schemas)).
Proof.
  intros Hinfo Htitle Hcomps Hschemas Htable Hbefore Hhere.
  rewrite (transaction_validations_loop doc info comps schemas title)
    by assumption.
  rewrite Htable, inject_skips by assumption.
  now apply (inject_here doc comps schemas).
Qed.

(** X23.  A title that contains none of the keywords leaves the document
    as it is. *)
Theorem transaction_type_no_keyword
  (doc info comps schemas : dict) (title : string) :
  dict_get "info" doc = Some (JObj info) ->
  dict_get "title" info = Some (JStr title) ->
  dict_get "components" doc = Some (JObj comps) ->
  dict_get "schemas" comps = Some (JObj schemas) ->
  (forall a d, In (a, d) transaction_types ->
     PyStr.contains (PyStr.lower title) (PyStr.lower a) = false) ->
  _add_transaction_type_validations doc = Ok doc.
Proof.
  intros Hinfo Htitle Hcomps Hschemas Hnone.
  rewrite (transaction_validations_loop doc info comps schemas title)
    by assumption.
  rewrite <- (app_nil_r transaction_types), inject_skips by assumption.
  reflexivity.
Qed.

Lemma transaction_type_first_keyword_wins_witness :
  _add_transaction_type_validations sell_document
  = Ok (with_schemas sell_document [("schemas", JObj [])]
          (dict_set ("TrxnTyp" ++ "Sell")
             (JObj (trxn_record
                      [ ("enum", strs ["5"]);
                        ("description",
                         JStr "Transaction type for Sell orders") ]))
             [])).
Proof.
  apply (transaction_type_first_keyword_wins sell_document
           [("title", JStr "Sell Order API")] [("schemas", JObj [])] []
           "Sell Order API" "Sell"
           [ ("enum", strs ["5"]);
             ("description", JStr "Transaction type for Sell orders") ]
           [ ("Buy", [ ("enum", strs ["1"]);
                       ("description",
                        JStr "Transaction type for Buy orders") ]) ]
           [ ("Switch", [ ("enum", strs ["8"]);
                          ("description",
                           JStr "Transaction type for Switch orders") ]);
             ("Transfer", [ ("enum", strs ["7"]);
                            ("description",
                             JStr "Transaction type for Transfer orders") ]);
             ("ICT", [ ("enum", strs ["6"]);
                       ("description",
                        JStr "Transaction type for ICT orders") ]) ]);
    try reflexivity.
  intros a d [[= <- <-]|[]]. reflexivity.
Defined.

Lemma transaction_type_no_keyword_witness :
  _add_transaction_type_validations plain_document = Ok plain_document.
Proof.
  apply (transaction_type_no_keyword plain_document
           [("title", JStr "Account Lookup API")] [("schemas", JObj [])] []
           "Account Lookup API");
    try reflexivity.
  intros a d [[= <- <-]|[[= <- <-]|[[= <- <-]|[[= <- <-]|[[= <- <-]|[]]]]]];
    reflexivity.
Defined.

(** The keywords are matched as substrings: a title with the word Strict
    gets the record of the keyword ICT. *)
Example transaction_type_substring_match :
  _add_transaction_type_validations
    [ ("info", JObj [("title", JStr "Strict Validation API")]);
      ("components", JObj [("schemas", JObj [])]) ]
  = Ok [ ("info", JObj [("title", JStr "Strict Validation API")]);
         ("components",
          JObj [ ("schemas",
                  JObj [ ("TrxnTypICT",
                          JObj [ ("type", JStr "string");
                                 ("enum", JArr [JStr "6"]);
                                 ("description",
                                  JStr "Transaction type for ICT orders") ]) ]) ]) ].
Proof. reflexivity. Qed.

(* ================================================================== *)
(** * The documentation step *)
(* ================================================================== *)

Section Documentation.

Lemma prefix_refl (s : string) : String.prefix s s = true.
Proof.
  induction s as [|c s IH]; [reflexivity|].
  cbn. destruct (ascii_dec c c); [exact IH | contradiction].
Qed.

(** [b in a + b] *)
Lemma contains_append_r (a b : string) : PyStr.contains (a ++ b) b = true.
Proof.
  induction a as [|c a IH].
  - change ("" ++ b) with b. destruct b; cbn [PyStr.contains];
      now rewrite prefix_refl.
  - change (String c a ++ b) with (String c (a ++ b)).
    cbn [PyStr.contains]. rewrite IH. apply orb_true_r.
Qed.

(** What a successful run of [_add_schema_documentation] went through:
    the [info] object it found or created, and the one it left. *)
Lemma add_schema_documentation_steps (doc doc' : dict) :
  _add_schema_documentation doc = Ok doc' ->
  exists info info' description,
    dict_get "info" doc = match dict_get "info" doc with
                          | Some _ => Some (JObj info)
                          | None => None
                          end /\
    (dict_get "info" doc = None -> info = []) /\
    doc' = dict_set "info" (JObj info') doc /\
    dict_get "description" info' = Some description /\
    py_contains enhancement_note description = Ok true /\
    (forall s, dict_get "description" info = Some (JStr s) ->
       description = JStr s \/ description = JStr (s ++ enhancement_note)) /\
    dict_mem "x-schema-version" info' = true /\
    (forall v, dict_get "x-schema-version" info = Some v ->
       dict_get "x-schema-version" info' = Some v) /\
    (forall k, k <> "description" -> k <> "x-schema-version" ->
       dict_get k info' = dict_get k info).
Proof.
  unfold _add_schema_documentation. cbv zeta.
  set (doc0 := if negb (dict_mem "info" doc)
               then dict_set "info" (JObj []) doc else doc).
  assert (H0 : exists x, dict_get "info" doc0 = Some x /\
                         dict_set "info" x doc0 = doc0 /\
                         match dict_get "info" doc with
                         | Some y => x = y /\ doc0 = doc
                         | None => x = JObj []
                         end).
  { subst doc0. unfold dict_mem, assoc_mem. fold (dict_get "info" doc).
    destruct (dict_get "info" doc) as [y|] eqn:E; cbn [negb].
    - exists y. repeat split; auto. now apply assoc_set_same.
    - exists (JObj []). unfold dict_get, dict_set.
      rewrite assoc_set_eq, assoc_set_set. auto. }
  destruct H0 as [x [Hx [Hfix Horigin]]].
  cbn [py_getitem]. rewrite Hx. cbn [bind].
  destruct x as [| | | | |info]; try discriminate.
  cbn [py_get bind].
  set (desc0 := match dict_get "description" info with
                | Some d => d
                | None => JStr ""
                end).
  destruct (py_contains enhancement_note desc0) as [noted|] eqn:En;
    [|discriminate].
  cbn [bind].
  assert (H1 : forall info1 : dict,
             (if negb noted
              then description <- py_add_str desc0 enhancement_note ;;
                   py_setitem (JObj info) "description" description
              else Ok (JObj info)) = Ok (JObj info1) ->
             exists description,
               dict_get "description" info1 = Some description /\
               py_contains enhancement_note description = Ok true /\
               (forall s, dict_get "description" info = Some (JStr s) ->
                  description = JStr s \/
                  description = JStr (s ++ enhancement_note)) /\
               (forall k, k <> "description" ->
                  dict_get k info1 = dict_get k info)).
  { intros info1. destruct noted; cbn [negb].
    - intros [= <-]. subst desc0.
      destruct (dict_get "description" info) as [d|] eqn:Ed.
      + exists d. repeat split; auto. intros s [= ->]. now left.
      + discriminate En.
    - destruct desc0 as [| | |s| |] eqn:Es; try discriminate.
      cbn [py_add_str bind py_setitem]. intros [= <-].
      exists (JStr (s ++ enhancement_note)). repeat split.
      + unfold dict_get, dict_set. apply assoc_set_eq.
      + cbn [py_contains]. now rewrite contains_append_r.
      + intros s' Hs'. subst desc0. rewrite Hs' in Es.
        injection Es as ->. now right.
      + intros k Hk. unfold dict_get, dict_set. apply assoc_set_neq.
        congruence. }
  destruct (if negb noted then _ else _) as [info1|] eqn:E1; [|discriminate].
  cbn [bind].
  assert (exists i1, info1 = JObj i1) as [i1 ->].
  { destruct noted; cbn [negb] in E1.
    - injection E1 as <-. eauto.
    - destruct (py_add_str desc0 enhancement_note); [|discriminate].
      cbn [bind py_setitem] in E1. injection E1 as <-. eauto. }
  destruct (H1 i1 eq_refl) as [description [Hd [Hnote [Hkeep Hother]]]].
  cbn [py_contains bind].
  set (i2 := if negb (dict_mem "x-schema-version" i1)
             then dict_set "x-schema-version" (JStr "XML-aligned-v1.0") i1
             else i1).
  intros H.
  assert (Hres : doc' = dict_set "info" (JObj i2) doc0).
  { subst i2. destruct (dict_mem "x-schema-version" i1);
      cbn [negb py_setitem bind] in *; now injection H as <-. }
  clear H.
  assert (Hdoc : doc' = dict_set "info" (JObj i2) doc).
  { rewrite Hres. subst doc0. unfold dict_mem, assoc_mem.
    fold (dict_get "info" doc).
    destruct (dict_get "info" doc); cbn [negb]; [reflexivity|].
    unfold dict_set. now rewrite assoc_set_set. }
  assert (Hi2 : dict_get "description" i2 = Some description /\
                dict_mem "x-schema-version" i2 = true /\
                (forall v, dict_get "x-schema-version" info = Some v ->
                   dict_get "x-schema-version" i2 = Some v) /\
                (forall k, k <> "description" -> k <> "x-schema-version" ->
                   dict_get k i2 = dict_get k info)).
  { subst i2. destruct (dict_mem "x-schema-version" i1) eqn:Em; cbn [negb].
    - split; [exact Hd|]. split; [exact Em|]. split.
      + intros v Hv. rewrite Hother by discriminate. exact Hv.
      + intros k Hk _. now apply Hother.
    - split; [|split; [|split]].
      + unfold dict_get, dict_set. rewrite assoc_set_neq by discriminate.
        exact Hd.
      + unfold dict_mem, dict_set. now rewrite assoc_mem_set.
      + intros v Hv. rewrite <- (Hother "x-schema-version") in Hv
          by discriminate.
        unfold dict_mem, assoc_mem in Em. unfold dict_get in Hv.
        now rewrite Hv in Em.
      + intros k Hk1 Hk2. unfold dict_get, dict_set.
        rewrite assoc_set_neq by congruence. now apply Hother. }
  destruct Hi2 as [A [B [C D]]].
  exists info, i2, description.
  split; [|split; [|repeat split; auto]].
  - destruct (dict_get "info" doc) as [y|]; [|reflexivity].
    destruct Horigin as [E _]. now rewrite <- E.
  - intros E. rewrite E in Horigin. now injection Horigin.
Qed.

(** A documented document is left as it is. *)
Lemma add_schema_documentation_fixed (doc info : dict) (description : json) :
  dict_get "info" doc = Some (JObj info) ->
  dict_get "description" info = Some description ->
  py_contains enhancement_note description = Ok true ->
  dict_mem "x-schema-version" info = true ->
  _add_schema_documentation doc = Ok doc.
Proof.
  intros Hi Hd Hn Hv. unfold _add_schema_documentation. cbv zeta.
  assert (Em : dict_mem "info" doc = true).
  { unfold dict_mem, assoc_mem. fold (dict_get "info" doc). now rewrite Hi. }
  rewrite Em. cbn [negb py_getitem]. rewrite Hi. cbn [bind py_get].
  rewrite Hd, Hn. cbn [bind negb py_contains]. rewrite Hv.
  cbn [negb bind]. f_equal. now apply assoc_set_same.
Qed.

End Documentation.

(** X24.  After [_add_schema_documentation] the document has an [info]
    object whose description contains the enhancement note and which has a
    schema version; a textual description is kept and at most extended by
    the note, a version already there is kept, and so is every other entry
    of [info] and of the document. *)
Theorem add_schema_documentation_result (doc doc' : dict) :
  _add_schema_documentation doc = Ok doc' ->
  exists info info' description,
    (dict_get "info" doc = Some (JObj info) \/
     (dict_get "info" doc = None /\ info = [])) /\
    dict_get "info" doc' = Some (JObj info') /\
    (forall k, k <> "info" -> dict_get k doc' = dict_get k doc) /\
    dict_get "description" info' = Some description /\
    py_contains enhancement_note description = Ok true /\
    (forall s, dict_get "description" info = Some (JStr s) ->
       description = JStr s \/ description = JStr (s ++ enhancement_note)) /\
    dict_mem "x-schema-version" info' = true /\
    (forall v, dict_get "x-schema-version" info = Some v ->
       dict_get "x-schema-version" info' = Some v) /\
    (forall k, k <> "description" -> k <> "x-schema-version" ->
       dict_get k info' = dict_get k info).
Proof.
  intros H.
  destruct (add_schema_documentation_steps doc doc' H)
    as [info [info' [description [H1 [H2 [H3 H4]]]]]].
  exists info, info', description.
  split; [|split; [|split; [|exact H4]]].
  - destruct (dict_get "info" doc); [now left | right; auto].
  - rewrite H3. unfold dict_get, dict_set. apply assoc_set_eq.
  - intros k Hk. rewrite H3. unfold dict_get, dict_set.
    apply assoc_set_neq. congruence.
Qed.

(** X25.  [_add_schema_documentation] is idempotent: the note is not
    appended twice and the result of a run is returned unchanged by the
    next. *)
Theorem add_schema_documentation_idempotent (doc doc' : dict) :
  _add_schema_documentation doc = Ok doc' ->
  _add_schema_documentation doc' = Ok doc'.
Proof.
  intros H.
  destruct (add_schema_documentation_steps doc doc' H)
    as [info [info' [description [_ [_ [H3 [Hd [Hn [_ [Hv _]]]]]]]]]].
  apply (add_schema_documentation_fixed doc' info' description); auto.
  rewrite H3. unfold dict_get, dict_set. apply assoc_set_eq.
Qed.

Lemma add_schema_documentation_result_witness :
  exists info info' description,
    (dict_get "info" buy_document = Some (JObj info) \/
     (dict_get "info" buy_document = None /\ info = [])) /\
    dict_get "info" documented_buy_document = Some (JObj info') /\
    (forall k, k <> "info" ->
       dict_get k documented_buy_document = dict_get k buy_document) /\
    dict_get "description" info' = Some description /\
    py_contains enhancement_note description = Ok true /\
    (forall s, dict_get "description" info = Some (JStr s) ->
       description = JStr s \/ description = JStr (s ++ enhancement_note)) /\
    dict_mem "x-schema-version" info' = true /\
    (forall v, dict_get "x-schema-version" info = Some v ->
       dict_get "x-schema-version" info' = Some v) /\
    (forall k, k <> "description" -> k <> "x-schema-version" ->
       dict_get k info' = dict_get k info).
Proof.
  apply (add_schema_documentation_result buy_document
           documented_buy_document).
  reflexivity.
Defined.

Lemma add_schema_documentation_idempotent_witness :
  _add_schema_documentation documented_buy_document
  = Ok documented_buy_document.
Proof.
  apply (add_schema_documentation_idempotent buy_document
           documented_buy_document).
  reflexivity.
Defined.

(* ================================================================== *)
(** * Loading the registry *)
(* ================================================================== *)

Section Extraction.

Lemma extract_definition_registry (st : SwaggerSchemaApplier * dict)
  (name : string) (definition : dict) :
  schema_mappings (fst (extract_definition st (name, definition)))
  = assoc_set name definition (schema_mappings (fst st)).
Proof.
  destruct st as [self vp]. cbn [extract_definition fst].
  now destruct (dict_get "pattern" definition).
Qed.

Lemma extract_definition_patterns (st : SwaggerSchemaApplier * dict)
  (name : string) (definition : dict) :
  snd (extract_definition st (name, definition))
  = match dict_get "pattern" definition with
    | Some pattern => dict_set name pattern (snd st)
    | None => snd st
    end.
Proof.
  destruct st as [self vp]. cbn [extract_definition snd].
  now destruct (dict_get "pattern" definition).
Qed.

(** Definitions under other names do not disturb an entry. *)
Lemma extract_keeps_other (items : list (string * dict))
  (st : SwaggerSchemaApplier * dict) (k : string) :
  ~ In k (map fst items) ->
  assoc k (schema_mappings (fst (fold_left extract_definition items st)))
  = assoc k (schema_mappings (fst st)) /\
  dict_get k (snd (fold_left extract_definition items st))
  = dict_get k (snd st).
Proof.
  revert st. induction items as [|[n d] items IH]; intros st H; [auto|].
  cbn [fold_left].
  destruct (IH (extract_definition st (n, d))) as [H1 H2].
  { intros Hin. apply H. now right. }
  assert (N : n <> k) by (intros ->; apply H; now left).
  rewrite H1, H2, extract_definition_registry, extract_definition_patterns.
  split.
  - now apply assoc_set_neq.
  - destruct (dict_get "pattern" d); [|reflexivity].
    unfold dict_get, dict_set. now apply assoc_set_neq.
Qed.

Lemma extract_stores (items : list (string * dict))
  (st : SwaggerSchemaApplier * dict) (name : string) (definition : dict) :
  NoDup (map fst items) ->
  In (name, definition) items ->
  assoc name (schema_mappings (fst (fold_left extract_definition items st)))
  = Some definition /\
  dict_get name (snd (fold_left extract_definition items st))
  = match dict_get "pattern" definition with
    | Some pattern => Some pattern
    | None => dict_get name (snd st)
    end.
Proof.
  revert st. induction items as [|[n d] items IH]; intros st Hnd Hin.
  - destruct Hin.
  - cbn [map fst] in Hnd. inversion Hnd as [|? ? Hn Hnd']; subst.
    cbn [fold_left]. destruct Hin as [[= -> ->]|Hin].
    + destruct (extract_keeps_other items
                  (extract_definition st (name, definition)) name Hn)
        as [H1 H2].
      rewrite H1, H2, extract_definition_registry,
        extract_definition_patterns.
      split; [apply assoc_set_eq|].
      destruct (dict_get "pattern" definition); [|reflexivity].
      unfold dict_get, dict_set. apply assoc_set_eq.
    + destruct (IH (extract_definition st (n, d)) Hnd' Hin) as [H1 H2].
      split; [exact H1|]. rewrite H2.
      destruct (dict_get "pattern" definition); [reflexivity|].
      rewrite extract_definition_patterns.
      assert (N : n <> name).
      { intros ->. apply Hn. apply in_map_iff. now exists (name, definition). }
      destruct (dict_get "pattern" d); [|reflexivity].
      unfold dict_get, dict_set. now apply assoc_set_neq.
Qed.

End Extraction.

(** X26.  After [_extract_schema_definitions] every definition of the
    schema file can be read back: the lookup by its name returns that very
    name, the registry holds the definition under it, and
    [validation_patterns] holds its pattern when it has one. *)
Theorem extract_schema_definitions_round_trip (self : SwaggerSchemaApplier)
  (validation_patterns : dict) (items : list (string * dict))
  (name : string) (definition : dict) :
  NoDup (map fst items) ->
  In (name, definition) items ->
  _find_schema_key_case_insensitive
    (fst (_extract_schema_definitions self validation_patterns (Some items)))
    name = Some name /\
  registry_getitem
    (fst (_extract_schema_definitions self validation_patterns (Some items)))
    name = Ok definition /\
  (forall pattern, dict_get "pattern" definition = Some pattern ->
     dict_get name
       (snd (_extract_schema_definitions self validation_patterns
               (Some items)))
     = Some pattern).
Proof.
  intros Hnd Hin. cbn [_extract_schema_definitions].
  destruct (extract_stores items (self, validation_patterns) name definition
              Hnd Hin) as [H1 H2].
  split; [|split].
  - unfold _find_schema_key_case_insensitive, assoc_mem. now rewrite H1.
  - unfold registry_getitem. now rewrite H1.
  - intros pattern Hp. now rewrite H2, Hp.
Qed.

Lemma extract_schema_definitions_round_trip_witness :
  _find_schema_key_case_insensitive
    (fst (_extract_schema_definitions new_applier [] (Some sample_definitions)))
    "Date8" = Some "Date8" /\
  registry_getitem
    (fst (_extract_schema_definitions new_applier [] (Some sample_definitions)))
    "Date8" = Ok [("type", JStr "string"); ("pattern", JStr "^\d{8}$")] /\
  (forall pattern,
     dict_get "pattern" [("type", JStr "string"); ("pattern", JStr "^\d{8}$")]
     = Some pattern ->
     dict_get "Date8"
       (snd (_extract_schema_definitions new_applier []
               (Some sample_definitions)))
     = Some pattern).
Proof.
  apply (extract_schema_definitions_round_trip new_applier []
           sample_definitions "Date8"
           [("type", JStr "string"); ("pattern", JStr "^\d{8}$")]).
  - repeat constructor; simpl; intuition discriminate.
  - simpl. tauto.
Defined.

(* ================================================================== *)
(** * The component step and the whole pipeline *)
(* ================================================================== *)

Section BaseTypes.

Variable self : SwaggerSchemaApplier.

Lemma add_base_type_get (schemas : dict) (type_name k : string) :
  dict_get k (add_base_type self schemas type_name)
  = if type_name =? k
    then match assoc k (schema_mappings self) with
         | Some d => Some (JObj d)
         | None => dict_get k schemas
         end
    else dict_get k schemas.
Proof.
  unfold add_base_type.
  destruct (String.eqb_spec type_name k) as [->|N].
  - destruct (assoc k (schema_mappings self)); [|reflexivity].
    unfold dict_get, dict_set. apply assoc_set_eq.
  - destruct (assoc type_name (schema_mappings self)); [|reflexivity].
    unfold dict_get, dict_set. now apply assoc_set_neq.
Qed.

Lemma base_loop_get (order : list string) (schemas : dict) (k : string) :
  dict_get k (fold_left (add_base_type self) order schemas)
  = if existsb (String.eqb k) order
    then match assoc k (schema_mappings self) with
         | Some d => Some (JObj d)
         | None => dict_get k schemas
         end
    else dict_get k schemas.
Proof.
  revert schemas. induction order as [|t order IH]; intros schemas.
  - reflexivity.
  - cbn [fold_left existsb]. rewrite IH, add_base_type_get.
    rewrite (String.eqb_sym k t).
    destruct (t =? k), (existsb (String.eqb k) order),
      (assoc k (schema_mappings self)); reflexivity.
Qed.

Lemma assoc_In {A : Type} (k : string) (a : A) (l : list (string * A)) :
  assoc k l = Some a -> In (k, a) l.
Proof.
  induction l as [|[k0 a0] l IH]; cbn [assoc]; [discriminate|].
  destruct (String.eqb_spec k0 k) as [->|N].
  - intros [= ->]. now left.
  - intros H. right. now apply IH.
Qed.

Lemma assoc_none {A : Type} (k : string) (l : list (string * A)) :
  assoc k l = None -> ~ In k (map fst l).
Proof.
  intros H Hin. apply assoc_mem_In in Hin. unfold assoc_mem in Hin.
  now rewrite H in Hin.
Qed.

Lemma add_enum_types_get (schemas : dict) (k : string) :
  dict_get k (_add_enum_types schemas)
  = match assoc k enums with
    | Some e => Some (JObj e)
    | None => dict_get k schemas
    end.
Proof.
  destruct (assoc k enums) as [e|] eqn:E.
  - apply add_enum_types_overwrites. now apply assoc_In.
  - unfold _add_enum_types. apply fold_set_other. now apply assoc_none.
Qed.

Lemma existsb_permutation {A : Type} (f : A -> bool) (l l' : list A) :
  Permutation l l' -> existsb f l = existsb f l'.
Proof.
  intros P. destruct (existsb f l') eqn:E.
  - apply existsb_exists in E as [x [Hx Hf]]. apply existsb_exists.
    exists x. split; [|exact Hf]. apply (Permutation_in x (Permutation_sym P) Hx).
  - destruct (existsb f l) eqn:E'; [|reflexivity].
    apply existsb_exists in E' as [x [Hx Hf]].
    assert (existsb f l' = true) as C.
    { apply existsb_exists. exists x. split; [|exact Hf].
      apply (Permutation_in x P Hx). }
    congruence.
Qed.

End BaseTypes.

(** X27.  Whatever order the set of base types is iterated in, the schema
    set [_add_base_validation_types] returns reads the same: an enum name
    holds the overlay's record, even when the registry defines that name;
    any other base type the registry defines holds the registry's record;
    everything else is as it was. *)
Theorem add_base_validation_types_lookup (self : SwaggerSchemaApplier)
  (iteration_order : list string) (schemas : dict) (k : string) :
  Permutation iteration_order all_schema_types ->
  dict_get k (_add_base_validation_types self iteration_order schemas)
  = match assoc k enums with
    | Some e => Some (JObj e)
    | None =>
        if existsb (String.eqb k) all_schema_types
        then match assoc k (schema_mappings self) with
             | Some d => Some (JObj d)
             | None => dict_get k schemas
             end
        else dict_get k schemas
    end.
Proof.
  intros P. unfold _add_base_validation_types. cbv zeta.
  rewrite add_enum_types_get, base_loop_get.
  now rewrite (existsb_permutation _ _ _ P).
Qed.

Lemma add_base_validation_types_lookup_witness :
  dict_get "String15"
    (_add_base_validation_types scenario_registry all_schema_types [])
  = match assoc "String15" enums with
    | Some e => Some (JObj e)
    | None =>
        if existsb (String.eqb "String15") all_schema_types
        then match assoc "String15" (schema_mappings scenario_registry) with
             | Some d => Some (JObj d)
             | None => dict_get "String15" []
             end
        else dict_get "String15" []
    end.
Proof.
  apply (add_base_validation_types_lookup scenario_registry all_schema_types
           [] "String15").
  apply Permutation_refl.
Defined.

Section Components.

Variable self : SwaggerSchemaApplier.
Variable iteration_order : list string.

Lemma dict_mem_get (k : string) (d : dict) :
  dict_mem k d = true <-> exists v, dict_get k d = Some v.
Proof.
  unfold dict_mem, assoc_mem, dict_get.
  destruct (assoc k d); split; eauto; [discriminate | intros [v H]; discriminate].
Qed.

Lemma dict_mem_same_keys (k : string) (d d' : dict) :
  map fst d' = map fst d -> dict_mem k d' = dict_mem k d.
Proof.
  intros E. unfold dict_mem.
  destruct (assoc_mem k d) eqn:H.
  - apply assoc_mem_In. rewrite E. now apply assoc_mem_In.
  - destruct (assoc_mem k d') eqn:H'; [|reflexivity].
    apply assoc_mem_In in H'. rewrite E in H'. apply assoc_mem_In in H'.
    congruence.
Qed.

(** The base types and the enums only add names. *)
Lemma add_base_validation_types_members (schemas : dict) (name : string) :
  dict_mem name schemas = true \/ In name (map fst enums) ->
  dict_mem name (_add_base_validation_types self iteration_order schemas)
  = true.
Proof.
  intros H. apply dict_mem_get.
  unfold _add_base_validation_types. cbv zeta.
  rewrite add_enum_types_get, base_loop_get.
  destruct (assoc name enums) as [e|] eqn:E; [eauto|].
  destruct H as [H|H].
  - apply dict_mem_get in H as [v Hv]. rewrite Hv.
    destruct (existsb _ _), (assoc name (schema_mappings self)); eauto.
  - now apply assoc_none in E.
Qed.

(** What a successful run of [_enhance_swagger_components] went through. *)
Lemma enhance_swagger_components_steps (doc doc' : dict)
  (strict_mode : bool) :
  _enhance_swagger_components self iteration_order doc strict_mode = Ok doc' ->
  exists comps schemas schemas',
    match dict_get "components" doc with
    | Some c => c = JObj comps
    | None => comps = []
    end /\
    match dict_get "schemas" comps with
    | Some s => s = JObj schemas
    | None => schemas = []
    end /\
    _enhance_existing_schemas self
      (_add_base_validation_types self iteration_order schemas) strict_mode
    = Ok schemas' /\
    doc' = with_schemas doc comps schemas'.
Proof.
  unfold _enhance_swagger_components. cbv zeta.
  set (doc0 := if negb (dict_mem "components" doc)
               then dict_set "components" (JObj []) doc else doc).
  assert (H0 : exists x, dict_get "components" doc0 = Some x /\
                         (forall y, dict_set "components" y doc0
                                    = dict_set "components" y doc) /\
                         match dict_get "components" doc with
                         | Some c => x = c
                         | None => x = JObj []
                         end).
  { subst doc0. unfold dict_mem, assoc_mem. fold (dict_get "components" doc).
    destruct (dict_get "components" doc) as [c|] eqn:E; cbn [negb].
    - exists c. auto.
    - exists (JObj []). unfold dict_get, dict_set. rewrite assoc_set_eq.
      repeat split. intros y. now rewrite assoc_set_set. }
  destruct H0 as [x [Hx [Hset Horigin]]].
  cbn [py_getitem]. rewrite Hx. cbn [bind].
  destruct (py_contains "schemas" x) as [has|] eqn:Eh; [|discriminate].
  cbn [bind].
  destruct x as [| | | | |comps]; try (destruct has; discriminate).
  cbn [py_contains] in Eh. injection Eh as Eh.
  set (c1 := if negb has then dict_set "schemas" (JObj []) comps else comps).
  assert (E1 : (if negb has then py_setitem (JObj comps) "schemas" (JObj [])
                else Ok (JObj comps)) = Ok (JObj c1)).
  { subst c1. now destruct has. }
  rewrite E1. cbn [bind py_getitem].
  assert (H1 : exists s, dict_get "schemas" c1 = Some s /\
                         (forall y, dict_set "schemas" y c1
                                    = dict_set "schemas" y comps) /\
                         match dict_get "schemas" comps with
                         | Some s0 => s = s0
                         | None => s = JObj []
                         end).
  { subst c1 has. unfold dict_mem, assoc_mem.
    fold (dict_get "schemas" comps).
    destruct (dict_get "schemas" comps) as [s0|] eqn:E; cbn [negb].
    - exists s0. auto.
    - exists (JObj []). unfold dict_get, dict_set. rewrite assoc_set_eq.
      repeat split. intros y. now rewrite assoc_set_set. }
  destruct H1 as [s [Hs [Hsset Hsorigin]]].
  rewrite Hs. cbn [bind].
  destruct s as [| | | | |schemas]; try discriminate.
  cbn [item_assignable bind].
  destruct (_enhance_existing_schemas self _ strict_mode) as [schemas'|] eqn:Ee;
    [|discriminate].
  cbn [bind py_setitem]. intros [= <-].
  exists comps, schemas, schemas'. repeat split.
  - destruct (dict_get "components" doc); [now subst | now injection Horigin].
  - destruct (dict_get "schemas" comps); [now subst | now injection Hsorigin].
  - exact Ee.
  - unfold with_schemas. now rewrite Hset, Hsset.
Qed.

End Components.

Lemma enhance_swagger_components_outcome (self : SwaggerSchemaApplier)
  (iteration_order : list string) (doc doc' : dict) (strict_mode : bool) :
  _enhance_swagger_components self iteration_order doc strict_mode = Ok doc' ->
  exists comps' schemas',
    dict_get "components" doc' = Some (JObj comps') /\
    dict_get "schemas" comps' = Some (JObj schemas') /\
    (forall name, In name (map fst enums) -> dict_mem name schemas' = true) /\
    (forall comps schemas name,
       dict_get "components" doc = Some (JObj comps) ->
       dict_get "schemas" comps = Some (JObj schemas) ->
       dict_mem name schemas = true -> dict_mem name schemas' = true) /\
    (forall k, k <> "components" -> dict_get k doc' = dict_get k doc).
Proof.
  intros H.
  destruct (enhance_swagger_components_steps self iteration_order doc doc'
              strict_mode H) as [comps [schemas [schemas' [Hc [Hs [He ->]]]]]].
  exists (dict_set "schemas" (JObj schemas') comps), schemas'.
  pose proof (for_items_keys _ _ _ He) as Hkeys.
  split; [|split; [|split; [|split]]].
  - unfold with_schemas, dict_get, dict_set. apply assoc_set_eq.
  - unfold dict_get, dict_set. apply assoc_set_eq.
  - intros name Hn. rewrite (dict_mem_same_keys name _ _ Hkeys).
    apply add_base_validation_types_members. now right.
  - intros comps0 schemas0 name Hc0 Hs0 Hn.
    rewrite Hc0 in Hc. injection Hc as ->. rewrite Hs0 in Hs.
    injection Hs as ->.
    rewrite (dict_mem_same_keys name _ _ Hkeys).
    apply add_base_validation_types_members. now left.
  - intros k Hk. unfold with_schemas, dict_get, dict_set.
    apply assoc_set_neq. congruence.
Qed.

(** X28.  When [_enhance_swagger_components] returns, the document has a
    schema set, created if it was missing, that still has every name the
    user's schema set had and has every enum name; the rest of the
    document is as it was. *)
Theorem enhance_swagger_components_result (self : SwaggerSchemaApplier)
  (iteration_order : list string) (doc doc' : dict) (strict_mode : bool) :
  _enhance_swagger_components self iteration_order doc strict_mode = Ok doc' ->
  exists comps' schemas',
    dict_get "components" doc' = Some (JObj comps') /\
    dict_get "schemas" comps' = Some (JObj schemas') /\
    (forall name, In name (map fst enums) -> dict_mem name schemas' = true) /\
    (forall comps schemas name,
       dict_get "components" doc = Some (JObj comps) ->
       dict_get "schemas" comps = Some (JObj schemas) ->
       dict_mem name schemas = true -> dict_mem name schemas' = true) /\
    (forall k, k <> "components" -> dict_get k doc' = dict_get k doc).
Proof. apply enhance_swagger_components_outcome. Qed.

Section Pipeline.

Lemma with_schemas_same (doc comps schemas : dict) :
  dict_get "components" doc = Some (JObj comps) ->
  dict_get "schemas" comps = Some (JObj schemas) ->
  with_schemas doc comps schemas = doc.
Proof.
  intros Hc Hs. unfold with_schemas, dict_set.
  rewrite (assoc_set_same "schemas" (JObj schemas) comps Hs).
  now apply assoc_set_same.
Qed.

Lemma inject_keeps_schemas (types : list (string * dict)) (title : json)
  (doc doc' comps schemas : dict) :
  dict_get "components" doc = Some (JObj comps) ->
  dict_get "schemas" comps = Some (JObj schemas) ->
  inject_transaction_type types title doc = Ok doc' ->
  exists schemas',
    doc' = with_schemas doc comps schemas' /\
    forall n, dict_mem n schemas = true -> dict_mem n schemas' = true.
Proof.
  intros Hc Hs. induction types as [|[api def] types IH].
  - cbn. intros [= <-]. exists schemas. split; [|auto].
    symmetry. now apply with_schemas_same.
  - cbn [inject_transaction_type].
    destruct (py_lower title) as [t|]; [|discriminate]. cbn [bind].
    destruct (PyStr.contains t (PyStr.lower api)); [|exact IH].
    cbn [py_getitem]. rewrite Hc. cbn [bind py_getitem]. rewrite Hs.
    cbn [bind py_setitem]. intros [= <-].
    eexists. split; [reflexivity|].
    intros n Hn. unfold dict_mem, dict_set. rewrite assoc_mem_set.
    unfold dict_mem in Hn. rewrite Hn. apply orb_true_r.
Qed.

Lemma transaction_keeps_schemas (doc doc' comps schemas : dict) :
  dict_get "components" doc = Some (JObj comps) ->
  dict_get "schemas" comps = Some (JObj schemas) ->
  _add_transaction_type_validations doc = Ok doc' ->
  exists schemas',
    doc' = with_schemas doc comps schemas' /\
    forall n, dict_mem n schemas = true -> dict_mem n schemas' = true.
Proof.
  intros Hc Hs. unfold _add_transaction_type_validations. cbn [bind].
  destruct (py_get _ "title" (JStr "")) as [title|]; [|discriminate].
  cbn [bind]. rewrite Hc. cbn [py_contains bind].
  assert (E : dict_mem "schemas" comps = true).
  { apply dict_mem_get. eauto. }
  rewrite E. now apply inject_keeps_schemas.
Qed.

Lemma apply_field_validations_silent (doc : dict) (r : unit) :
  _apply_field_validations doc = Ok r -> r = tt.
Proof. now destruct r. Qed.

End Pipeline.

(** X29.  When the whole pipeline returns, the document has a schema set
    that holds the seven enums, [ErrorCode] and [CorrlatnID] and still
    every name the user's schema set had, and an [info] object with a
    schema version and a description containing the enhancement note. *)
Theorem apply_schema_to_swagger_result (iteration_order : list string)
  (doc doc' : dict) (definitions : option (list (string * dict)))
  (strict_mode : bool) :
  apply_schema_to_swagger iteration_order doc definitions strict_mode
  = Ok doc' ->
  exists comps schemas info description,
    dict_get "components" doc' = Some (JObj comps) /\
    dict_get "schemas" comps = Some (JObj schemas) /\
    dict_get "info" doc' = Some (JObj info) /\
    (forall name,
       In name (map fst enums) \/ In name (map fst error_schemas) ->
       dict_mem name schemas = true) /\
    (forall comps0 schemas0 name,
       dict_get "components" doc = Some (JObj comps0) ->
       dict_get "schemas" comps0 = Some (JObj schemas0) ->
       dict_mem name schemas0 = true -> dict_mem name schemas = true) /\
    dict_mem "x-schema-version" info = true /\
    dict_get "description" info = Some description /\
    py_contains enhancement_note description = Ok true.
Proof.
  unfold apply_schema_to_swagger. cbv zeta.
  set (self := fst (_extract_schema_definitions new_applier [] definitions)).
  destruct (_enhance_swagger_components self iteration_order doc strict_mode)
    as [doc1|] eqn:E1; [|discriminate].
  cbn [bind].
  destruct (_apply_field_validations doc1) as [u|]; [|discriminate].
  cbn [bind].
  destruct (_add_transaction_type_validations doc1) as [doc2|] eqn:E2;
    [|discriminate].
  cbn [bind].
  destruct (_enhance_error_schemas doc2) as [doc3|] eqn:E3; [|discriminate].
  cbn [bind]. intros E4.
  destruct (enhance_swagger_components_outcome self iteration_order doc doc1
              strict_mode E1) as [c1 [s1 [Hc1 [Hs1 [Henum [Huser _]]]]]].
  destruct (transaction_keeps_schemas doc1 doc2 c1 s1 Hc1 Hs1 E2)
    as [s2 [-> Hkeep2]].
  assert (Hc2 : dict_get "components" (with_schemas doc1 c1 s2)
                = Some (JObj (dict_set "schemas" (JObj s2) c1))).
  { unfold with_schemas, dict_get, dict_set. apply assoc_set_eq. }
  assert (Hs2 : dict_get "schemas" (dict_set "schemas" (JObj s2) c1)
                = Some (JObj s2)).
  { unfold dict_get, dict_set. apply assoc_set_eq. }
  rewrite (enhance_error_schemas_object _ _ _ Hc2 Hs2) in E3.
  injection E3 as <-.
  set (s3 := add_absent error_schemas s2) in *.
  set (c3 := dict_set "schemas" (JObj s3) (dict_set "schemas" (JObj s2) c1))
    in *.
  destruct (add_schema_documentation_steps _ _ E4)
    as [info0 [info [description [_ [_ [-> [Hd [Hn [_ [Hv _]]]]]]]]]].
  exists c3, s3, info, description.
  split; [|split; [|split; [|split; [|split; [|split; [|split]]]]]]; auto.
  - unfold with_schemas, dict_get, dict_set.
    rewrite assoc_set_neq by discriminate. apply assoc_set_eq.
  - subst c3. unfold dict_get, dict_set. apply assoc_set_eq.
  - unfold dict_get, dict_set. apply assoc_set_eq.
  - intros name [Hin|Hin]; apply dict_mem_get; subst s3;
      rewrite add_absent_get.
    + specialize (Hkeep2 name (Henum name Hin)).
      apply dict_mem_get in Hkeep2 as [v ->]. eauto.
    + destruct (dict_get name s2); [eauto|].
      apply assoc_mem_In in Hin. unfold assoc_mem in Hin.
      destruct (assoc name error_schemas); [cbn; eauto | discriminate].
  - intros comps0 schemas0 name Hc0 Hs0 Hin.
    apply dict_mem_get. subst s3. rewrite add_absent_get.
    specialize (Hkeep2 name (Huser comps0 schemas0 name Hc0 Hs0 Hin)).
    apply dict_mem_get in Hkeep2 as [v ->]. eauto.
Qed.

Lemma enhance_swagger_components_result_witness :
  exists comps' schemas',
    dict_get "components" scenario_components = Some (JObj comps') /\
    dict_get "schemas" comps' = Some (JObj schemas') /\
    (forall name, In name (map fst enums) -> dict_mem name schemas' = true) /\
    (forall comps schemas name,
       dict_get "components" scenario_document = Some (JObj comps) ->
       dict_get "schemas" comps = Some (JObj schemas) ->
       dict_mem name schemas = true -> dict_mem name schemas' = true) /\
    (forall k, k <> "components" ->
       dict_get k scenario_components = dict_get k scenario_document).
Proof.
  apply (enhance_swagger_components_result scenario_registry
           all_schema_types scenario_document scenario_components true).
  reflexivity.
Defined.

Lemma apply_schema_to_swagger_result_witness :
  exists comps schemas info description,
    dict_get "components" scenario_result = Some (JObj comps) /\
    dict_get "schemas" comps = Some (JObj schemas) /\
    dict_get "info" scenario_result = Some (JObj info) /\
    (forall name,
       In name (map fst enums) \/ In name (map fst error_schemas) ->
       dict_mem name schemas = true) /\
    (forall comps0 schemas0 name,
       dict_get "components" scenario_document = Some (JObj comps0) ->
       dict_get "schemas" comps0 = Some (JObj schemas0) ->
       dict_mem name schemas0 = true -> dict_mem name schemas = true) /\
    dict_mem "x-schema-version" info = true /\
    dict_get "description" info = Some description /\
    py_contains enhancement_note description = Ok true.
Proof.
  apply (apply_schema_to_swagger_result all_schema_types scenario_document
           scenario_result scenario_definitions true).
  reflexivity.
Defined.

(** The second and third end-to-end scenarios through the whole pipeline:
    the property gains the constraints of String15 and keeps its
    description, and the Buy record is injected. *)
Example scenario_through_pipeline :
  exists comps schemas account properties,
    dict_get "components" scenario_result = Some (JObj comps) /\
    dict_get "schemas" comps = Some (JObj schemas) /\
    dict_get "TrxnTypBuy" schemas = Some (JObj buy_record) /\
    dict_get "Account" schemas = Some (JObj account) /\
    dict_get "properties" account = Some (JObj properties) /\
    dict_get "FundAcctID" properties
    = Some (JObj [ ("description", JStr "Fund account");
                   ("type", JStr "string");
                   ("maxLength", JNum 15) ]).
Proof. repeat eexists. Qed.

(* ================================================================== *)
(** * The conversion of a whole schema *)
(* ================================================================== *)

Section WholeSchema.

Lemma assoc_app {A : Type} (k : string) (l1 l2 : list (string * A)) :
  assoc k (l1 ++ l2)
  = match assoc k l1 with
    | Some a => Some a
    | None => assoc k l2
    end.
Proof.
  induction l1 as [|[k0 a0] l1 IH]; [reflexivity|].
  cbn [app assoc]. now destruct (k0 =? k).
Qed.

(** After a list of assignments a key holds what was assigned last. *)
Lemma write_all_get (writes : list (string * dict)) (definitions : dict)
  (k : string) :
  dict_get k (write_all writes definitions)
  = match assoc k (rev writes) with
    | Some t => Some (JObj t)
    | None => dict_get k definitions
    end.
Proof.
  revert definitions. induction writes as [|[n t] writes IH];
    intros definitions; [reflexivity|].
  unfold write_all in *. cbn [fold_left fst snd rev].
  rewrite IH, assoc_app. destruct (assoc k (rev writes)); [reflexivity|].
  cbn [assoc]. rewrite dict_get_set. now destruct (n =? k).
Qed.

Lemma write_all_app (w1 w2 : list (string * dict)) (definitions : dict) :
  write_all (w1 ++ w2) definitions = write_all w2 (write_all w1 definitions).
Proof. unfold write_all. apply fold_left_app. Qed.

Lemma set_definition_ok (json_schema definitions : dict) (json_name : string)
  (json_type : dict) :
  dict_get "definitions" json_schema = Some (JObj definitions) ->
  set_definition json_schema json_name json_type
  = Ok (dict_set "definitions"
          (JObj (dict_set json_name (JObj json_type) definitions))
          json_schema).
Proof.
  intros H. unfold set_definition. cbn [py_getitem]. now rewrite H.
Qed.

Lemma simple_type_truthy (t : SimpleType) (name : string) :
  truthy (JObj (_convert_simple_type t name)) = true.
Proof.
  destruct (convert_simple_type_has_type t name) as [v Hv].
  destruct (_convert_simple_type t name); [discriminate | reflexivity].
Qed.

Lemma complex_type_truthy (t : ComplexType) (name : string) :
  truthy (JObj (_convert_complex_type t name)) = true.
Proof.
  unfold _convert_complex_type.
  destruct (collect_members t) as [props [|r req]]; reflexivity.
Qed.

Lemma with_definitions_get (json_schema definitions : dict) :
  dict_get "definitions" (with_definitions json_schema definitions)
  = Some (JObj definitions).
Proof. unfold with_definitions, dict_get, dict_set. apply assoc_set_eq. Qed.

Lemma with_definitions_set (json_schema d d' : dict) :
  dict_set "definitions" (JObj d') (with_definitions json_schema d)
  = with_definitions json_schema d'.
Proof. unfold with_definitions, dict_set. apply assoc_set_set. Qed.

Variable base : dict.

Lemma process_simple_types_writes (tys : list (string * XsdType))
  (definitions : dict) :
  _process_simple_types tys (with_definitions base definitions)
  = Ok (with_definitions base
          (write_all
             (flat_map
                (fun item =>
                   match snd item with
                   | Xsd_simple t =>
                       [(_convert_type_name (fst item),
                         _convert_simple_type t (fst item))]
                   | _ => []
                   end) tys)
             definitions)).
Proof.
  revert definitions. induction tys as [|[name ty] tys IH];
    intros definitions; [reflexivity|].
  cbn [_process_simple_types flat_map fst snd].
  destruct ty as [t| |]; cbn [bind app]; try apply IH.
  unfold set_definition_if. rewrite simple_type_truthy.
  rewrite (set_definition_ok _ definitions) by apply with_definitions_get.
  rewrite with_definitions_set. cbn [bind]. rewrite IH. reflexivity.
Qed.

Lemma process_complex_types_writes (tys : list (string * XsdType))
  (definitions : dict) :
  _process_complex_types tys (with_definitions base definitions)
  = Ok (with_definitions base
          (write_all
             (flat_map
                (fun item =>
                   match snd item with
                   | Xsd_complex t =>
                       [(_convert_type_name (fst item),
                         _convert_complex_type t (fst item))]
                   | _ => []
                   end) tys)
             definitions)).
Proof.
  revert definitions. induction tys as [|[name ty] tys IH];
    intros definitions; [reflexivity|].
  cbn [_process_complex_types flat_map fst snd].
  destruct ty as [|t|]; cbn [bind app]; try apply IH.
  unfold set_definition_if. rewrite complex_type_truthy.
  rewrite (set_definition_ok _ definitions) by apply with_definitions_get.
  rewrite with_definitions_set. cbn [bind]. rewrite IH. reflexivity.
Qed.

Lemma process_global_elements_writes (els : list (string * GlobalElement))
  (definitions : dict) :
  _process_global_elements els (with_definitions base definitions)
  = Ok (with_definitions base
          (write_all
             (flat_map
                (fun item =>
                   match ge_type (snd item) with
                   | Some (Xsd_simple t, _) =>
                       [(_convert_type_name (fst item),
                         _convert_simple_type t (fst item))]
                   | Some (_, type_name) =>
                       [(_convert_type_name (fst item),
                         ref_to (name_or type_name (fst item)))]
                   | None => []
                   end) els)
             definitions)).
Proof.
  revert definitions. induction els as [|[name el] els IH];
    intros definitions; [reflexivity|].
  cbn [_process_global_elements flat_map fst snd].
  destruct (ge_type el) as [[ty tn]|]; [|cbn [bind app]; apply IH].
  destruct ty as [t| |]; cbn [bind app].
  - unfold set_definition_if. rewrite simple_type_truthy.
    rewrite (set_definition_ok _ definitions) by apply with_definitions_get.
    rewrite with_definitions_set. cbn [bind]. rewrite IH. reflexivity.
  - rewrite (set_definition_ok _ definitions) by apply with_definitions_get.
    rewrite with_definitions_set. cbn [bind]. rewrite IH. reflexivity.
  - rewrite (set_definition_ok _ definitions) by apply with_definitions_get.
    rewrite with_definitions_set. cbn [bind]. rewrite IH. reflexivity.
Qed.

End WholeSchema.

Lemma convert_xsd_to_json_schema_value (schema : XMLSchema) :
  convert_xsd_to_json_schema schema
  = let definitions := write_all (definition_writes schema) [] in
    let json_schema := with_definitions initial_json_schema definitions in
    Ok (if dict_mem "OrdSet" definitions
        then dict_set "properties" root_properties json_schema
        else json_schema).
Proof.
  unfold convert_xsd_to_json_schema. cbv zeta.
  change initial_json_schema
    with (with_definitions initial_json_schema []) at 1.
  rewrite process_simple_types_writes. cbn [bind].
  rewrite process_complex_types_writes. cbn [bind].
  rewrite process_global_elements_writes. cbn [bind py_getitem].
  rewrite with_definitions_get. cbn [bind py_contains].
  unfold definition_writes. rewrite !write_all_app.
  fold (simple_writes schema). fold (complex_writes schema).
  fold (element_writes schema).
  now destruct (dict_mem "OrdSet" _).
Qed.

(** X30.  The conversion of a parsed schema never raises.  Its result has
    the fixed header, under [definitions] each normalized name with the
    record written last for it (complex types are written after simple
    types, global elements after both), and a root property exactly when
    one of these names is OrdSet. *)
Theorem convert_xsd_to_json_schema_result (schema : XMLSchema) :
  exists json_schema definitions,
    convert_xsd_to_json_schema schema = Ok json_schema /\
    dict_get "definitions" json_schema = Some (JObj definitions) /\
    (forall k,
       dict_get k definitions
       = option_map JObj (assoc k (rev (definition_writes schema)))) /\
    dict_get "properties" json_schema
    = (if dict_mem "OrdSet" definitions then Some root_properties else None) /\
    (forall k, k <> "definitions" -> k <> "properties" ->
       dict_get k json_schema = dict_get k initial_json_schema).
Proof.
  rewrite convert_xsd_to_json_schema_value. cbv zeta.
  set (definitions := write_all (definition_writes schema) []).
  eexists. exists definitions. split; [reflexivity|].
  assert (G : forall k v, k <> "properties" ->
                dict_get k (dict_set "properties" v
                              (with_definitions initial_json_schema definitions))
                = dict_get k (with_definitions initial_json_schema definitions)).
  { intros k v N. unfold dict_get, dict_set. apply assoc_set_neq. congruence. }
  split; [|split; [|split]].
  - destruct (dict_mem "OrdSet" definitions);
      rewrite ?G by discriminate; apply with_definitions_get.
  - intros k. subst definitions. rewrite write_all_get.
    now destruct (assoc k (rev (definition_writes schema))).
  - destruct (dict_mem "OrdSet" definitions).
    + unfold dict_get, dict_set. apply assoc_set_eq.
    + reflexivity.
  - intros k N1 N2.
    assert (E : dict_get k (with_definitions initial_json_schema definitions)
                = dict_get k initial_json_schema).
    { unfold with_definitions, dict_get, dict_set. apply assoc_set_neq.
      congruence. }
    destruct (dict_mem "OrdSet" definitions); rewrite ?G by exact N2; exact E.
Qed.

Lemma assoc_mem_rev {A : Type} (k : string) (l : list (string * A)) :
  In k (map fst l) -> exists a, assoc k (rev l) = Some a.
Proof.
  intros H. apply assoc_mem_true. apply assoc_mem_In.
  rewrite map_rev. now apply in_rev in H.
Qed.

(** Every simple and complex type of the schema has a definition under its
    normalized name: its own record, or that of a namesake written
    later. *)
Lemma convert_defines_every_type (schema : XMLSchema) (json_schema : dict)
  (name : string) (type_obj : XsdType) :
  convert_xsd_to_json_schema schema = Ok json_schema ->
  In (name, type_obj) (types schema) ->
  type_obj <> Xsd_other ->
  exists definitions record,
    dict_get "definitions" json_schema = Some (JObj definitions) /\
    dict_get (_convert_type_name name) definitions = Some (JObj record).
Proof.
  intros H Hin Hty.
  rewrite convert_xsd_to_json_schema_value in H. cbv zeta in H.
  set (definitions := write_all (definition_writes schema) []) in *.
  assert (Hd : dict_get "definitions" json_schema = Some (JObj definitions)).
  { injection H as <-. destruct (dict_mem "OrdSet" definitions).
    - unfold dict_get, dict_set. rewrite assoc_set_neq by discriminate.
      apply with_definitions_get.
    - apply with_definitions_get. }
  assert (Hget : forall k,
             dict_get k definitions
             = option_map JObj (assoc k (rev (definition_writes schema)))).
  { intros k. subst definitions. rewrite write_all_get.
    now destruct (assoc k (rev (definition_writes schema))). }
  assert (Hk : In (_convert_type_name name)
                 (map fst (definition_writes schema))).
  { unfold definition_writes. rewrite !map_app, !in_app_iff.
    destruct type_obj as [t|t|]; [left|right; left|contradiction].
    - apply in_map_iff.
      exists (_convert_type_name name, _convert_simple_type t name).
      split; [reflexivity|]. apply in_flat_map.
      exists (name, Xsd_simple t). split; [exact Hin | now left].
    - apply in_map_iff.
      exists (_convert_type_name name, _convert_complex_type t name).
      split; [reflexivity|]. apply in_flat_map.
      exists (name, Xsd_complex t). split; [exact Hin | now left]. }
  destruct (assoc_mem_rev _ _ Hk) as [record Hr].
  exists definitions, record. split; [exact Hd|].
  now rewrite Hget, Hr.
Qed.

Lemma convert_defines_every_type_witness :
  exists definitions record,
    dict_get "definitions"
      (dict_set "properties" root_properties
         (with_definitions initial_json_schema
            (write_all (definition_writes colliding_schema) [])))
    = Some (JObj definitions) /\
    dict_get (_convert_type_name "ord_set") definitions = Some (JObj record).
Proof.
  apply (convert_defines_every_type colliding_schema _ "ord_set"
           (Xsd_simple
              {| st_facets := None; st_restrictions := None;
                 st_base_type := None; st_constraints := None;
                 st_validators := None; st_patterns := None;
                 st_python_type := None |})).
  - reflexivity.
  - simpl. tauto.
  - discriminate.
Defined.

(** Two names that normalize alike share one definition: the complex type
    ord-set, written later, replaces the simple type ord_set. *)
Example convert_colliding_names :
  exists json_schema definitions,
    convert_xsd_to_json_schema colliding_schema = Ok json_schema /\
    dict_get "definitions" json_schema = Some (JObj definitions) /\
    map fst definitions = ["OrdSet"; "Order"] /\
    dict_get "OrdSet" definitions
    = Some (JObj (_convert_complex_type
                    {| ct_content := None; ct_attributes := None |}
                    "ord-set")) /\
    dict_get "properties" json_schema = Some root_properties.
Proof. repeat eexists. Qed.

(** A type named OrdSet is filed under Ordset, so the root property is
    not added for it. *)
Example convert_ordset_has_no_root :
  exists json_schema,
    convert_xsd_to_json_schema
      {| types :=
           [("OrdSet",
             Xsd_complex {| ct_content := None; ct_attributes := None |})];
         elements := [] |} = Ok json_schema /\
    dict_get "properties" json_schema = None.
Proof. eexists. split; reflexivity. Qed.

